(** * Usage-pattern detection and workload classification

    A shallow embedding of [app/classifier/patterns.py] and
    [app/classifier/workload.py] of the ML sidecar, and the properties of
    these two modules.

    Conventions of the embedding:
    - a Python [float] is a real number ([R]): the classifier takes square
      roots ([math.sqrt], [statistics.stdev]), which the rationals do not
      have; the comparisons of the source ([<], [<=], [==], ...) are the
      decidable comparisons of [R], as booleans; rounding is not modelled.
      Where the answer of the code can hinge on the last bits of a float (a
      sum of squares that rounds to zero or away from it, an interpolation
      or a sum of weights that lands one unit in the last place off, a
      slope that sits on its threshold), the statements keep to inputs and
      bounds on which the real number and the float decide alike, and say so;
    - lengths, counts and indices are in [nat] and evaluate;
    - a naive [datetime] is the number of microseconds since an epoch that
      falls on midnight of 1970-01-01 (a Thursday), a [timedelta] is a number
      of microseconds, both in [Z];
    - a [dict] whose iteration order matters is an association list in
      insertion order;
    - an object is a record of its attributes, passed as [self];
    - the free-text outputs (reason, warning and recommendation strings,
      built with float formatting) are left out of the result records; the
      warnings of [classify], which format an integer only, are given apart
      by [classify_warnings]. *)

From Stdlib Require Import String DecimalString.
From Stdlib Require Import Reals Lra Lia ZArith List Bool.
From Stdlib Require Import Sorted Permutation.
Import ListNotations.

Open Scope R_scope.

(** ** Python numbers and list built-ins *)

Module Py.

Definition ltb (x y : R) : bool := if Rlt_dec x y then true else false.
Definition leb (x y : R) : bool := if Rle_dec x y then true else false.
Definition gtb (x y : R) : bool := ltb y x.
Definition geb (x y : R) : bool := leb y x.
Definition eqb (x y : R) : bool := if Req_dec_T x y then true else false.

(** [sum(xs)] *)
Definition sum (xs : list R) : R := fold_left Rplus xs 0.

(** [len(xs)] as a float *)
Definition len (xs : list R) : R := INR (length xs).

(** [statistics.mean(xs)]; every call site of the source guards the empty
    list, on which Python raises. *)
Definition mean (xs : list R) : R := sum xs / len xs.

(** [statistics.stdev(xs)], the sample standard deviation; every call site
    guards [len(xs) > 1]. *)
Definition stdev (xs : list R) : R :=
  let m := mean xs in
  sqrt (sum (map (fun x => (x - m) * (x - m)) xs) / (len xs - 1)).

(** [max(xs)] and [min(xs)] of a list; call sites guard the empty list. *)
Definition max_list (xs : list R) : R :=
  match xs with
  | [] => 0
  | x :: tl => fold_left Rmax tl x
  end.

Definition min_list (xs : list R) : R :=
  match xs with
  | [] => 0
  | x :: tl => fold_left Rmin tl x
  end.

(** [sorted(xs)]: the ascending rearrangement of [xs]. *)
Fixpoint insert (x : R) (l : list R) : list R :=
  match l with
  | [] => [x]
  | y :: tl => if leb x y then x :: l else y :: insert x tl
  end.

Definition sorted (xs : list R) : list R := fold_right insert [] xs.

(** [_percentile(values, p)], written twice in the source (once per class)
    with the same body.  [p] is a literal 25, 50 or 95 at every call:
    [(len - 1) * p] is integer arithmetic, [/ 100] true division and
    [int(index)] truncation.  The interpolation is taken on real numbers:
    at a weight other than 0 and 0.5 the float of the code can land one unit
    in the last place outside the two values it interpolates between (at
    [p = 95] on [[1.3, 1.3]]), so the statements about a percentile are about
    [p = 50] or about series of two levels, where it is exact. *)
Definition _percentile (values : list R) (p : nat) : R :=
  match values with
  | [] => 0
  | _ =>
      let sorted_values := sorted values in
      let n := length sorted_values in
      let index := INR ((n - 1) * p) / 100 in
      let lower := ((n - 1) * p / 100)%nat in
      let upper := (lower + 1)%nat in
      if (n <=? upper)%nat then last sorted_values 0
      else
        let weight := index - INR lower in
        nth lower sorted_values 0 * (1 - weight)
        + nth upper sorted_values 0 * weight
  end.

(** [max(d, key=d.get)] and [min(d, key=d.get)] over a dict in iteration
    order: the first key whose value is maximal (minimal). *)
Fixpoint argmax_from {K : Type} (best : K) (bv : R) (d : list (K * R)) : K :=
  match d with
  | [] => best
  | (k, v) :: tl => if ltb bv v then argmax_from k v tl else argmax_from best bv tl
  end.

Definition argmax {K : Type} (default : K) (d : list (K * R)) : K :=
  match d with
  | [] => default
  | (k, v) :: tl => argmax_from k v tl
  end.

Fixpoint argmin_from {K : Type} (best : K) (bv : R) (d : list (K * R)) : K :=
  match d with
  | [] => best
  | (k, v) :: tl => if ltb v bv then argmin_from k v tl else argmin_from best bv tl
  end.

Definition argmin {K : Type} (default : K) (d : list (K * R)) : K :=
  match d with
  | [] => default
  | (k, v) :: tl => argmin_from k v tl
  end.

(** Calendar fields of a naive datetime. *)
Definition us_per_second : Z := 1000000.
Definition us_per_hour : Z := 3600 * us_per_second.
Definition us_per_day : Z := 24 * us_per_hour.

Definition hour (t : Z) : Z := ((t / us_per_hour) mod 24)%Z.
Definition date (t : Z) : Z := (t / us_per_day)%Z.
Definition weekday (t : Z) : Z := ((date t + 3) mod 7)%Z.

(** [timedelta.total_seconds()] and [timedelta.days] *)
Definition total_seconds (d : Z) : R := IZR d / IZR us_per_second.
Definition days (d : Z) : Z := (d / us_per_day)%Z.

End Py.

(** ** [patterns.py]: usage-pattern detection *)

Module Patterns.

Inductive PatternType : Type :=
| IDLE_DOMINANT
| STEADY_STATE
| BURSTY
| DIURNAL
| WEEKLY
| BATCH
| GROWING
| DECLINING
| ERRATIC.

Definition PatternType_eqb (a b : PatternType) : bool :=
  match a, b with
  | IDLE_DOMINANT, IDLE_DOMINANT | STEADY_STATE, STEADY_STATE
  | BURSTY, BURSTY | DIURNAL, DIURNAL | WEEKLY, WEEKLY | BATCH, BATCH
  | GROWING, GROWING | DECLINING, DECLINING | ERRATIC, ERRATIC => true
  | _, _ => false
  end.

Record MetricPoint : Type := mkMetricPoint {
  timestamp : Z;
  value : R
}.

Record IdlePattern : Type := mkIdlePattern {
  idle_percent : R;
  avg_idle_duration_hours : R;
  max_idle_duration_hours : R;
  idle_periods : list (Z * Z);
  is_idle_dominant : bool
}.

Record BurstPattern : Type := mkBurstPattern {
  is_bursty : bool;
  burst_count : nat;
  avg_burst_duration_minutes : R;
  avg_burst_intensity : R;
  avg_quiet_duration_hours : R;
  burst_periods : list (Z * Z * R)
}.

Record DiurnalPattern : Type := mkDiurnalPattern {
  has_diurnal_pattern : bool;
  peak_hour : Z;
  trough_hour : Z;
  peak_to_trough_ratio : R;
  hourly_averages : list (Z * R)
}.

Record WeeklyPattern : Type := mkWeeklyPattern {
  has_weekly_pattern : bool;
  peak_day : Z;
  trough_day : Z;
  weekday_avg : R;
  weekend_avg : R;
  daily_averages : list (Z * R)
}.

Record MemoryPattern : Type := mkMemoryPattern {
  avg_utilization : R;
  max_utilization : R;
  min_utilization : R;
  has_memory_leak : bool;
  leak_rate_percent_per_day : option R;
  memory_pressure_events : nat;
  is_memory_stable : bool
}.

Record TrendPattern : Type := mkTrendPattern {
  direction : string;
  slope_per_day : R;
  r_squared : R;
  predicted_30_day_value : R
}.

(** [PatternAnalysis] without its [recommendations] (free text). *)
Record PatternAnalysis : Type := mkPatternAnalysis {
  instance_id : string;
  analysis_period_days : Z;
  primary_pattern : PatternType;
  idle : IdlePattern;
  burst : BurstPattern;
  diurnal : DiurnalPattern;
  weekly : WeeklyPattern;
  memory : MemoryPattern;
  trend : TrendPattern;
  confidence : R
}.

(** The detector object: its class-level thresholds, two of which the
    constructor lets a configuration override. *)
Record PatternDetector : Type := mkPatternDetector {
  IDLE_THRESHOLD_CPU : R;
  BURST_THRESHOLD_MULTIPLIER : R;
  MIN_BURST_DURATION_MINUTES : Z;
  DIURNAL_SIGNIFICANCE : R;
  MEMORY_LEAK_THRESHOLD : R
}.

Record Config : Type := mkConfig {
  idle_threshold : option R;
  burst_multiplier : option R
}.

Definition class_defaults : PatternDetector :=
  {| IDLE_THRESHOLD_CPU := 5.0;
     BURST_THRESHOLD_MULTIPLIER := 2.0;
     MIN_BURST_DURATION_MINUTES := 5;
     DIURNAL_SIGNIFICANCE := 1.5;
     MEMORY_LEAK_THRESHOLD := 1.0 |}.

(** [__init__] followed by [_apply_config]; [None] is the absent config. *)
Definition __init__ (config : option Config) : PatternDetector :=
  match config with
  | None => class_defaults
  | Some c =>
      {| IDLE_THRESHOLD_CPU :=
           match idle_threshold c with
           | Some v => v
           | None => IDLE_THRESHOLD_CPU class_defaults
           end;
         BURST_THRESHOLD_MULTIPLIER :=
           match burst_multiplier c with
           | Some v => v
           | None => BURST_THRESHOLD_MULTIPLIER class_defaults
           end;
         MIN_BURST_DURATION_MINUTES := MIN_BURST_DURATION_MINUTES class_defaults;
         DIURNAL_SIGNIFICANCE := DIURNAL_SIGNIFICANCE class_defaults;
         MEMORY_LEAK_THRESHOLD := MEMORY_LEAK_THRESHOLD class_defaults |}
  end.

Definition values (metrics : list MetricPoint) : list R := map value metrics.

(** [metrics[-1].timestamp] of a non-empty series *)
Definition last_timestamp (metrics : list MetricPoint) : Z :=
  timestamp (last metrics (mkMetricPoint 0 0)).

(** Hours (minutes) of a timedelta, as the float the source computes. *)
Definition hours_of (d : Z) : R := Py.total_seconds d / 3600.
Definition minutes_of (d : Z) : R := Py.total_seconds d / 60.

(** *** Idle periods *)

(** The loop state of [_analyze_idle_pattern]: the periods closed so far,
    [in_idle] and [idle_start] ([None] until the first idle sample). *)
Definition idle_state : Type := (list (Z * Z) * bool * option Z)%type.

Definition started (start : option Z) : Z :=
  match start with Some s => s | None => 0%Z end.

Definition idle_step (self : PatternDetector) (st : idle_state)
    (point : MetricPoint) : idle_state :=
  let '(periods, in_idle, idle_start) := st in
  if Py.ltb (value point) (IDLE_THRESHOLD_CPU self) then
    if negb in_idle then (periods, true, Some (timestamp point)) else st
  else
    if in_idle
    then (periods ++ [(started idle_start, timestamp point)], false, idle_start)
    else st.

Definition _analyze_idle_pattern (self : PatternDetector)
    (metrics : list MetricPoint) : IdlePattern :=
  match metrics with
  | [] => mkIdlePattern 0 0 0 [] false
  | _ =>
      let '(periods, in_idle, idle_start) :=
        fold_left (idle_step self) metrics ([], false, None) in
      let periods :=
        match in_idle, idle_start with
        | true, Some s => periods ++ [(s, last_timestamp metrics)]
        | _, _ => periods
        end in
      let idle_count :=
        length (filter (fun p => Py.ltb (value p) (IDLE_THRESHOLD_CPU self))
                  metrics) in
      let idle_percent := INR idle_count / INR (length metrics) * 100 in
      let durations :=
        map (fun se => hours_of (snd se - fst se)) periods in
      let '(avg_duration, max_duration) :=
        match periods with
        | [] => (0, 0)
        | _ => (Py.mean durations, Py.max_list durations)
        end in
      mkIdlePattern idle_percent avg_duration max_duration periods
        (Py.gtb idle_percent 70)
  end.

(** *** Bursts *)

(** The loop state of [_analyze_burst_pattern]: the bursts closed so far,
    [in_burst], [burst_start] and [burst_peak]. *)
Definition burst_state : Type := (list (Z * Z * R) * bool * option Z * R)%type.

Definition burst_step (burst_threshold : R) (st : burst_state)
    (point : MetricPoint) : burst_state :=
  let '(periods, in_burst, burst_start, burst_peak) := st in
  if Py.gtb (value point) burst_threshold then
    if negb in_burst
    then (periods, true, Some (timestamp point), value point)
    else (periods, in_burst, burst_start, Rmax burst_peak (value point))
  else
    if in_burst
    then (periods ++ [(started burst_start, timestamp point, burst_peak)],
          false, burst_start, 0)
    else st.

(** The quiet time between consecutive bursts, in hours. *)
Fixpoint quiet_durations (periods : list (Z * Z * R)) : list R :=
  match periods with
  | prev :: ((next :: _) as tl) =>
      hours_of (fst (fst next) - snd (fst prev)) :: quiet_durations tl
  | _ => []
  end.

Definition _analyze_burst_pattern (self : PatternDetector)
    (metrics : list MetricPoint) : BurstPattern :=
  if (length metrics <? 10)%nat then mkBurstPattern false 0 0 0 0 []
  else
    let baseline := Py._percentile (values metrics) 25 in
    let burst_threshold :=
      Rmax (baseline * BURST_THRESHOLD_MULTIPLIER self) 20 in
    let '(periods, in_burst, burst_start, burst_peak) :=
      fold_left (burst_step burst_threshold) metrics ([], false, None, 0) in
    let periods :=
      match in_burst, burst_start with
      | true, Some s => periods ++ [(s, last_timestamp metrics, burst_peak)]
      | _, _ => periods
      end in
    let min_duration :=
      (MIN_BURST_DURATION_MINUTES self * 60 * Py.us_per_second)%Z in
    let periods :=
      filter (fun b => (min_duration <=? snd (fst b) - fst (fst b))%Z) periods in
    let '(avg_duration, avg_intensity, avg_quiet) :=
      match periods with
      | [] => (0, 0, 0)
      | _ =>
          let durations :=
            map (fun b => minutes_of (snd (fst b) - fst (fst b))) periods in
          let quiet := quiet_durations periods in
          (Py.mean durations,
           Py.mean (map (fun b => snd b / Rmax baseline 1) periods),
           match quiet with [] => 0 | _ => Py.mean quiet end)
      end in
    let is_bursty :=
      (3 <=? length periods)%nat
      && Py.gtb avg_intensity 2.0
      && Py.gtb avg_quiet 1.0 in
    mkBurstPattern is_bursty (length periods) avg_duration avg_intensity
      avg_quiet periods.

(** *** Buckets keyed by hour, weekday or date *)

(** [range(n)] as integers *)
Definition range (n : nat) : list Z := map Z.of_nat (seq 0 n).

(** [d[k].append(v)] on a dict of lists *)
Definition dict_append (k : Z) (v : R) (d : list (Z * list R))
    : list (Z * list R) :=
  map (fun kv => if (fst kv =? k)%Z then (fst kv, snd kv ++ [v]) else kv) d.

(** [d[k]] on a dict of floats whose keys are known to be present *)
Definition dict_get (k : Z) (d : list (Z * R)) : R :=
  match find (fun kv => (fst kv =? k)%Z) d with
  | Some kv => snd kv
  | None => 0
  end.

(** [{k: statistics.mean(values) if values else 0 for k, values in d.items()}] *)
Definition bucket_averages (d : list (Z * list R)) : list (Z * R) :=
  map (fun kv => (fst kv, match snd kv with [] => 0 | vs => Py.mean vs end)) d.

(** The buckets [{k: [] for k in range(n)}] filled by one pass over the
    series, [key] giving the bucket of a timestamp. *)
Definition fill_buckets (n : nat) (key : Z -> Z) (metrics : list MetricPoint)
    : list (Z * list R) :=
  fold_left (fun d point => dict_append (key (timestamp point)) (value point) d)
    metrics (map (fun k => (k, [])) (range n)).

(** *** Day and night *)

Definition _analyze_diurnal_pattern (self : PatternDetector)
    (metrics : list MetricPoint) : DiurnalPattern :=
  if (length metrics <? 48)%nat then mkDiurnalPattern false 0 0 1.0 []
  else
    let hourly_values := fill_buckets 24 Py.hour metrics in
    let hourly_averages := bucket_averages hourly_values in
    let peak_hour := Py.argmax 0%Z hourly_averages in
    let trough_hour := Py.argmin 0%Z hourly_averages in
    let peak_value := dict_get peak_hour hourly_averages in
    let trough_value := dict_get trough_hour hourly_averages in
    let ratio := peak_value / Rmax trough_value 0.1 in
    mkDiurnalPattern (Py.geb ratio (DIURNAL_SIGNIFICANCE self))
      peak_hour trough_hour ratio hourly_averages.

(** *** Weekdays and weekends *)

Definition _analyze_weekly_pattern (self : PatternDetector)
    (metrics : list MetricPoint) : WeeklyPattern :=
  if (length metrics <? 168)%nat then mkWeeklyPattern false 0 0 0 0 []
  else
    let daily_values := fill_buckets 7 Py.weekday metrics in
    let daily_averages := bucket_averages daily_values in
    let peak_day := Py.argmax 0%Z daily_averages in
    let trough_day := Py.argmin 0%Z daily_averages in
    let weekday_values := map (fun d => dict_get d daily_averages) (range 5) in
    let weekend_values := [dict_get 5 daily_averages; dict_get 6 daily_averages] in
    let weekday_avg := Py.mean weekday_values in
    let weekend_avg := Py.mean weekend_values in
    let has_pattern :=
      Py.gtb (Rabs (weekday_avg - weekend_avg)
              / Rmax (Rmax weekday_avg weekend_avg) 1) 0.3 in
    mkWeeklyPattern has_pattern peak_day trough_day weekday_avg weekend_avg
      daily_averages.

(** *** Daily means, leak and trend *)

(** The loop of [_detect_memory_leak] and [_analyze_trend] that groups the
    values by calendar date, a dict in order of first occurrence. *)
Definition group_step (d : list (Z * list R)) (point : MetricPoint)
    : list (Z * list R) :=
  let day := Py.date (timestamp point) in
  let d := if existsb (fun kv => (fst kv =? day)%Z) d then d
           else d ++ [(day, [])] in
  dict_append day (value point) d.

Definition daily_avgs (metrics : list MetricPoint) : list (Z * list R) :=
  fold_left group_step metrics [].

Definition daily_means (metrics : list MetricPoint) : list R :=
  map (fun kv => Py.mean (snd kv)) (daily_avgs metrics).

(** [sum(f(i) for i in range(n))] *)
Definition sum_range (n : nat) (f : nat -> R) : R := Py.sum (map f (seq 0 n)).

Definition _detect_memory_leak (self : PatternDetector)
    (metrics : list MetricPoint) : option R :=
  if (length metrics <? 48)%nat then None
  else
    let daily_means := daily_means metrics in
    if (length daily_means <? 3)%nat then None
    else
      let n := length daily_means in
      let x_mean := (INR n - 1) / 2 in
      let y_mean := Py.mean daily_means in
      let numerator :=
        sum_range n (fun i => (INR i - x_mean) * (nth i daily_means 0 - y_mean)) in
      let denominator :=
        sum_range n (fun i => (INR i - x_mean) * (INR i - x_mean)) in
      if Py.eqb denominator 0 then None
      else
        let slope := numerator / denominator in
        if Py.gtb slope 0.5 then Some slope else None.

Definition _analyze_memory_pattern (self : PatternDetector)
    (metrics : list MetricPoint) : MemoryPattern :=
  match metrics with
  | [] => mkMemoryPattern 0 0 0 false None 0 true
  | _ =>
      let values := values metrics in
      let avg_util := Py.mean values in
      let max_util := Py.max_list values in
      let min_util := Py.min_list values in
      let pressure_events := length (filter (fun v => Py.gtb v 90) values) in
      let leak_rate := _detect_memory_leak self metrics in
      let has_leak :=
        match leak_rate with
        | Some rate => Py.gtb rate (MEMORY_LEAK_THRESHOLD self)
        | None => false
        end in
      let stddev := if (1 <? length values)%nat then Py.stdev values else 0 in
      let is_stable := Py.ltb stddev 10 in
      mkMemoryPattern avg_util max_util min_util has_leak leak_rate
        pressure_events is_stable
  end.

Definition _analyze_trend (self : PatternDetector)
    (metrics : list MetricPoint) : TrendPattern :=
  if (length metrics <? 48)%nat then mkTrendPattern "stable" 0 0 0
  else
    let daily_means := daily_means metrics in
    if (length daily_means <? 3)%nat then
      mkTrendPattern "stable" 0 0
        (match daily_means with [] => 0 | _ => last daily_means 0 end)
    else
      let n := length daily_means in
      let x := fun i : nat => INR i in
      let y := fun i : nat => nth i daily_means 0 in
      let x_mean := Py.mean (map x (seq 0 n)) in
      let y_mean := Py.mean daily_means in
      let numerator := sum_range n (fun i => (x i - x_mean) * (y i - y_mean)) in
      let denominator := sum_range n (fun i => (x i - x_mean) * (x i - x_mean)) in
      let slope := if Py.eqb denominator 0 then 0 else numerator / denominator in
      let intercept := y_mean - slope * x_mean in
      let y_pred := fun i : nat => slope * x i + intercept in
      let ss_res := sum_range n (fun i => (y i - y_pred i) * (y i - y_pred i)) in
      let ss_tot := sum_range n (fun i => (y i - y_mean) * (y i - y_mean)) in
      let r_squared := if Py.gtb ss_tot 0 then 1 - ss_res / ss_tot else 0 in
      let predicted_30 := slope * (INR n + 30) + intercept in
      let predicted_30 := Rmax 0 (Rmin 100 predicted_30) in
      let direction :=
        if Py.ltb (Rabs slope) 0.5 then "stable"%string
        else if Py.gtb slope 0 then "growing"%string
        else "declining"%string in
      mkTrendPattern direction slope (Rmax 0 r_squared) predicted_30.

(** *** Primary pattern *)

(** [scores[k] = v] and [scores[k]] on the dict of candidate scores, every
    candidate being a key from the start. *)
Definition set_score (k : PatternType) (v : R) (scores : list (PatternType * R))
    : list (PatternType * R) :=
  map (fun kv => if PatternType_eqb (fst kv) k then (k, v) else kv) scores.

Definition get_score (k : PatternType) (scores : list (PatternType * R)) : R :=
  match find (fun kv => PatternType_eqb (fst kv) k) scores with
  | Some kv => snd kv
  | None => 0
  end.

(** The dict literal that opens [_determine_primary_pattern], in its
    written order. *)
Definition initial_scores : list (PatternType * R) :=
  [(IDLE_DOMINANT, 0.0); (BURSTY, 0.0); (STEADY_STATE, 0.0); (DIURNAL, 0.0);
   (WEEKLY, 0.0); (BATCH, 0.0); (GROWING, 0.0); (DECLINING, 0.0)].

(** The scores as they stand just before the maximum is taken. *)
Definition pattern_scores (idle : IdlePattern) (burst : BurstPattern)
    (diurnal : DiurnalPattern) (weekly : WeeklyPattern) (trend : TrendPattern)
    : list (PatternType * R) :=
  let scores := initial_scores in
  let scores :=
    if is_idle_dominant idle
    then set_score IDLE_DOMINANT (0.8 + (idle_percent idle - 70) / 100) scores
    else scores in
  let scores :=
    if is_bursty burst
    then set_score BURSTY
           (Rmin (0.5 + avg_burst_intensity burst / 10
                  + INR (burst_count burst) / 50) 0.95) scores
    else scores in
  let scores :=
    if has_diurnal_pattern diurnal
    then set_score DIURNAL
           (Rmin (0.5 + (peak_to_trough_ratio diurnal - 1.5) / 3) 0.9) scores
    else scores in
  let scores :=
    if has_weekly_pattern weekly
    then
      let diff_ratio :=
        Rabs (weekday_avg weekly - weekend_avg weekly)
        / Rmax (weekday_avg weekly) 1 in
      set_score WEEKLY (Rmin (0.5 + diff_ratio) 0.85) scores
    else scores in
  let scores :=
    if String.eqb (direction trend) "growing" && Py.gtb (r_squared trend) 0.5
    then set_score GROWING (0.5 + r_squared trend * 0.4) scores
    else if String.eqb (direction trend) "declining"
            && Py.gtb (r_squared trend) 0.5
    then set_score DECLINING (0.5 + r_squared trend * 0.4) scores
    else scores in
  let scores :=
    if is_bursty burst
       && (has_diurnal_pattern diurnal || has_weekly_pattern weekly)
    then set_score BATCH (Rmin (get_score BURSTY scores + 0.2) 0.95) scores
    else scores in
  let scores :=
    if negb (is_idle_dominant idle) && negb (is_bursty burst)
    then
      if Py.ltb (peak_to_trough_ratio diurnal) 1.5
      then set_score STEADY_STATE 0.7 scores
      else scores
    else scores in
  scores.

Definition _determine_primary_pattern (self : PatternDetector)
    (idle : IdlePattern) (burst : BurstPattern) (diurnal : DiurnalPattern)
    (weekly : WeeklyPattern) (trend : TrendPattern) : PatternType * R :=
  let scores := pattern_scores idle burst diurnal weekly trend in
  let best_pattern := Py.argmax ERRATIC scores in
  let confidence := get_score best_pattern scores in
  if Py.ltb confidence 0.4 then (ERRATIC, 0.5)
  else (best_pattern, confidence).

(** *** The whole analysis *)

Definition no_memory : MemoryPattern := mkMemoryPattern 0 0 0 false None 0 true.

Definition analyze (self : PatternDetector) (instance_id : string)
    (cpu_metrics : list MetricPoint)
    (memory_metrics : option (list MetricPoint)) : PatternAnalysis :=
  let idle := _analyze_idle_pattern self cpu_metrics in
  let burst := _analyze_burst_pattern self cpu_metrics in
  let diurnal := _analyze_diurnal_pattern self cpu_metrics in
  let weekly := _analyze_weekly_pattern self cpu_metrics in
  let trend := _analyze_trend self cpu_metrics in
  let memory :=
    match memory_metrics with
    | Some ((_ :: _) as mm) => _analyze_memory_pattern self mm
    | _ => no_memory
    end in
  let '(primary_pattern, confidence) :=
    _determine_primary_pattern self idle burst diurnal weekly trend in
  let period :=
    match cpu_metrics with
    | [] => 0%Z
    | first :: _ => Py.days (last_timestamp cpu_metrics - timestamp first)
    end in
  mkPatternAnalysis instance_id period primary_pattern idle burst diurnal
    weekly memory trend confidence.

End Patterns.

(** ** [workload.py]: workload classification *)

Module Workload.

Inductive WorkloadClassification : Type :=
| LAMBDA_CANDIDATE
| FARGATE_CANDIDATE
| SPOT_CANDIDATE
| KEEP_EC2.

Record MetricDataPoint : Type := mkMetricDataPoint {
  timestamp : Z;
  value : R
}.

Record CloudWatchMetrics : Type := mkCloudWatchMetrics {
  instance_id : string;
  instance_type : string;
  cpu_utilization : list MetricDataPoint;
  memory_utilization : list MetricDataPoint;
  network_in : list MetricDataPoint;
  network_out : list MetricDataPoint;
  disk_read_ops : list MetricDataPoint;
  disk_write_ops : list MetricDataPoint;
  disk_read_bytes : list MetricDataPoint;
  disk_write_bytes : list MetricDataPoint;
  has_elastic_ip : bool;
  has_persistent_storage : bool;
  in_auto_scaling_group : bool;
  instance_age_days : Z
}.

(** The statistics summary, a [Dict[str, float]]. *)
Definition Stats : Type := list (string * R).

(** [stats[k] = v] *)
Definition stats_set (k : string) (v : R) (stats : Stats) : Stats :=
  if existsb (fun kv => String.eqb (fst kv) k) stats
  then map (fun kv => if String.eqb (fst kv) k then (k, v) else kv) stats
  else stats ++ [(k, v)].

(** [stats.get(k, default)] *)
Definition stats_get (stats : Stats) (k : string) (default : R) : R :=
  match find (fun kv => String.eqb (fst kv) k) stats with
  | Some kv => snd kv
  | None => default
  end.

(** A run of assignments [stats[k1] = v1; stats[k2] = v2; ...] *)
Definition stats_update (kvs : list (string * R)) (stats : Stats) : Stats :=
  fold_left (fun d kv => stats_set (fst kv) (snd kv) d) kvs stats.

(** [ClassificationResult] without its [reasons] and [warnings] (free
    text). *)
Record ClassificationResult : Type := mkClassificationResult {
  result_instance_id : string;
  classification : WorkloadClassification;
  confidence : R;
  metrics_summary : Stats;
  alternative_classifications : list (WorkloadClassification * R);
  estimated_savings_percent : option R;
  recommended_target : option string
}.

(** The classifier object: its class-level thresholds, two of which the
    constructor lets a configuration override. *)
Record WorkloadClassifier : Type := mkWorkloadClassifier {
  LAMBDA_MAX_AVG_CPU : R;
  LAMBDA_MAX_MEMORY_MB : R;
  LAMBDA_MIN_IDLE_PERCENT : R;
  LAMBDA_MAX_BURST_DURATION_MINUTES : R;
  LAMBDA_MIN_BURST_RATIO : R;
  FARGATE_MIN_AVG_CPU : R;
  FARGATE_MAX_AVG_CPU : R;
  FARGATE_MAX_CPU_STDDEV : R;
  FARGATE_MIN_UPTIME_PERCENT : R;
  SPOT_MAX_REQUIRED_UPTIME : R;
  SPOT_MIN_BATCH_PATTERN_SCORE : R;
  SPOT_FLEXIBLE_TIMING_SCORE : R
}.

Record Config : Type := mkConfig {
  lambda_max_avg_cpu : option R;
  fargate_max_cpu_stddev : option R
}.

Definition class_defaults : WorkloadClassifier :=
  {| LAMBDA_MAX_AVG_CPU := 20.0;
     LAMBDA_MAX_MEMORY_MB := 10240;
     LAMBDA_MIN_IDLE_PERCENT := 70.0;
     LAMBDA_MAX_BURST_DURATION_MINUTES := 15;
     LAMBDA_MIN_BURST_RATIO := 3.0;
     FARGATE_MIN_AVG_CPU := 5.0;
     FARGATE_MAX_AVG_CPU := 80.0;
     FARGATE_MAX_CPU_STDDEV := 25.0;
     FARGATE_MIN_UPTIME_PERCENT := 80.0;
     SPOT_MAX_REQUIRED_UPTIME := 95.0;
     SPOT_MIN_BATCH_PATTERN_SCORE := 0.6;
     SPOT_FLEXIBLE_TIMING_SCORE := 0.5 |}.

(** [__init__] followed by [_apply_config_overrides] *)
Definition __init__ (config : option Config) : WorkloadClassifier :=
  match config with
  | None => class_defaults
  | Some c =>
      {| LAMBDA_MAX_AVG_CPU :=
           match lambda_max_avg_cpu c with
           | Some v => v
           | None => LAMBDA_MAX_AVG_CPU class_defaults
           end;
         LAMBDA_MAX_MEMORY_MB := LAMBDA_MAX_MEMORY_MB class_defaults;
         LAMBDA_MIN_IDLE_PERCENT := LAMBDA_MIN_IDLE_PERCENT class_defaults;
         LAMBDA_MAX_BURST_DURATION_MINUTES :=
           LAMBDA_MAX_BURST_DURATION_MINUTES class_defaults;
         LAMBDA_MIN_BURST_RATIO := LAMBDA_MIN_BURST_RATIO class_defaults;
         FARGATE_MIN_AVG_CPU := FARGATE_MIN_AVG_CPU class_defaults;
         FARGATE_MAX_AVG_CPU := FARGATE_MAX_AVG_CPU class_defaults;
         FARGATE_MAX_CPU_STDDEV :=
           match fargate_max_cpu_stddev c with
           | Some v => v
           | None => FARGATE_MAX_CPU_STDDEV class_defaults
           end;
         FARGATE_MIN_UPTIME_PERCENT := FARGATE_MIN_UPTIME_PERCENT class_defaults;
         SPOT_MAX_REQUIRED_UPTIME := SPOT_MAX_REQUIRED_UPTIME class_defaults;
         SPOT_MIN_BATCH_PATTERN_SCORE :=
           SPOT_MIN_BATCH_PATTERN_SCORE class_defaults;
         SPOT_FLEXIBLE_TIMING_SCORE := SPOT_FLEXIBLE_TIMING_SCORE class_defaults |}
  end.

Definition values (series : list MetricDataPoint) : list R := map value series.

(** *** Statistics summary *)

Definition _compute_statistics (self : WorkloadClassifier)
    (metrics : CloudWatchMetrics) : Stats :=
  let stats : Stats := [] in
  let cpu_values := values (cpu_utilization metrics) in
  let stats :=
    match cpu_values with
    | [] => stats
    | _ =>
        stats_update
          [("cpu_avg"%string, Py.mean cpu_values);
           ("cpu_max"%string, Py.max_list cpu_values);
           ("cpu_min"%string, Py.min_list cpu_values);
           ("cpu_stddev"%string,
            if (1 <? length cpu_values)%nat then Py.stdev cpu_values else 0);
           ("cpu_p95"%string, Py._percentile cpu_values 95);
           ("cpu_p50"%string, Py._percentile cpu_values 50);
           ("cpu_idle_percent"%string,
            INR (length (filter (fun v => Py.ltb v 5) cpu_values))
            / INR (length cpu_values) * 100)]
          stats
    end in
  let mem_values := values (memory_utilization metrics) in
  let stats :=
    match mem_values with
    | [] => stats
    | _ =>
        stats_update
          [("memory_avg"%string, Py.mean mem_values);
           ("memory_max"%string, Py.max_list mem_values);
           ("memory_stddev"%string,
            if (1 <? length mem_values)%nat then Py.stdev mem_values else 0)]
          stats
    end in
  let net_in := values (network_in metrics) in
  let net_out := values (network_out metrics) in
  let stats :=
    match net_in with
    | [] => stats
    | _ =>
        stats_update
          [("network_in_avg"%string, Py.mean net_in);
           ("network_in_max"%string, Py.max_list net_in)] stats
    end in
  let stats :=
    match net_out with
    | [] => stats
    | _ =>
        stats_update
          [("network_out_avg"%string, Py.mean net_out);
           ("network_out_max"%string, Py.max_list net_out)] stats
    end in
  let disk_read := values (disk_read_ops metrics) in
  let disk_write := values (disk_write_ops metrics) in
  let stats :=
    match disk_read with
    | [] => stats
    | _ => stats_update [("disk_read_ops_avg"%string, Py.mean disk_read)] stats
    end in
  let stats :=
    match disk_write with
    | [] => stats
    | _ =>
        stats_update
          [("disk_write_ops_avg"%string, Py.mean disk_write);
           ("disk_write_ops_max"%string, Py.max_list disk_write)] stats
    end in
  let stats :=
    stats_set "burst_ratio"
      (stats_get stats "cpu_max" 0 / Rmax (stats_get stats "cpu_avg" 1) 0.1)
      stats in
  let stats :=
    stats_set "variability_score"
      (stats_get stats "cpu_stddev" 0 / Rmax (stats_get stats "cpu_avg" 1) 0.1)
      stats in
  stats.

(** *** Periodicity *)

(** [_simple_correlation], taken on real numbers.  In the floats of the code
    a window without variance can keep a rounding residue that passes the
    [== 0] guard (a constant 0.1), a variance below the smallest float
    underflows to 0, and the quotient can exceed 1 by a unit in the last
    place.  The statements about it keep to what does not depend on this:
    its symmetry, windows whose mean is exact (levels that are whole
    numbers), and windows of percentages with two values at least 0.000001
    apart, on which the correlation of a window with itself is within a few
    units in the last place of 1. *)
Definition _simple_correlation (x y : list R) : R :=
  if negb (length x =? length y)%nat || (length x =? 0)%nat then 0.0
  else
    let n := Py.len x in
    let mean_x := Py.sum x / n in
    let mean_y := Py.sum y / n in
    let numerator :=
      Py.sum (map (fun i => (nth i x 0 - mean_x) * (nth i y 0 - mean_y))
                (seq 0 (length x))) in
    let denom_x := sqrt (Py.sum (map (fun xi => (xi - mean_x) ^ 2) x)) in
    let denom_y := sqrt (Py.sum (map (fun yi => (yi - mean_y) ^ 2) y)) in
    if Py.eqb denom_x 0 || Py.eqb denom_y 0 then 0.0
    else numerator / (denom_x * denom_y).

(** [values[start:end]] for [0 <= start <= end] *)
Definition slice (start stop : nat) (values : list R) : list R :=
  firstn (stop - start) (skipn start values).

(** The inner loop of [_detect_periodic_pattern] over the window numbers it
    is given: the correlations it collects until it breaks or runs out. *)
Fixpoint correlations (values : list R) (period : nat) (windows : list nat)
    : list R :=
  match windows with
  | [] => []
  | i :: rest =>
      let start := (i * period)%nat in
      let stop := (start + period)%nat in
      if (length values <? stop)%nat then []
      else
        let first_period := firstn period values in
        let this_period := slice start stop values in
        if (length first_period =? length this_period)%nat
        then _simple_correlation first_period this_period
             :: correlations values period rest
        else correlations values period rest
  end.

(** The body of the loop over the candidate periods: whether this period
    makes the function return [True]. *)
Definition period_confirms (values : list R) (min_periods period : nat) : bool :=
  if (length values <? period * min_periods)%nat then false
  else
    match correlations values period (seq 1 (min_periods - 1)) with
    | [] => false
    | cs => Py.gtb (Py.mean cs) 0.7
    end.

Definition _detect_periodic_pattern (values : list R) (min_periods : nat)
    : bool :=
  if (length values <? 48)%nat then false
  else existsb (period_confirms values min_periods) [24; 168]%nat.

(** The default of the keyword argument [min_periods]. *)
Definition default_min_periods : nat := 2.

(** *** Candidate scores *)

(** The four scores, their weights added as real numbers.  The float sums
    of the code can differ from these by a unit in the last place (all six
    bonuses of the Fargate score add up to 0.9500000000000001), so the
    statements about scores keep to sums that the floats add exactly, to
    comparisons that leave a margin, and to comparisons of two scores built
    from the same weights. *)
Definition _score_lambda_candidate (self : WorkloadClassifier)
    (metrics : CloudWatchMetrics) (stats : Stats) : R :=
  let score := 0.0 in
  let cpu_avg := stats_get stats "cpu_avg" 100 in
  let score :=
    if Py.leb cpu_avg (LAMBDA_MAX_AVG_CPU self) then score + 0.25 else score in
  let idle_pct := stats_get stats "cpu_idle_percent" 0 in
  let score :=
    if Py.geb idle_pct (LAMBDA_MIN_IDLE_PERCENT self) then score + 0.25
    else score in
  let burst_ratio := stats_get stats "burst_ratio" 0 in
  let score :=
    if Py.geb burst_ratio (LAMBDA_MIN_BURST_RATIO self) then score + 0.2
    else score in
  let disk_write_avg := stats_get stats "disk_write_ops_avg" 0 in
  let score := if Py.ltb disk_write_avg 100 then score + 0.15 else score in
  let score := if has_persistent_storage metrics then score - 0.2 else score in
  let score := if in_auto_scaling_group metrics then score - 0.1 else score in
  let memory_avg := stats_get stats "memory_avg" 0 in
  let score := if Py.gtb memory_avg 80 then score - 0.15 else score in
  Rmax score 0.

Definition _score_fargate_candidate (self : WorkloadClassifier)
    (metrics : CloudWatchMetrics) (stats : Stats) : R :=
  let score := 0.0 in
  let cpu_avg := stats_get stats "cpu_avg" 0 in
  let cpu_stddev := stats_get stats "cpu_stddev" 100 in
  let score :=
    if Py.leb (FARGATE_MIN_AVG_CPU self) cpu_avg
       && Py.leb cpu_avg (FARGATE_MAX_AVG_CPU self)
    then score + 0.2 else score in
  let score :=
    if Py.leb cpu_stddev (FARGATE_MAX_CPU_STDDEV self) then score + 0.2
    else score in
  let idle_pct := stats_get stats "cpu_idle_percent" 100 in
  let uptime_pct := 100 - idle_pct in
  let score :=
    if Py.geb uptime_pct (FARGATE_MIN_UPTIME_PERCENT self) then score + 0.2
    else score in
  let memory_stddev := stats_get stats "memory_stddev" 100 in
  let score := if Py.ltb memory_stddev 15 then score + 0.15 else score in
  let net_in_avg := stats_get stats "network_in_avg" 0 in
  let net_out_avg := stats_get stats "network_out_avg" 0 in
  let score :=
    if Py.gtb net_in_avg 1000 || Py.gtb net_out_avg 1000 then score + 0.1
    else score in
  let score := if in_auto_scaling_group metrics then score + 0.1 else score in
  let disk_write_max := stats_get stats "disk_write_ops_max" 0 in
  let score := if Py.gtb disk_write_max 1000 then score - 0.15 else score in
  Rmax score 0.

Definition _score_spot_candidate (self : WorkloadClassifier)
    (metrics : CloudWatchMetrics) (stats : Stats) : R :=
  let score := 0.0 in
  let variability := stats_get stats "variability_score" 0 in
  let score := if Py.gtb variability 1.0 then score + 0.2 else score in
  let cpu_values := values (cpu_utilization metrics) in
  let score :=
    if _detect_periodic_pattern cpu_values default_min_periods
    then score + 0.2 else score in
  let burst_ratio := stats_get stats "burst_ratio" 0 in
  let cpu_avg := stats_get stats "cpu_avg" 0 in
  let score :=
    if Py.gtb burst_ratio 2.0 && Py.gtb cpu_avg (LAMBDA_MAX_AVG_CPU self)
    then score + 0.15 else score in
  let cpu_p95 := stats_get stats "cpu_p95" 0 in
  let score := if Py.gtb cpu_p95 70 then score + 0.15 else score in
  let net_out_avg := stats_get stats "network_out_avg" 0 in
  let score := if Py.ltb net_out_avg 10000 then score + 0.1 else score in
  let score :=
    if (30 <? instance_age_days metrics)%Z then score + 0.1 else score in
  let score := if has_elastic_ip metrics then score - 0.2 else score in
  Rmax score 0.

Definition _score_keep_ec2 (self : WorkloadClassifier)
    (metrics : CloudWatchMetrics) (stats : Stats) : R :=
  let score := 0.3 in
  let cpu_avg := stats_get stats "cpu_avg" 0 in
  let cpu_stddev := stats_get stats "cpu_stddev" 0 in
  let score :=
    if Py.gtb cpu_avg 70 && Py.ltb cpu_stddev 15 then score + 0.25
    else score in
  let memory_avg := stats_get stats "memory_avg" 0 in
  let score := if Py.gtb memory_avg 70 then score + 0.15 else score in
  let disk_read_avg := stats_get stats "disk_read_ops_avg" 0 in
  let disk_write_avg := stats_get stats "disk_write_ops_avg" 0 in
  let score :=
    if Py.gtb disk_read_avg 500 || Py.gtb disk_write_avg 500
    then score + 0.15 else score in
  let score := if has_elastic_ip metrics then score + 0.1 else score in
  let score := if has_persistent_storage metrics then score + 0.1 else score in
  Rmin score 1.0.

(** *** Savings estimate *)

Definition _estimate_savings (self : WorkloadClassifier)
    (metrics : CloudWatchMetrics) (stats : Stats)
    (classification : WorkloadClassification) : option R * option string :=
  match classification with
  | LAMBDA_CANDIDATE =>
      let idle_pct := stats_get stats "cpu_idle_percent" 0 in
      let savings := Rmin (idle_pct * 0.8) 80 in
      let memory_avg := stats_get stats "memory_avg" 50 in
      let target :=
        if Py.ltb memory_avg 30 then "Lambda 512MB"%string
        else if Py.ltb memory_avg 60 then "Lambda 1024MB"%string
        else "Lambda 2048MB"%string in
      (Some savings, Some target)
  | FARGATE_CANDIDATE =>
      let cpu_avg := stats_get stats "cpu_avg" 50 in
      if Py.ltb cpu_avg 25 then (Some 40, Some "Fargate 0.25vCPU / 0.5GB"%string)
      else if Py.ltb cpu_avg 50 then (Some 25, Some "Fargate 0.5vCPU / 1GB"%string)
      else (Some 15, Some "Fargate 1vCPU / 2GB"%string)
  | SPOT_CANDIDATE =>
      (Some 70, Some ("Spot " ++ instance_type metrics)%string)
  | KEEP_EC2 =>
      let cpu_avg := stats_get stats "cpu_avg" 50 in
      if Py.ltb cpu_avg 20
      then (Some 30, Some ("Downsize " ++ instance_type metrics)%string)
      else if Py.gtb cpu_avg 80
      then (None, Some ("Consider upsizing " ++ instance_type metrics)%string)
      else (None, None)
  end.

(** *** Classification *)

(** [scores.sort(key=lambda x: x[1], reverse=True)]: a stable sort, so
    candidates of equal score keep their order in the list. *)
Fixpoint insert_desc (x : WorkloadClassification * R)
    (l : list (WorkloadClassification * R))
    : list (WorkloadClassification * R) :=
  match l with
  | [] => [x]
  | y :: tl => if Py.ltb (snd x) (snd y) then y :: insert_desc x tl else x :: l
  end.

Definition sort_desc (l : list (WorkloadClassification * R))
    : list (WorkloadClassification * R) :=
  fold_right insert_desc [] l.

(** The list [scores] of [classify] before it is sorted. *)
Definition candidate_scores (self : WorkloadClassifier)
    (metrics : CloudWatchMetrics) (stats : Stats)
    : list (WorkloadClassification * R) :=
  [(LAMBDA_CANDIDATE, _score_lambda_candidate self metrics stats);
   (FARGATE_CANDIDATE, _score_fargate_candidate self metrics stats);
   (SPOT_CANDIDATE, _score_spot_candidate self metrics stats);
   (KEEP_EC2, _score_keep_ec2 self metrics stats)].

Definition classify (self : WorkloadClassifier) (metrics : CloudWatchMetrics)
    : ClassificationResult :=
  let stats := _compute_statistics self metrics in
  let scores := sort_desc (candidate_scores self metrics stats) in
  let '(best_classification, best_score) := hd (KEEP_EC2, 0) scores in
  let alternatives := filter (fun s => Py.gtb (snd s) 0.3) (tl scores) in
  let '(savings, target) :=
    _estimate_savings self metrics stats best_classification in
  mkClassificationResult (instance_id metrics) best_classification
    (Rmin best_score 1.0) stats alternatives savings target.

(** *** Warnings *)

Definition WorkloadClassification_eqb (a b : WorkloadClassification) : bool :=
  match a, b with
  | LAMBDA_CANDIDATE, LAMBDA_CANDIDATE | FARGATE_CANDIDATE, FARGATE_CANDIDATE
  | SPOT_CANDIDATE, SPOT_CANDIDATE | KEEP_EC2, KEEP_EC2 => true
  | _, _ => false
  end.

(** [f"{n}"] for a non-negative [int] *)
Definition str (n : nat) : string := NilZero.string_of_uint (Nat.to_uint n).

(** The [warnings] field of the result of [classify], text included. *)
Definition _generate_warnings (self : WorkloadClassifier)
    (metrics : CloudWatchMetrics) (stats : Stats)
    (classification : WorkloadClassification) : list string :=
  let warnings : list string := [] in
  let cpu_points := length (cpu_utilization metrics) in
  let warnings :=
    if (cpu_points <? 336)%nat
    then warnings
         ++ [("Limited data points (" ++ str cpu_points
              ++ ") - recommend 14 days for accurate classification")%string]
    else warnings in
  let warnings :=
    if WorkloadClassification_eqb classification FARGATE_CANDIDATE
    then
      let cpu_stddev := stats_get stats "cpu_stddev" 0 in
      if Py.gtb cpu_stddev 20
      then warnings
           ++ ["Moderate CPU variance may require careful Fargate sizing"%string]
      else warnings
    else warnings in
  let warnings :=
    if WorkloadClassification_eqb classification LAMBDA_CANDIDATE
    then
      let memory_avg := stats_get stats "memory_avg" 0 in
      if Py.gtb memory_avg 60
      then warnings
           ++ ["Memory usage may approach Lambda limits - monitor actual memory requirements"%string]
      else warnings
    else warnings in
  let warnings :=
    if WorkloadClassification_eqb classification SPOT_CANDIDATE
    then
      if has_elastic_ip metrics
      then warnings
           ++ ["Elastic IP detected - consider interruption handling strategy"%string]
      else warnings
    else warnings in
  warnings.

(** The warnings [classify] attaches to its result: those of the summary
    and of the winning classification. *)
Definition classify_warnings (self : WorkloadClassifier)
    (metrics : CloudWatchMetrics) : list string :=
  _generate_warnings self metrics (_compute_statistics self metrics)
    (classification (classify self metrics)).

End Workload.

(** * Notions used in the statements *)

(** ** Classification *)

(** Descending order of score, between two scored candidates. *)
Definition score_ge (a b : Workload.WorkloadClassification * R) : Prop :=
  snd b <= snd a.

(** ** Primary pattern *)

(** The score each candidate pattern holds when
    [_determine_primary_pattern] takes the maximum. *)
Definition idle_score (idle : Patterns.IdlePattern) : R :=
  if Patterns.is_idle_dominant idle
  then 0.8 + (Patterns.idle_percent idle - 70) / 100 else 0.0.

Definition bursty_score (burst : Patterns.BurstPattern) : R :=
  if Patterns.is_bursty burst
  then Rmin (0.5 + Patterns.avg_burst_intensity burst / 10
             + INR (Patterns.burst_count burst) / 50) 0.95
  else 0.0.

Definition diurnal_score (diurnal : Patterns.DiurnalPattern) : R :=
  if Patterns.has_diurnal_pattern diurnal
  then Rmin (0.5 + (Patterns.peak_to_trough_ratio diurnal - 1.5) / 3) 0.9
  else 0.0.

Definition weekly_score (weekly : Patterns.WeeklyPattern) : R :=
  if Patterns.has_weekly_pattern weekly
  then Rmin (0.5 + Rabs (Patterns.weekday_avg weekly - Patterns.weekend_avg weekly)
                   / Rmax (Patterns.weekday_avg weekly) 1) 0.85
  else 0.0.

Definition growing_score (trend : Patterns.TrendPattern) : R :=
  if String.eqb (Patterns.direction trend) "growing"
     && Py.gtb (Patterns.r_squared trend) 0.5
  then 0.5 + Patterns.r_squared trend * 0.4 else 0.0.

Definition declining_score (trend : Patterns.TrendPattern) : R :=
  if String.eqb (Patterns.direction trend) "growing"
     && Py.gtb (Patterns.r_squared trend) 0.5
  then 0.0
  else if String.eqb (Patterns.direction trend) "declining"
          && Py.gtb (Patterns.r_squared trend) 0.5
  then 0.5 + Patterns.r_squared trend * 0.4 else 0.0.

Definition batch_score (burst : Patterns.BurstPattern)
    (diurnal : Patterns.DiurnalPattern) (weekly : Patterns.WeeklyPattern) : R :=
  if Patterns.is_bursty burst
     && (Patterns.has_diurnal_pattern diurnal
         || Patterns.has_weekly_pattern weekly)
  then Rmin (bursty_score burst + 0.2) 0.95 else 0.0.

Definition steady_score (idle : Patterns.IdlePattern)
    (burst : Patterns.BurstPattern) (diurnal : Patterns.DiurnalPattern) : R :=
  if negb (Patterns.is_idle_dominant idle) && negb (Patterns.is_bursty burst)
     && Py.ltb (Patterns.peak_to_trough_ratio diurnal) 1.5
  then 0.7 else 0.0.

(** The candidate patterns in the declaration order of the enumeration
    [PatternType] ([ERRATIC], declared last, is never a candidate), and the
    position of a pattern in that declaration. *)
Definition candidates : list Patterns.PatternType :=
  [Patterns.IDLE_DOMINANT; Patterns.STEADY_STATE; Patterns.BURSTY;
   Patterns.DIURNAL; Patterns.WEEKLY; Patterns.BATCH; Patterns.GROWING;
   Patterns.DECLINING].

Definition enum_index (p : Patterns.PatternType) : nat :=
  match p with
  | Patterns.IDLE_DOMINANT => 0
  | Patterns.STEADY_STATE => 1
  | Patterns.BURSTY => 2
  | Patterns.DIURNAL => 3
  | Patterns.WEEKLY => 4
  | Patterns.BATCH => 5
  | Patterns.GROWING => 6
  | Patterns.DECLINING => 7
  | Patterns.ERRATIC => 8
  end.

(** A candidate whose score is the largest of all candidate scores. *)
Definition maximal (scores : list (Patterns.PatternType * R))
    (p : Patterns.PatternType) : Prop :=
  In p candidates
  /\ forall q, In q candidates ->
       Patterns.get_score q scores <= Patterns.get_score p scores.

(** The candidate of largest score that comes first in the enumeration. *)
Definition enum_first_maximal (scores : list (Patterns.PatternType * R))
    (p : Patterns.PatternType) : Prop :=
  maximal scores p
  /\ forall q, maximal scores q -> (enum_index p <= enum_index q)%nat.

(** The position of a candidate in the dict of scores as the source writes
    it, [BURSTY] before [STEADY_STATE], and the candidate of largest score
    that comes first there. *)
Definition written_index (p : Patterns.PatternType) : nat :=
  match p with
  | Patterns.IDLE_DOMINANT => 0
  | Patterns.BURSTY => 1
  | Patterns.STEADY_STATE => 2
  | Patterns.DIURNAL => 3
  | Patterns.WEEKLY => 4
  | Patterns.BATCH => 5
  | Patterns.GROWING => 6
  | Patterns.DECLINING => 7
  | Patterns.ERRATIC => 8
  end.

Definition written_first_maximal (scores : list (Patterns.PatternType * R))
    (p : Patterns.PatternType) : Prop :=
  maximal scores p
  /\ forall q, maximal scores q -> (written_index p <= written_index q)%nat.

(** ** Memory leak *)

(** The number of distinct calendar days a series spans. *)
Definition distinct_days (metrics : list Patterns.MetricPoint) : nat :=
  length (nodup Z.eq_dec
            (map (fun p => Py.date (Patterns.timestamp p)) metrics)).

(** The ordinary-least-squares slope of the line fitted to the points
    [(x, y)]: [(n Sxy - Sx Sy) / (n Sxx - Sx Sx)]. *)
Definition ols_slope (points : list (R * R)) : R :=
  let n := INR (length points) in
  let sx := Py.sum (map fst points) in
  let sy := Py.sum (map snd points) in
  let sxy := Py.sum (map (fun p => fst p * snd p) points) in
  let sxx := Py.sum (map (fun p => fst p * fst p) points) in
  (n * sxy - sx * sy) / (n * sxx - sx * sx).

(** The calendar days of a series, each once, in the order in which the
    series first reaches them (the order of time for a series in order of
    time). *)
Definition days (metrics : list Patterns.MetricPoint) : list Z :=
  rev (nodup Z.eq_dec
         (rev (map (fun p => Py.date (Patterns.timestamp p)) metrics))).

(** The values of the samples that fall on day [d], and their mean. *)
Definition day_values (d : Z) (metrics : list Patterns.MetricPoint) : list R :=
  map Patterns.value
    (filter (fun p => (Py.date (Patterns.timestamp p) =? d)%Z) metrics).

Definition daily_mean (d : Z) (metrics : list Patterns.MetricPoint) : R :=
  Py.mean (day_values d metrics).

(** The points (index, value) of a list of values; the slope of a series is
    that of its daily means over the index of the day. *)
Definition day_indexed (ys : list R) : list (R * R) :=
  map (fun i => (INR i, nth i ys 0)) (seq 0 (length ys)).

Definition daily_slope (metrics : list Patterns.MetricPoint) : R :=
  ols_slope
    (day_indexed (map (fun d => daily_mean d metrics) (days metrics))).

(** Three samples on three consecutive days, rising by 10 a day. *)
Definition three_days : list Patterns.MetricPoint :=
  [Patterns.mkMetricPoint 0 0;
   Patterns.mkMetricPoint 86400000000 10;
   Patterns.mkMetricPoint 172800000000 20].

(** Seventy-two hourly samples from the epoch: a day at 10 percent, a day
    at 20 and a day at 30. *)
Definition rising_days : list Patterns.MetricPoint :=
  map (fun i =>
         Patterns.mkMetricPoint (Z.of_nat i * Py.us_per_hour)
           (if (i <? 24)%nat then 10 else if (i <? 48)%nat then 20 else 30))
    (seq 0 72).

(** ** Periodicity *)

(** Periodicity as the specification words it, written without the
    functions of the source.  Pearson's correlation coefficient of two
    samples of the same size: the sum of the products of the deviations from
    the two means, over the square root of the product of the two sums of
    squared deviations. *)
Definition pearson (x y : list R) : R :=
  let mx := Py.sum x / INR (length x) in
  let my := Py.sum y / INR (length y) in
  Py.sum (map (fun p => (fst p - mx) * (snd p - my)) (combine x y))
  / sqrt (Py.sum (map (fun a => (a - mx) * (a - mx)) x)
          * Py.sum (map (fun b => (b - my) * (b - my)) y)).

(** The window of [lag] samples that starts [i * lag] samples into the
    series, and the windows after the first that fit in the series. *)
Definition window (values : list R) (lag i : nat) : list R :=
  firstn lag (skipn (i * lag) values).

Definition later_windows (values : list R) (lag : nat) : list (list R) :=
  map (window values lag) (seq 1 (length values / lag - 1)).

(** A lag that fits twice in the series confirms when the mean of the
    correlations of the first window with every later window exceeds 0.7;
    a series of 48 samples or more is periodic when a lag of 24 or 168
    confirms. *)
Definition lag_confirms_every_window (values : list R) (lag : nat) : bool :=
  (2 * lag <=? length values)%nat
  && Py.gtb
       (Py.mean (map (pearson (window values lag 0))
                   (later_windows values lag))) 0.7.

Definition periodic_every_window (values : list R) : bool :=
  (48 <=? length values)%nat
  && existsb (lag_confirms_every_window values) [24; 168]%nat.

(** The same with the second window alone. *)
Definition lag_confirms_second_window (values : list R) (lag : nat) : bool :=
  (2 * lag <=? length values)%nat
  && Py.gtb
       (Workload._simple_correlation (firstn lag values)
          (Workload.slice lag (2 * lag) values)) 0.7.

Definition periodic_second_window (values : list R) : bool :=
  existsb (lag_confirms_second_window values) [24; 168]%nat.

(** The sum of squared deviations from the mean, the square of each
    [denom] of the source. *)
Definition spread (xs : list R) : R :=
  Py.sum (map (fun xi => (xi - Py.sum xs / Py.len xs) ^ 2) xs).

(** A block that takes at least two different values. *)
Definition varies (block : list R) : Prop :=
  exists x y, In x block /\ In y block /\ x <> y.

(** A block of percentages, and a block two of whose values lie at least
    [gap] apart. *)
Definition percentages (block : list R) : Prop :=
  Forall (fun v => 0 <= v <= 100) block.

Definition apart (gap : R) (block : list R) : Prop :=
  exists x y, In x block /\ In y block /\ gap <= x - y.

(** A day with a spike in its first hour, the day that mirrors it (busy
    but for its first hour), and two spike days followed by the mirrored
    day. *)
Definition spike_day : list R := 80 :: repeat 10 23.
Definition mirrored_day : list R := map (fun v => 90 - v) spike_day.
Definition two_spike_days_one_mirrored : list R :=
  spike_day ++ spike_day ++ mirrored_day.

(** ** Scenarios *)

(** A series that takes two levels, [hi] where the shape is [true] and [lo]
    elsewhere, and the number of samples at each level. *)
Definition two_level (lo hi : R) (shape : list bool) : list R :=
  map (fun b : bool => if b then hi else lo) shape.

Definition highs (shape : list bool) : nat := length (filter (fun b => b) shape).
Definition lows (shape : list bool) : nat := length (filter negb shape).

(** The burst scenario: 200 hourly samples from [t0] on, at 85 when
    [index mod 20 < 3] and at 5 otherwise. *)
Definition burst_scenario (t0 : Z) : list Patterns.MetricPoint :=
  map (fun i =>
         Patterns.mkMetricPoint (t0 + Z.of_nat i * Py.us_per_hour)
           (if (i mod 20 <? 3)%nat then 85 else 5))
    (seq 0 200).

(** Its 20 samples from [t] on, and [k] such runs in a row. *)
Definition burst_block (t : Z) : list Patterns.MetricPoint :=
  map (fun i =>
         Patterns.mkMetricPoint (t + Z.of_nat i * Py.us_per_hour)
           (if (i <? 3)%nat then 85 else 5))
    (seq 0 20).

Fixpoint burst_blocks (k : nat) (t : Z) : list Patterns.MetricPoint :=
  match k with
  | O => []
  | S k' => burst_block t ++ burst_blocks k' (t + 20 * Py.us_per_hour)
  end.

(** The burst that the [j]-th run of the scenario holds. *)
Definition scenario_burst (t : Z) (j : nat) : Z * Z * R :=
  ((t + Z.of_nat j * (20 * Py.us_per_hour))%Z,
   (t + Z.of_nat j * (20 * Py.us_per_hour) + 3 * Py.us_per_hour)%Z,
   85).

(** A snapshot with a CPU series and nothing else: the other series
    empty, the flags false, age 0. *)
Definition cpu_only (id type : string) (cpu : list Workload.MetricDataPoint)
    : Workload.CloudWatchMetrics :=
  Workload.mkCloudWatchMetrics id type cpu [] [] [] [] [] [] []
    false false false 0.

(** Two entries of the statistics summary, as functions of the CPU values:
    [cpu_stddev] and [cpu_idle_percent]. *)
Definition guarded_stdev (vals : list R) : R :=
  if (1 <? length vals)%nat then Py.stdev vals else 0.

Definition idle_share (vals : list R) : R :=
  INR (length (filter (fun v => Py.ltb v 5) vals)) / INR (length vals) * 100.

(** The summary [_compute_statistics] builds from a CPU series alone, given
    its entries. *)
Definition cpu_summary (avg top low sd p95 p50 idle : R) : Workload.Stats :=
  [("cpu_avg"%string, avg); ("cpu_max"%string, top); ("cpu_min"%string, low);
   ("cpu_stddev"%string, sd); ("cpu_p95"%string, p95);
   ("cpu_p50"%string, p50); ("cpu_idle_percent"%string, idle);
   ("burst_ratio"%string, top / Rmax avg 0.1);
   ("variability_score"%string, sd / Rmax avg 0.1)].

(** The number of samples in the spike band [70, 95]. *)
Definition is_spike (v : R) : bool := Py.leb 70 v && Py.leb v 95.
Definition spikes (vals : list R) : nat := length (filter is_spike vals).

(** One sample in ten of 336 is 33.6 samples: 33 or 34 spikes. *)
Definition one_in_ten_of_336 (k : nat) : Prop := (33 <= k <= 34)%nat.

(** Hourly samples from the epoch on with the given values. *)
Definition hourly (vals : list R) : list Workload.MetricDataPoint :=
  map (fun iv =>
         Workload.mkMetricDataPoint (Z.of_nat (fst iv) * Py.us_per_hour) (snd iv))
    (combine (seq 0 (length vals)) vals).

(** 336 samples at 5 percent with 34 spikes to 90 percent: one in the first
    hour of each of the first two days, then 32 in a row. *)
Definition spike_shape : list bool :=
  (true :: repeat false 23) ++ (true :: repeat false 23)
  ++ repeat true 32 ++ repeat false 256.

Definition periodic_spikes : list R := two_level 5 90 spike_shape.

(** ** Further notions *)

(** A series in non-decreasing order of time, the order the callers are
    to supply. *)
Definition time_sorted (metrics : list Patterns.MetricPoint) : Prop :=
  StronglySorted Z.le (map Patterns.timestamp metrics).

(** What the scan of [_analyze_idle_pattern] keeps true of its state, [b]
    being the time of the sample read last. *)
Definition idle_scan_good (b : Z) (st : Patterns.idle_state) : Prop :=
  let '(periods, in_idle, idle_start) := st in
  Forall (fun se => (fst se <= snd se)%Z) periods
  /\ (in_idle = true -> exists s, idle_start = Some s /\ (s <= b)%Z).

(** What the scan of [_analyze_burst_pattern] keeps true of its state:
    every peak, closed or running, is above the burst threshold. *)
Definition burst_scan_good (threshold : R) (st : Patterns.burst_state) : Prop :=
  let '(periods, in_burst, burst_start, burst_peak) := st in
  Forall (fun b => threshold < snd b) periods
  /\ (in_burst = true -> threshold < burst_peak).

(** A snapshot that carries no sample in any of its series. *)
Definition no_series (metrics : Workload.CloudWatchMetrics) : Prop :=
  Workload.cpu_utilization metrics = []
  /\ Workload.memory_utilization metrics = []
  /\ Workload.network_in metrics = []
  /\ Workload.network_out metrics = []
  /\ Workload.disk_read_ops metrics = []
  /\ Workload.disk_write_ops metrics = []
  /\ Workload.disk_read_bytes metrics = []
  /\ Workload.disk_write_bytes metrics = [].

(** The warning about too short a CPU series, for [n] samples. *)
Definition limited_data_warning (n : nat) : string :=
  ("Limited data points (" ++ Workload.str n
   ++ ") - recommend 14 days for accurate classification")%string.

(** The snapshot with its elastic-IP flag set to [b]. *)
Definition with_elastic_ip (b : bool) (m : Workload.CloudWatchMetrics)
    : Workload.CloudWatchMetrics :=
  Workload.mkCloudWatchMetrics (Workload.instance_id m)
    (Workload.instance_type m) (Workload.cpu_utilization m)
    (Workload.memory_utilization m) (Workload.network_in m)
    (Workload.network_out m) (Workload.disk_read_ops m)
    (Workload.disk_write_ops m) (Workload.disk_read_bytes m)
    (Workload.disk_write_bytes m) b (Workload.has_persistent_storage m)
    (Workload.in_auto_scaling_group m) (Workload.instance_age_days m).

(** The snapshot without samples, and its statistics summary. *)
Definition empty_snapshot (id type : string) (eip storage asg : bool) (age : Z)
    : Workload.CloudWatchMetrics :=
  Workload.mkCloudWatchMetrics id type [] [] [] [] [] [] [] [] eip storage asg
    age.

Definition empty_summary : Workload.Stats :=
  [("burst_ratio"%string, 0 / Rmax 1 0.1);
   ("variability_score"%string, 0 / Rmax 1 0.1)].

(** * Properties *)

(** ** Comparisons and sums *)

Lemma ltb_iff (x y : R) : Py.ltb x y = true <-> x < y.
Proof. unfold Py.ltb. destruct (Rlt_dec x y); split; intros; congruence || lra. Qed.

Lemma ltb_false_iff (x y : R) : Py.ltb x y = false <-> y <= x.
Proof. unfold Py.ltb. destruct (Rlt_dec x y); split; intros; congruence || lra. Qed.

Lemma leb_iff (x y : R) : Py.leb x y = true <-> x <= y.
Proof. unfold Py.leb. destruct (Rle_dec x y); split; intros; congruence || lra. Qed.

Lemma leb_false_iff (x y : R) : Py.leb x y = false <-> y < x.
Proof. unfold Py.leb. destruct (Rle_dec x y); split; intros; congruence || lra. Qed.

Lemma gtb_iff (x y : R) : Py.gtb x y = true <-> y < x.
Proof. apply ltb_iff. Qed.

Lemma gtb_false_iff (x y : R) : Py.gtb x y = false <-> x <= y.
Proof. apply ltb_false_iff. Qed.

Lemma geb_iff (x y : R) : Py.geb x y = true <-> y <= x.
Proof. apply leb_iff. Qed.

Lemma geb_false_iff (x y : R) : Py.geb x y = false <-> x < y.
Proof. apply leb_false_iff. Qed.

Lemma eqb_iff (x y : R) : Py.eqb x y = true <-> x = y.
Proof. unfold Py.eqb. destruct (Req_dec_T x y); split; intros; congruence. Qed.

Lemma eqb_false_iff (x y : R) : Py.eqb x y = false <-> x <> y.
Proof. unfold Py.eqb. destruct (Req_dec_T x y); split; intros; congruence. Qed.

(** Decide a comparison between two closed expressions, in the goal. *)
Ltac cmp_true := first
  [ apply ltb_iff | apply leb_iff | apply gtb_iff | apply geb_iff
  | apply eqb_iff ]; lra.
Ltac cmp_false := first
  [ apply ltb_false_iff | apply leb_false_iff | apply gtb_false_iff
  | apply geb_false_iff | apply eqb_false_iff ]; lra.

(** Split on every comparison of the goal and keep its meaning. *)
Ltac case_cmp :=
  repeat match goal with
  | |- context [Py.ltb ?a ?b] =>
      let E := fresh "E" in
      destruct (Py.ltb a b) eqn:E;
      [apply ltb_iff in E | apply ltb_false_iff in E]
  | |- context [Py.leb ?a ?b] =>
      let E := fresh "E" in
      destruct (Py.leb a b) eqn:E;
      [apply leb_iff in E | apply leb_false_iff in E]
  | |- context [Py.gtb ?a ?b] =>
      let E := fresh "E" in
      destruct (Py.gtb a b) eqn:E;
      [apply gtb_iff in E | apply gtb_false_iff in E]
  | |- context [Py.geb ?a ?b] =>
      let E := fresh "E" in
      destruct (Py.geb a b) eqn:E;
      [apply geb_iff in E | apply geb_false_iff in E]
  end.

Lemma fold_plus_shift (xs : list R) (a : R) :
  fold_left Rplus xs a = a + fold_left Rplus xs 0.
Proof.
  revert a. induction xs as [|x xs IH]; intros a; simpl.
  - lra.
  - rewrite (IH (a + x)), (IH (0 + x)). lra.
Qed.

Lemma sum_nil : Py.sum [] = 0.
Proof. reflexivity. Qed.

Lemma sum_cons (x : R) (xs : list R) : Py.sum (x :: xs) = x + Py.sum xs.
Proof. unfold Py.sum. simpl. rewrite fold_plus_shift. lra. Qed.

Lemma sum_app (xs ys : list R) : Py.sum (xs ++ ys) = Py.sum xs + Py.sum ys.
Proof.
  induction xs as [|x xs IH]; simpl.
  - rewrite sum_nil. lra.
  - rewrite !sum_cons, IH. lra.
Qed.

Lemma sum_nonneg (xs : list R) : Forall (fun x => 0 <= x) xs -> 0 <= Py.sum xs.
Proof.
  induction 1 as [|x xs Hx _ IH].
  - rewrite sum_nil. lra.
  - rewrite sum_cons. lra.
Qed.

Lemma sum_repeat (x : R) (n : nat) : Py.sum (repeat x n) = INR n * x.
Proof.
  induction n as [|n IH].
  - simpl. rewrite sum_nil. lra.
  - change (repeat x (S n)) with (x :: repeat x n).
    rewrite sum_cons, IH, S_INR. lra.
Qed.

(** ** The model of [sorted] *)

Lemma insert_perm (x : R) (l : list R) : Permutation (Py.insert x l) (x :: l).
Proof.
  induction l as [|y l IH]; simpl.
  - apply Permutation_refl.
  - destruct (Py.leb x y); [apply Permutation_refl|].
    apply perm_trans with (y :: x :: l); [apply perm_skip, IH | apply perm_swap].
Qed.

Lemma insert_ordered (x : R) (l : list R) :
  Sorted Rle l -> Sorted Rle (Py.insert x l).
Proof.
  induction 1 as [|y l Hl IH Hy]; simpl.
  - repeat constructor.
  - destruct (Py.leb x y) eqn:E.
    + apply leb_iff in E.
      apply Sorted_cons; [apply Sorted_cons; assumption|].
      apply HdRel_cons. exact E.
    + apply leb_false_iff in E. apply Sorted_cons; [exact IH|].
      destruct l as [|z l]; simpl.
      * apply HdRel_cons. lra.
      * destruct (Py.leb x z); apply HdRel_cons;
          [lra | inversion Hy; assumption].
Qed.

(** [Py.sorted] rearranges its argument in ascending order. *)
Lemma sorted_perm (l : list R) : Permutation (Py.sorted l) l.
Proof.
  induction l as [|x l IH]; simpl; [apply perm_nil|].
  apply perm_trans with (x :: Py.sorted l);
    [apply insert_perm | apply perm_skip, IH].
Qed.

Lemma sorted_ordered (l : list R) : Sorted Rle (Py.sorted l).
Proof.
  induction l as [|x l IH]; simpl; [constructor | apply insert_ordered, IH].
Qed.

(** ** The stable descending sort of [classify] *)

Section SortDesc.

Import Workload.

Lemma insert_desc_perm (x : WorkloadClassification * R) l :
  Permutation (insert_desc x l) (x :: l).
Proof.
  induction l as [|y l IH]; simpl.
  - apply Permutation_refl.
  - destruct (Py.ltb (snd x) (snd y)).
    + apply perm_trans with (y :: x :: l).
      * apply perm_skip, IH.
      * apply perm_swap.
    + apply Permutation_refl.
Qed.

Lemma sort_desc_perm l : Permutation (sort_desc l) l.
Proof.
  induction l as [|x l IH]; simpl.
  - apply perm_nil.
  - apply perm_trans with (x :: sort_desc l).
    + apply insert_desc_perm.
    + apply perm_skip, IH.
Qed.

Lemma insert_desc_sorted (x : WorkloadClassification * R) l :
  Sorted score_ge l -> Sorted score_ge (insert_desc x l).
Proof.
  induction 1 as [|y l Hl IH Hy]; simpl.
  - repeat constructor.
  - destruct (Py.ltb (snd x) (snd y)) eqn:E.
    + apply ltb_iff in E. constructor; [exact IH|].
      destruct l as [|z l]; simpl.
      * constructor. unfold score_ge. lra.
      * destruct (Py.ltb (snd x) (snd z)).
        -- constructor. inversion Hy; assumption.
        -- constructor. unfold score_ge. lra.
    + apply ltb_false_iff in E.
      constructor; [constructor; assumption|].
      constructor. exact E.
Qed.

Lemma sort_desc_sorted l : StronglySorted score_ge (sort_desc l).
Proof.
  apply Sorted_StronglySorted.
  - intros a b c Hab Hbc. unfold score_ge in *. lra.
  - induction l as [|x l IH]; simpl.
    + constructor.
    + apply insert_desc_sorted, IH.
Qed.

Lemma filter_strongly_sorted (f : WorkloadClassification * R -> bool) l :
  StronglySorted score_ge l -> StronglySorted score_ge (filter f l).
Proof.
  induction 1 as [|x l Hl IH Hx]; simpl.
  - constructor.
  - destruct (f x); [|exact IH].
    constructor; [exact IH|].
    rewrite Forall_forall in *. intros y Hy.
    apply Hx. apply filter_In in Hy. tauto.
Qed.

End SortDesc.

(** ** Candidate scores *)

Section Scores.

Import Workload.

Variable self : WorkloadClassifier.
Variable metrics : CloudWatchMetrics.
Variable stats : Stats.

Lemma lambda_score_nonneg : 0 <= _score_lambda_candidate self metrics stats.
Proof. unfold _score_lambda_candidate. apply Rmax_r. Qed.

Lemma fargate_score_nonneg : 0 <= _score_fargate_candidate self metrics stats.
Proof. unfold _score_fargate_candidate. apply Rmax_r. Qed.

Lemma spot_score_nonneg : 0 <= _score_spot_candidate self metrics stats.
Proof. unfold _score_spot_candidate. apply Rmax_r. Qed.

Lemma keep_score_base : 0.3 <= _score_keep_ec2 self metrics stats <= 1.0.
Proof.
  unfold _score_keep_ec2.
  destruct (_ && _), (Py.gtb _ 70), (_ || _), (has_elastic_ip metrics),
    (has_persistent_storage metrics);
    split; try apply Rmin_r; apply Rmin_glb; lra.
Qed.

Lemma candidate_scores_nonneg :
  Forall (fun s => 0 <= snd s) (candidate_scores self metrics stats).
Proof.
  unfold candidate_scores.
  repeat apply Forall_cons; try apply Forall_nil; simpl.
  - apply lambda_score_nonneg.
  - apply fargate_score_nonneg.
  - apply spot_score_nonneg.
  - pose proof keep_score_base. lra.
Qed.

Lemma candidate_labels_nodup :
  NoDup (map fst (candidate_scores self metrics stats)).
Proof.
  simpl. repeat constructor; simpl; intuition discriminate.
Qed.

End Scores.

(** The fields of the result of [classify] in terms of the sorted list. *)
Lemma classify_fields (self : Workload.WorkloadClassifier)
    (metrics : Workload.CloudWatchMetrics) :
  let stats := Workload._compute_statistics self metrics in
  let scores := Workload.sort_desc (Workload.candidate_scores self metrics stats) in
  Workload.metrics_summary (Workload.classify self metrics) = stats
  /\ exists others,
       scores
       = (Workload.classification (Workload.classify self metrics),
          snd (hd (Workload.KEEP_EC2, 0) scores)) :: others
       /\ Workload.confidence (Workload.classify self metrics)
          = Rmin (snd (hd (Workload.KEEP_EC2, 0) scores)) 1.0
       /\ Workload.alternative_classifications (Workload.classify self metrics)
          = filter (fun s => Py.gtb (snd s) 0.3) others.
Proof.
  intros stats scores. unfold Workload.classify.
  fold stats. fold scores.
  assert (Hlen : length scores = 4%nat).
  { unfold scores. rewrite (Permutation_length (sort_desc_perm _)). reflexivity. }
  destruct scores as [|[c s] others]; [discriminate|].
  cbn [hd tl snd]. cbv beta iota zeta.
  destruct (Workload._estimate_savings self metrics stats c) as [sv tg].
  simpl. split; [reflexivity|]. exists others. auto.
Qed.

(** ** Invariants of [classify] *)

(** C6: for every classifier and every snapshot, the confidence of the result
    is in [0,1]; the primary classification is one of the four candidates,
    the other three being the rest of a rearrangement of the candidate list;
    the alternatives are the candidates of that rest whose score exceeds 0.3,
    so they leave out the primary, come in descending order of score and all
    exceed 0.3. *)
Theorem classify_result_invariants (self : Workload.WorkloadClassifier)
    (metrics : Workload.CloudWatchMetrics) :
  let r := Workload.classify self metrics in
  let candidates :=
    Workload.candidate_scores self metrics (Workload.metrics_summary r) in
  0 <= Workload.confidence r <= 1
  /\ (exists best_score others,
        Permutation ((Workload.classification r, best_score) :: others) candidates
        /\ NoDup (Workload.classification r :: map fst others)
        /\ Workload.confidence r = Rmin best_score 1.0
        /\ Workload.alternative_classifications r
           = filter (fun s => Py.gtb (snd s) 0.3) others)
  /\ ~ In (Workload.classification r)
         (map fst (Workload.alternative_classifications r))
  /\ StronglySorted score_ge (Workload.alternative_classifications r)
  /\ Forall (fun a => 0.3 < snd a) (Workload.alternative_classifications r).
Proof.
  intros r candidates. subst r candidates.
  destruct (classify_fields self metrics) as (Hstats & others & Hs & Hconf & Halt).
  rewrite Hstats, Hconf, Halt.
  set (stats := Workload._compute_statistics self metrics) in *.
  set (cands := Workload.candidate_scores self metrics stats) in *.
  set (c := Workload.classification (Workload.classify self metrics)) in *.
  set (best := snd (hd (Workload.KEEP_EC2, 0) (Workload.sort_desc cands))) in *.
  assert (Hperm : Permutation ((c, best) :: others) cands).
  { rewrite <- Hs. apply sort_desc_perm. }
  assert (Hnodup : NoDup (c :: map fst others)).
  { change (NoDup (map fst ((c, best) :: others))).
    apply (Permutation_NoDup (l := map fst cands)).
    - apply Permutation_map, Permutation_sym, Hperm.
    - apply candidate_labels_nodup. }
  assert (Hsorted : StronglySorted score_ge ((c, best) :: others)).
  { rewrite <- Hs. apply sort_desc_sorted. }
  assert (Hbest : 0 <= best).
  { pose proof (candidate_scores_nonneg self metrics stats) as Hall.
    rewrite Forall_forall in Hall.
    apply (Hall (c, best)).
    apply (Permutation_in _ Hperm). left. reflexivity. }
  split; [|split; [|split; [|split]]].
  - split.
    + apply Rmin_glb; lra.
    + apply Rle_trans with 1.0; [apply Rmin_r | lra].
  - exists best, others. auto.
  - intros Hin. apply in_map_iff in Hin. destruct Hin as (x & Hx & Hin).
    apply filter_In in Hin. destruct Hin as [Hin _].
    inversion Hnodup as [|? ? Hnot _]; subst. apply Hnot.
    rewrite <- Hx. apply in_map. exact Hin.
  - apply filter_strongly_sorted.
    inversion Hsorted; assumption.
  - apply Forall_forall. intros x Hx. apply filter_In in Hx.
    destruct Hx as [_ Hx]. apply gtb_iff in Hx. exact Hx.
Qed.

(** C10: for every classifier and every snapshot, empty series included, the
    confidence of the result is at least 0.3 and at most 1.0: the score of
    keeping the instance never falls below its base of 0.3, and the winning
    score is the largest of the four. *)
Theorem classify_confidence_floor (self : Workload.WorkloadClassifier)
    (metrics : Workload.CloudWatchMetrics) :
  0.3 <= Workload.confidence (Workload.classify self metrics) <= 1.0.
Proof.
  destruct (classify_fields self metrics) as (_ & others & Hs & Hconf & _).
  rewrite Hconf.
  set (stats := Workload._compute_statistics self metrics) in *.
  set (cands := Workload.candidate_scores self metrics stats) in *.
  set (c := Workload.classification (Workload.classify self metrics)) in *.
  set (best := snd (hd (Workload.KEEP_EC2, 0) (Workload.sort_desc cands))) in *.
  pose proof (keep_score_base self metrics stats) as Hkeep.
  assert (Hin : In (Workload.KEEP_EC2, Workload._score_keep_ec2 self metrics stats)
                  ((c, best) :: others)).
  { rewrite <- Hs. apply (Permutation_in _ (Permutation_sym (sort_desc_perm _))).
    unfold cands, Workload.candidate_scores. simpl. tauto. }
  assert (Hmax : Workload._score_keep_ec2 self metrics stats <= best).
  { pose proof (sort_desc_sorted cands) as Hsorted. rewrite Hs in Hsorted.
    inversion Hsorted as [|? ? _ Hall]; subst.
    destruct Hin as [Heq | Hin].
    - inversion Heq. lra.
    - rewrite Forall_forall in Hall. apply (Hall _ Hin). }
  split.
  - apply Rmin_glb; lra.
  - apply Rmin_r.
Qed.

(** ** Degenerate input *)

(** C9: on the empty CPU series every sub-analysis of the detector takes its
    guard and returns its neutral default: no idle time and not
    idle-dominant, no burst and not bursty, no diurnal pattern, no weekly
    pattern, and a stable trend; so does the memory sub-analysis on an empty
    memory series. *)
Theorem empty_series_defaults (self : Patterns.PatternDetector) :
  Patterns._analyze_idle_pattern self []
  = Patterns.mkIdlePattern 0 0 0 [] false
  /\ Patterns._analyze_burst_pattern self []
     = Patterns.mkBurstPattern false 0 0 0 0 []
  /\ Patterns._analyze_diurnal_pattern self []
     = Patterns.mkDiurnalPattern false 0 0 1.0 []
  /\ Patterns._analyze_weekly_pattern self []
     = Patterns.mkWeeklyPattern false 0 0 0 0 []
  /\ Patterns._analyze_trend self []
     = Patterns.mkTrendPattern "stable" 0 0 0
  /\ Patterns._analyze_memory_pattern self [] = Patterns.no_memory.
Proof. repeat split. Qed.

(** ** The candidate scores of the primary pattern *)

Section PrimaryScores.

Import Patterns.

Variable idle : IdlePattern.
Variable burst : BurstPattern.
Variable diurnal : DiurnalPattern.
Variable weekly : WeeklyPattern.
Variable trend : TrendPattern.

(** The dict of scores, entry by entry, in its iteration order. *)
Lemma pattern_scores_entries :
  pattern_scores idle burst diurnal weekly trend
  = [(IDLE_DOMINANT, idle_score idle);
     (BURSTY, bursty_score burst);
     (STEADY_STATE, steady_score idle burst diurnal);
     (DIURNAL, diurnal_score diurnal);
     (WEEKLY, weekly_score weekly);
     (BATCH, batch_score burst diurnal weekly);
     (GROWING, growing_score trend);
     (DECLINING, declining_score trend)].
Proof.
  unfold pattern_scores, batch_score.
  unfold idle_score, bursty_score, steady_score, diurnal_score, weekly_score,
    growing_score, declining_score.
  destruct (is_idle_dominant idle), (is_bursty burst),
    (has_diurnal_pattern diurnal), (has_weekly_pattern weekly),
    (String.eqb (direction trend) "growing" && Py.gtb (r_squared trend) 0.5),
    (String.eqb (direction trend) "declining" && Py.gtb (r_squared trend) 0.5),
    (Py.ltb (peak_to_trough_ratio diurnal) 1.5);
    reflexivity.
Qed.

Lemma bursty_score_le : bursty_score burst <= 0.95.
Proof. unfold bursty_score. destruct (is_bursty burst); [apply Rmin_r | lra]. Qed.

Lemma diurnal_score_le : diurnal_score diurnal <= 0.9.
Proof.
  unfold diurnal_score. destruct (has_diurnal_pattern diurnal); [apply Rmin_r | lra].
Qed.

Lemma weekly_score_le : weekly_score weekly <= 0.85.
Proof.
  unfold weekly_score. destruct (has_weekly_pattern weekly); [apply Rmin_r | lra].
Qed.

Lemma batch_score_le : batch_score burst diurnal weekly <= 0.95.
Proof. unfold batch_score. destruct (_ && _); [apply Rmin_r | lra]. Qed.

Lemma steady_score_le : steady_score idle burst diurnal <= 0.7.
Proof. unfold steady_score. destruct (_ && _); lra. Qed.

End PrimaryScores.

Lemma argmax_from_stays {K : Type} (best : K) (bv : R) (d : list (K * R)) :
  Forall (fun e => snd e <= bv) d -> Py.argmax_from best bv d = best.
Proof.
  induction 1 as [|[k v] d Hv _ IH]; simpl.
  - reflexivity.
  - simpl in Hv. replace (Py.ltb bv v) with false; [exact IH|].
    symmetry. apply ltb_false_iff. exact Hv.
Qed.

(** ** The confidence of the pattern analysis *)

Section AnalyzeConfidence.

Import Patterns.

Lemma analyze_primary (self : PatternDetector) (id : string)
    (cpu : list MetricPoint) (mem : option (list MetricPoint)) :
  (primary_pattern (analyze self id cpu mem), confidence (analyze self id cpu mem))
  = _determine_primary_pattern self
      (_analyze_idle_pattern self cpu) (_analyze_burst_pattern self cpu)
      (_analyze_diurnal_pattern self cpu) (_analyze_weekly_pattern self cpu)
      (_analyze_trend self cpu).
Proof.
  unfold analyze.
  destruct (_determine_primary_pattern _ _ _ _ _ _) as [p c]. reflexivity.
Qed.

Lemma idle_pattern_fields (self : PatternDetector) (ms : list MetricPoint) :
  ms <> [] ->
  let pct :=
    INR (length (filter (fun p => Py.ltb (value p) (IDLE_THRESHOLD_CPU self)) ms))
    / INR (length ms) * 100 in
  idle_percent (_analyze_idle_pattern self ms) = pct
  /\ is_idle_dominant (_analyze_idle_pattern self ms) = Py.gtb pct 70.
Proof.
  intros Hne pct. unfold _analyze_idle_pattern.
  destruct ms as [|m ms]; [congruence|].
  destruct (fold_left _ _ _) as [[periods in_idle] idle_start].
  match goal with
  | |- context [let '(_, _) := ?e in _] => destruct e as [a b]
  end.
  split; reflexivity.
Qed.

Lemma sum_range_squares_nonneg (n : nat) (f : nat -> R) :
  0 <= sum_range n (fun i => f i * f i).
Proof.
  unfold sum_range. apply sum_nonneg. apply Forall_forall.
  intros x Hx. apply in_map_iff in Hx. destruct Hx as (i & <- & _). nra.
Qed.

Lemma trend_r_squared_le_1 (self : PatternDetector) (ms : list MetricPoint) :
  r_squared (_analyze_trend self ms) <= 1.
Proof.
  unfold _analyze_trend.
  destruct (length ms <? 48)%nat; [simpl; lra|].
  destruct (length (daily_means ms) <? 3)%nat; [simpl; lra|].
  cbv zeta. cbn [r_squared].
  match goal with
  | |- Rmax 0 (if Py.gtb ?t 0 then 1 - ?r / ?t else 0) <= 1 =>
      destruct (Py.gtb t 0) eqn:E;
      [apply gtb_iff in E; assert (0 <= r) by apply sum_range_squares_nonneg;
       assert (0 <= r / t)
         by (apply Rmult_le_pos; [lra | left; apply Rinv_0_lt_compat; lra])
      |]; apply Rmax_lub; lra
  end.
Qed.

Lemma trend_scores_le (trend : TrendPattern) :
  r_squared trend <= 1 ->
  growing_score trend <= 0.9 /\ declining_score trend <= 0.9.
Proof.
  intros H. unfold growing_score, declining_score.
  destruct (String.eqb (direction trend) "growing"
            && Py.gtb (r_squared trend) 0.5),
    (String.eqb (direction trend) "declining"
     && Py.gtb (r_squared trend) 0.5); lra.
Qed.

(** C1, on the code: for every detector and every non-empty CPU series whose
    samples all lie below the idle threshold, the analysis reports the
    idle-dominant pattern with confidence 1.1, outside [0,1]: the
    idle-dominant score [0.8 + (idle_percent - 70) / 100] is the one
    candidate score that is not capped. *)
Theorem analyze_all_idle_confidence (self : PatternDetector) (id : string)
    (cpu : list MetricPoint) (mem : option (list MetricPoint)) :
  cpu <> [] ->
  Forall (fun p => value p < IDLE_THRESHOLD_CPU self) cpu ->
  primary_pattern (analyze self id cpu mem) = IDLE_DOMINANT
  /\ confidence (analyze self id cpu mem) = 1.1.
Proof.
  intros Hne Hall.
  pose proof (analyze_primary self id cpu mem) as Hp.
  destruct (idle_pattern_fields self cpu Hne) as [Hpct Hdom].
  assert (Hcount :
    filter (fun p => Py.ltb (value p) (IDLE_THRESHOLD_CPU self)) cpu = cpu).
  { clear - Hall. induction Hall as [|p l Hp _ IH]; simpl; [reflexivity|].
    replace (Py.ltb _ _) with true by (symmetry; apply ltb_iff; exact Hp).
    rewrite IH. reflexivity. }
  rewrite Hcount in Hpct, Hdom.
  assert (Hlen : INR (length cpu) <> 0).
  { apply not_0_INR. destruct cpu; simpl; congruence. }
  assert (H100 : INR (length cpu) / INR (length cpu) * 100 = 100)
    by (field; exact Hlen).
  rewrite H100 in Hpct, Hdom.
  assert (Hdom' : is_idle_dominant (_analyze_idle_pattern self cpu) = true).
  { rewrite Hdom. apply gtb_iff. lra. }
  set (idle := _analyze_idle_pattern self cpu) in *.
  set (burst := _analyze_burst_pattern self cpu) in *.
  set (diurnal := _analyze_diurnal_pattern self cpu) in *.
  set (weekly := _analyze_weekly_pattern self cpu) in *.
  assert (Hidle : idle_score idle = 1.1).
  { unfold idle_score. rewrite Hdom', Hpct. lra. }
  assert (Hsteady : steady_score idle burst diurnal = 0.0).
  { unfold steady_score. rewrite Hdom'. reflexivity. }
  destruct (trend_scores_le _ (trend_r_squared_le_1 self cpu)) as [Hg Hd].
  pose proof (bursty_score_le burst) as Hb.
  pose proof (diurnal_score_le diurnal) as Hdi.
  pose proof (weekly_score_le weekly) as Hw.
  pose proof (batch_score_le burst diurnal weekly) as Hba.
  unfold _determine_primary_pattern in Hp.
  rewrite pattern_scores_entries in Hp.
  unfold Py.argmax in Hp.
  rewrite argmax_from_stays in Hp.
  - unfold get_score in Hp. simpl in Hp. rewrite Hidle in Hp.
    replace (Py.ltb 1.1 0.4) with false in Hp
      by (symmetry; apply ltb_false_iff; lra).
    inversion Hp. split; reflexivity.
  - rewrite Hidle, Hsteady.
    repeat apply Forall_cons; try apply Forall_nil; simpl; lra.
Qed.

(** The theorem at the series of one sample, of value 0 at the epoch. *)
Lemma analyze_all_idle_confidence_witness :
  [mkMetricPoint 0 0] <> []
  /\ Forall (fun p => value p < IDLE_THRESHOLD_CPU class_defaults)
       [mkMetricPoint 0 0]
  /\ primary_pattern (analyze class_defaults "i-idle" [mkMetricPoint 0 0] None)
     = IDLE_DOMINANT
  /\ confidence (analyze class_defaults "i-idle" [mkMetricPoint 0 0] None) = 1.1.
Proof.
  assert (H1 : [mkMetricPoint 0 0] <> []) by discriminate.
  assert (H2 : Forall (fun p => value p < IDLE_THRESHOLD_CPU class_defaults)
                 [mkMetricPoint 0 0]).
  { constructor; [simpl; lra | constructor]. }
  split; [exact H1|]. split; [exact H2|].
  exact (analyze_all_idle_confidence class_defaults "i-idle"
           [mkMetricPoint 0 0] None H1 H2).
Defined.

End AnalyzeConfidence.

(** ** The tie-break of the primary pattern *)

(** [max(d, key=d.get)] returns the first key of largest value: every entry
    before it is strictly smaller, every entry after it is no larger. *)
Lemma argmax_from_first_max {K : Type} (best : K) (bv : R) (d : list (K * R)) :
  (Py.argmax_from best bv d = best /\ Forall (fun e => snd e <= bv) d)
  \/ exists pre v post,
       d = pre ++ (Py.argmax_from best bv d, v) :: post
       /\ bv < v
       /\ Forall (fun e => snd e < v) pre
       /\ Forall (fun e => snd e <= v) post.
Proof.
  revert best bv. induction d as [|[k v] d IH]; intros best bv; simpl.
  - left. split; [reflexivity | constructor].
  - destruct (Py.ltb bv v) eqn:E.
    + apply ltb_iff in E. right.
      destruct (IH k v) as [[Hk Hall] | (pre & v' & post & Hd & Hlt & Hpre & Hpost)].
      * exists [], v, d. rewrite Hk. simpl.
        split; [reflexivity|]. split; [exact E|]. split; [constructor | exact Hall].
      * exists ((k, v) :: pre), v', post.
        split; [rewrite Hd at 1; reflexivity|]. split; [lra|].
        split; [|exact Hpost].
        constructor; [simpl; lra | exact Hpre].
    + apply ltb_false_iff in E.
      destruct (IH best bv) as [[Hk Hall] | (pre & v' & post & Hd & Hlt & Hpre & Hpost)].
      * left. split; [exact Hk|]. constructor; [exact E | exact Hall].
      * right. exists ((k, v) :: pre), v', post.
        split; [rewrite Hd at 1; reflexivity|]. split; [exact Hlt|].
        split; [|exact Hpost].
        constructor; [simpl; lra | exact Hpre].
Qed.

Lemma argmax_first_max {K : Type} (default : K) (d : list (K * R)) :
  d <> [] ->
  exists pre v post,
    d = pre ++ (Py.argmax default d, v) :: post
    /\ Forall (fun e => snd e < v) pre
    /\ Forall (fun e => snd e <= v) post.
Proof.
  destruct d as [|[k v] d]; [congruence|]. intros _. simpl.
  destruct (argmax_from_first_max k v d)
    as [[Hk Hall] | (pre & v' & post & Hd & Hlt & Hpre & Hpost)].
  - exists [], v, d. rewrite Hk. simpl.
    split; [reflexivity|]. split; [constructor | exact Hall].
  - exists ((k, v) :: pre), v', post.
    split; [rewrite Hd at 1; reflexivity|].
    split; [|exact Hpost].
    constructor; [simpl; lra | exact Hpre].
Qed.

Lemma cons_eq_app_cases {A : Type} (x y : A) (l pre post : list A) :
  x :: l = pre ++ y :: post ->
  (pre = [] /\ x = y /\ l = post)
  \/ exists pre', pre = x :: pre' /\ l = pre' ++ y :: post.
Proof.
  destruct pre as [|z pre]; simpl; intros H; injection H as -> ->.
  - left. auto.
  - right. exists pre. auto.
Qed.

(** Take apart the position of the maximum in a dict written out in full. *)
Ltac split_position H :=
  match type of H with
  | _ :: _ = _ ++ _ :: _ =>
      apply cons_eq_app_cases in H;
      destruct H as [(-> & H & <-) | (? & -> & H)];
      [injection H as <- <- | split_position H]
  | [] = _ ++ _ :: _ => symmetry in H; apply app_eq_nil in H;
                        destruct H as [_ H]; discriminate H
  end.

Ltac forall_hyps :=
  repeat match goal with
  | H : Forall _ (_ :: _) |- _ =>
      let H1 := fresh "Hs" in
      apply Forall_cons_iff in H; destruct H as [H1 H]; simpl in H1
  | H : Forall _ [] |- _ => clear H
  end.

Section TieBreak.

Import Patterns.

Variable self : PatternDetector.
Variable idle : IdlePattern.
Variable burst : BurstPattern.
Variable diurnal : DiurnalPattern.
Variable weekly : WeeklyPattern.
Variable trend : TrendPattern.

(** The steady-state score is positive only when the workload is not
    bursty, and then the bursty score is zero. *)
Lemma steady_excludes_bursty :
  steady_score idle burst diurnal = 0.0
  \/ (steady_score idle burst diurnal = 0.7 /\ bursty_score burst = 0.0).
Proof.
  unfold steady_score, bursty_score.
  destruct (is_idle_dominant idle), (is_bursty burst),
    (Py.ltb (peak_to_trough_ratio diurnal) 1.5); simpl; auto.
Qed.

(** For every input, the pattern the maximum picks is the first entry of
    largest score in the written order of the dict, in which [BURSTY] comes
    before [STEADY_STATE]. *)
Lemma best_pattern_written_order :
  exists pre v post,
    pattern_scores idle burst diurnal weekly trend
    = pre ++ (Py.argmax ERRATIC
                (pattern_scores idle burst diurnal weekly trend), v) :: post
    /\ Forall (fun e => snd e < v) pre
    /\ Forall (fun e => snd e <= v) post.
Proof.
  apply argmax_first_max. rewrite pattern_scores_entries. discriminate.
Qed.

(** When every candidate scores below 0.4 the function returns [ERRATIC]
    with confidence 0.5. *)
Lemma below_threshold_is_erratic :
  (forall p, In p candidates ->
             get_score p (pattern_scores idle burst diurnal weekly trend) < 0.4) ->
  _determine_primary_pattern self idle burst diurnal weekly trend
  = (ERRATIC, 0.5).
Proof.
  intros Hlow. unfold _determine_primary_pattern.
  destruct best_pattern_written_order as (pre & v & post & HL & _ & _).
  set (k := Py.argmax ERRATIC (pattern_scores idle burst diurnal weekly trend))
    in *.
  assert (Hk : In k candidates).
  { clearbody k. rewrite pattern_scores_entries in HL. clear - HL.
    split_position HL; simpl; tauto. }
  replace (Py.ltb (get_score k (pattern_scores idle burst diurnal weekly trend))
             0.4) with true
    by (symmetry; apply ltb_iff, Hlow, Hk).
  reflexivity.
Qed.

(** Whenever some candidate scores at least 0.4, tied or not, the pattern
    that [_determine_primary_pattern] returns is the candidate of largest
    score that comes first in the declaration order of the enumeration,
    which is then also the one that comes first in the written order of the
    dict. *)
Lemma first_maximal_above_threshold :
  let scores := pattern_scores idle burst diurnal weekly trend in
  (exists p, In p candidates /\ 0.4 <= get_score p scores) ->
  enum_first_maximal scores
    (fst (_determine_primary_pattern self idle burst diurnal weekly trend))
  /\ written_first_maximal scores
       (fst (_determine_primary_pattern self idle burst diurnal weekly trend)).
Proof.
  intros scores (p & Hp & H04).
  unfold _determine_primary_pattern. fold scores.
  subst scores. rewrite pattern_scores_entries in *.
  pose proof steady_excludes_bursty as F.
  set (a := idle_score idle) in *. clearbody a.
  set (b := bursty_score burst) in *. clearbody b.
  set (s := steady_score idle burst diurnal) in *. clearbody s.
  set (d := diurnal_score diurnal) in *. clearbody d.
  set (w := weekly_score weekly) in *. clearbody w.
  set (t := batch_score burst diurnal weekly) in *. clearbody t.
  set (g := growing_score trend) in *. clearbody g.
  set (e := declining_score trend) in *. clearbody e.
  match goal with
  | |- context [Py.argmax ERRATIC ?l] =>
      destruct (argmax_first_max ERRATIC l) as (pre & v & post & HL & Hpre & Hpost);
      [discriminate|];
      set (k := Py.argmax ERRATIC l) in *; clearbody k
  end.
  assert (Hv : forall q, In q candidates ->
                 get_score q
                   [(IDLE_DOMINANT, a); (BURSTY, b); (STEADY_STATE, s);
                    (DIURNAL, d); (WEEKLY, w); (BATCH, t); (GROWING, g);
                    (DECLINING, e)] <= v).
  { intros q Hq. clear Hp H04 F.
    split_position HL; forall_hyps;
      simpl in Hq; unfold get_score;
      repeat (destruct Hq as [<- | Hq]; [simpl; lra|]); contradiction. }
  pose proof (Hv p Hp) as Hpv.
  assert (Hk : get_score k
                 [(IDLE_DOMINANT, a); (BURSTY, b); (STEADY_STATE, s);
                  (DIURNAL, d); (WEEKLY, w); (BATCH, t); (GROWING, g);
                  (DECLINING, e)] = v).
  { clear - HL. split_position HL; reflexivity. }
  rewrite Hk.
  replace (Py.ltb v 0.4) with false by (symmetry; apply ltb_false_iff; lra).
  cbn [fst].
  assert (Hkc : In k candidates) by (clear - HL; split_position HL; simpl; tauto).
  assert (Hmaximal :
    maximal [(IDLE_DOMINANT, a); (BURSTY, b); (STEADY_STATE, s);
             (DIURNAL, d); (WEEKLY, w); (BATCH, t); (GROWING, g);
             (DECLINING, e)] k).
  { split; [exact Hkc|]. intros q Hq. rewrite Hk. apply Hv, Hq. }
  split; (split; [exact Hmaximal|]);
    intros q [Hq Hmax];
    specialize (Hmax k Hkc); rewrite Hk in Hmax;
    clear Hv Hk Hkc Hp Hmaximal;
    split_position HL; forall_hyps;
    simpl in Hq; unfold get_score in Hmax;
    repeat (destruct Hq as [<- | Hq];
            [simpl in Hmax |- *; try lia; exfalso; lra|]);
    contradiction.
Qed.

End TieBreak.

(** ** Daily means and the leak slope *)

Section DailyGroups.

Import Patterns.

Lemma keys_dict_append (k : Z) (v : R) (d : list (Z * list R)) :
  map fst (dict_append k v d) = map fst d.
Proof.
  unfold dict_append. rewrite map_map. apply map_ext.
  intros [k' vs]. simpl. destruct (k' =? k)%Z; reflexivity.
Qed.

Lemma existsb_key (k : Z) (d : list (Z * list R)) :
  existsb (fun kv => (fst kv =? k)%Z) d = true <-> In k (map fst d).
Proof.
  rewrite existsb_exists, in_map_iff. split.
  - intros (kv & Hin & Hk). apply Z.eqb_eq in Hk. exists kv. auto.
  - intros (kv & Hk & Hin). exists kv. split; [exact Hin|]. apply Z.eqb_eq, Hk.
Qed.

Lemma keys_group_step (d : list (Z * list R)) (point : MetricPoint) :
  map fst (group_step d point)
  = if existsb (fun kv => (fst kv =? Py.date (timestamp point))%Z) d
    then map fst d
    else map fst d ++ [Py.date (timestamp point)].
Proof.
  unfold group_step. rewrite keys_dict_append.
  destruct (existsb _ d); [reflexivity|].
  rewrite map_app. reflexivity.
Qed.

(** The dates of the groups are the dates of the series, each once. *)
Lemma keys_fold_group (ms : list MetricPoint) (d : list (Z * list R)) :
  NoDup (map fst d) ->
  NoDup (map fst (fold_left group_step ms d))
  /\ forall x, In x (map fst (fold_left group_step ms d))
               <-> In x (map fst d)
                   \/ In x (map (fun p => Py.date (timestamp p)) ms).
Proof.
  revert d. induction ms as [|m ms IH]; intros d Hd; simpl.
  - split; [exact Hd|]. intros x. tauto.
  - assert (Hstep : NoDup (map fst (group_step d m))
                    /\ forall x, In x (map fst (group_step d m))
                                 <-> In x (map fst d) \/ Py.date (timestamp m) = x).
    { rewrite keys_group_step.
      destruct (existsb _ d) eqn:E.
      - apply existsb_key in E. split; [exact Hd|].
        intros x. split; [tauto|]. intros [H | <-]; assumption.
      - split.
        + apply NoDup_app; [exact Hd | repeat constructor; simpl; tauto |].
          intros x Hx [<- | []].
          apply existsb_key in Hx. congruence.
        + intros x. rewrite in_app_iff. simpl. tauto. }
    destruct Hstep as [Hnd Hin].
    destruct (IH _ Hnd) as [Hnd' Hin'].
    split; [exact Hnd'|].
    intros x. rewrite Hin', Hin. tauto.
Qed.

Lemma daily_means_length (ms : list MetricPoint) :
  length (daily_means ms) = distinct_days ms.
Proof.
  unfold daily_means, distinct_days, daily_avgs.
  rewrite length_map, <- (length_map fst).
  destruct (keys_fold_group ms [] (NoDup_nil _)) as [Hnd Hin].
  apply Permutation_length, NoDup_Permutation.
  - exact Hnd.
  - apply NoDup_nodup.
  - intros x. rewrite Hin, nodup_In. simpl. tauto.
Qed.

Lemma days_members (ms : list MetricPoint) (d : Z) :
  In d (days ms) <-> In d (map (fun p => Py.date (timestamp p)) ms).
Proof. unfold days. rewrite <- in_rev, nodup_In, <- in_rev. reflexivity. Qed.

Lemma days_snoc (ms : list MetricPoint) (p : MetricPoint) :
  days (ms ++ [p])
  = if existsb (fun d => (d =? Py.date (timestamp p))%Z) (days ms)
    then days ms
    else days ms ++ [Py.date (timestamp p)].
Proof.
  assert (Hex : existsb (fun d => (d =? Py.date (timestamp p))%Z) (days ms) = true
                <-> In (Py.date (timestamp p))
                      (rev (map (fun q => Py.date (timestamp q)) ms))).
  { rewrite existsb_exists, <- in_rev, <- days_members. split.
    - intros (d & Hd & E). apply Z.eqb_eq in E. subst d. exact Hd.
    - intros Hd. exists (Py.date (timestamp p)).
      split; [exact Hd | apply Z.eqb_refl]. }
  unfold days at 1. rewrite map_app, rev_app_distr. cbn [map rev app nodup].
  destruct (in_dec Z.eq_dec _ _) as [Hin | Hout].
  - apply Hex in Hin. rewrite Hin. reflexivity.
  - destruct (existsb _ (days ms)) eqn:E.
    + exfalso. apply Hout, Hex. reflexivity.
    + cbn [rev]. reflexivity.
Qed.

Lemma day_values_snoc (d : Z) (ms : list MetricPoint) (p : MetricPoint) :
  day_values d (ms ++ [p])
  = day_values d ms
    ++ (if (Py.date (timestamp p) =? d)%Z then [value p] else []).
Proof.
  unfold day_values. rewrite filter_app, map_app. cbn [filter].
  destruct (Py.date (timestamp p) =? d)%Z; reflexivity.
Qed.

Lemma day_values_absent (d : Z) (ms : list MetricPoint) :
  ~ In d (days ms) -> day_values d ms = [].
Proof.
  rewrite days_members. unfold day_values.
  induction ms as [|q ms IH]; intros Hd; [reflexivity|].
  cbn [map In filter] in *.
  destruct (Py.date (timestamp q) =? d)%Z eqn:E.
  - apply Z.eqb_eq in E. tauto.
  - apply IH. tauto.
Qed.

(** The groups the loop builds are the days of the series in the order in
    which it reaches them, each with the values of its samples in the
    order of the series. *)
Lemma daily_avgs_by_day (ms : list MetricPoint) :
  daily_avgs ms = map (fun d => (d, day_values d ms)) (days ms).
Proof.
  unfold daily_avgs. induction ms as [|p ms IH] using rev_ind; [reflexivity|].
  rewrite fold_left_app. cbn [fold_left]. rewrite IH. clear IH.
  unfold group_step. rewrite days_snoc.
  set (dp := Py.date (timestamp p)).
  assert (Hkey : existsb (fun kv : Z * list R => (fst kv =? dp)%Z)
                   (map (fun d => (d, day_values d ms)) (days ms))
                 = existsb (fun d => (d =? dp)%Z) (days ms)).
  { induction (days ms) as [|d ds IHd]; [reflexivity|].
    cbn [map existsb fst]. rewrite IHd. reflexivity. }
  rewrite Hkey.
  destruct (existsb (fun d => (d =? dp)%Z) (days ms)) eqn:E.
  - unfold dict_append. rewrite map_map. apply map_ext. intros d.
    cbn [fst snd]. rewrite day_values_snoc. fold dp.
    rewrite (Z.eqb_sym dp d).
    destruct (d =? dp)%Z; [reflexivity | rewrite app_nil_r; reflexivity].
  - assert (Hout : ~ In dp (days ms)).
    { intros Hin.
      assert (Ht : existsb (fun d => (d =? dp)%Z) (days ms) = true)
        by (apply existsb_exists; exists dp; split;
            [exact Hin | apply Z.eqb_refl]).
      congruence. }
    unfold dict_append. rewrite !map_app, map_map. cbn [map fst snd].
    rewrite Z.eqb_refl. f_equal.
    + apply map_ext_in. intros d Hd. cbn [fst snd].
      rewrite day_values_snoc. fold dp. rewrite (Z.eqb_sym dp d).
      destruct (d =? dp)%Z eqn:Ed.
      * apply Z.eqb_eq in Ed. subst d. contradiction.
      * rewrite app_nil_r. reflexivity.
    + rewrite day_values_snoc. fold dp. rewrite Z.eqb_refl.
      rewrite (day_values_absent dp ms Hout). reflexivity.
Qed.

(** The daily means of the code are the means of the samples of each day,
    day by day. *)
Lemma daily_means_by_day (ms : list MetricPoint) :
  daily_means ms = map (fun d => daily_mean d ms) (days ms).
Proof.
  unfold daily_means. rewrite daily_avgs_by_day, map_map. reflexivity.
Qed.

Lemma daily_slope_of_means (ms : list MetricPoint) :
  ols_slope (day_indexed (daily_means ms)) = daily_slope ms.
Proof. unfold daily_slope. rewrite daily_means_by_day. reflexivity. Qed.

End DailyGroups.

Section Regression.

Import Patterns.

Lemma sum_range_S (n : nat) (f : nat -> R) :
  sum_range (S n) f = sum_range n f + f n.
Proof.
  unfold sum_range. rewrite seq_S, map_app, sum_app. simpl.
  rewrite sum_cons, sum_nil. lra.
Qed.

Lemma sum_range_INR (n : nat) : sum_range n INR = INR n * (INR n - 1) / 2.
Proof.
  induction n as [|n IH].
  - unfold sum_range. simpl. rewrite sum_nil. lra.
  - rewrite sum_range_S, IH, S_INR. lra.
Qed.

Lemma map_nth_seq (ys : list R) :
  map (fun i => nth i ys 0) (seq 0 (length ys)) = ys.
Proof.
  induction ys as [|y ys IH]; simpl; [reflexivity|].
  rewrite <- seq_shift, map_map. simpl. rewrite IH. reflexivity.
Qed.

Lemma sum_range_nth (ys : list R) :
  sum_range (length ys) (fun i => nth i ys 0) = Py.sum ys.
Proof. unfold sum_range. rewrite map_nth_seq. reflexivity. Qed.

(** A sum of products of deviations, expanded. *)
Lemma sum_range_deviations (n : nat) (f g : nat -> R) (c d : R) :
  sum_range n (fun i => (f i - c) * (g i - d))
  = sum_range n (fun i => f i * g i) - c * sum_range n g - d * sum_range n f
    + INR n * c * d.
Proof.
  induction n as [|n IH].
  - unfold sum_range. simpl. rewrite sum_nil. lra.
  - rewrite !sum_range_S, IH, S_INR. lra.
Qed.

Lemma sum_ge_member (xs : list R) (x : R) :
  Forall (fun y => 0 <= y) xs -> In x xs -> x <= Py.sum xs.
Proof.
  induction 1 as [|y xs Hy Hall IH]; intros Hin; [contradiction|].
  rewrite sum_cons. pose proof (sum_nonneg xs Hall).
  destruct Hin as [-> | Hin]; [lra|]. specialize (IH Hin). lra.
Qed.

(** The denominator of the regression over day indices is positive from
    two days on. *)
Lemma index_spread_pos (n : nat) :
  (2 <= n)%nat ->
  0 < sum_range n (fun i => (INR i - (INR n - 1) / 2) * (INR i - (INR n - 1) / 2)).
Proof.
  intros Hn.
  assert (H2 : 2 <= INR n) by (apply (le_INR 2), Hn).
  apply Rlt_le_trans
    with ((INR 0 - (INR n - 1) / 2) * (INR 0 - (INR n - 1) / 2)).
  - simpl INR. set (u := (INR n - 1) / 2).
    assert (1 / 2 <= u) by (unfold u; lra). nra.
  - unfold sum_range. apply sum_ge_member.
    + apply Forall_forall. intros x Hx. apply in_map_iff in Hx.
      destruct Hx as (i & <- & _). apply Rle_0_sqr.
    + apply in_map_iff. exists 0%nat. split; [reflexivity|].
      apply in_seq. lia.
Qed.

(** The slope [_detect_memory_leak] computes, with [x_mean = (n - 1) / 2],
    is the least-squares slope of the points (day index, daily mean). *)
Lemma leak_slope_is_ols (ys : list R) :
  (2 <= length ys)%nat ->
  let n := length ys in
  let x_mean := (INR n - 1) / 2 in
  let y_mean := Py.mean ys in
  sum_range n (fun i => (INR i - x_mean) * (nth i ys 0 - y_mean))
  / sum_range n (fun i => (INR i - x_mean) * (INR i - x_mean))
  = ols_slope (day_indexed ys).
Proof.
  intros Hlen n x_mean y_mean.
  pose proof (index_spread_pos n Hlen) as Hpos. fold x_mean in Hpos.
  assert (Hn : 2 <= INR n) by (apply (le_INR 2), Hlen).
  unfold ols_slope, day_indexed.
  rewrite length_map, length_seq, !map_map. simpl fst. simpl snd.
  fold n.
  change (Py.sum (map (fun x => INR x) (seq 0 n))) with (sum_range n INR).
  change (Py.sum (map (fun x => nth x ys 0) (seq 0 n)))
    with (sum_range n (fun i => nth i ys 0)).
  change (Py.sum (map (fun x => INR x * nth x ys 0) (seq 0 n)))
    with (sum_range n (fun i => INR i * nth i ys 0)).
  change (Py.sum (map (fun x => INR x * INR x) (seq 0 n)))
    with (sum_range n (fun i => INR i * INR i)).
  rewrite sum_range_deviations in Hpos |- *.
  rewrite (sum_range_deviations n INR INR).
  assert (Hsy : sum_range n (fun i => nth i ys 0) = INR n * y_mean).
  { unfold n. rewrite sum_range_nth.
    unfold y_mean, Py.mean, Py.len. fold n. field. lra. }
  rewrite !Hsy. rewrite !sum_range_INR in Hpos |- *.
  set (Sxy := sum_range n (fun i => INR i * nth i ys 0)) in *.
  set (Sxx := sum_range n (fun i => INR i * INR i)) in *.
  unfold x_mean in *.
  clearbody Sxy Sxx y_mean. clear Hsy x_mean.
  set (m := INR n) in *. clearbody m.
  field. split; nra.
Qed.

End Regression.

(** ** The memory-leak flag *)

(** C4, as the code has it: for a memory series of at least 48 samples of
    percentages (values in [0, 100]) that spans at least 3 distinct calendar
    days, and whose least-squares slope of the daily means, each the mean
    of the samples of its day, against the index of the day is not within
    0.000001 of the threshold, the leak is flagged exactly when that slope
    exceeds 1.0 percent per day.  (Below 48 samples no leak is ever
    flagged; the bounds on the values and the distance from the threshold
    keep the rounding of the slope in the source's floats from deciding
    the comparison.) *)
Theorem memory_leak_iff_slope (config : option Patterns.Config)
    (metrics : list Patterns.MetricPoint) :
  (48 <= length metrics)%nat ->
  (3 <= distinct_days metrics)%nat ->
  percentages (Patterns.values metrics) ->
  0.000001 <= Rabs (daily_slope metrics - 1.0) ->
  Patterns.has_memory_leak
    (Patterns._analyze_memory_pattern (Patterns.__init__ config) metrics) = true
  <-> 1.0 < daily_slope metrics.
Proof.
  intros Hlen Hdays _ _.
  assert (Hthr : Patterns.MEMORY_LEAK_THRESHOLD (Patterns.__init__ config) = 1.0)
    by (destruct config; reflexivity).
  unfold Patterns._analyze_memory_pattern.
  destruct metrics as [|m ms]; [simpl in Hlen; lia|].
  set (metrics := m :: ms) in *.
  cbv zeta. cbn [Patterns.has_memory_leak]. rewrite Hthr.
  unfold Patterns._detect_memory_leak.
  replace (length metrics <? 48)%nat with false
    by (symmetry; apply Nat.ltb_ge; exact Hlen).
  rewrite <- daily_means_length in Hdays.
  replace (length (Patterns.daily_means metrics) <? 3)%nat with false
    by (symmetry; apply Nat.ltb_ge; exact Hdays).
  cbv zeta.
  assert (H2 : (2 <= length (Patterns.daily_means metrics))%nat) by lia.
  rewrite (leak_slope_is_ols _ H2).
  rewrite daily_slope_of_means.
  pose proof (index_spread_pos _ H2) as Hpos.
  replace (Py.eqb _ 0) with false by (symmetry; apply eqb_false_iff; lra).
  destruct (Py.gtb (daily_slope metrics) 0.5) eqn:E.
  - rewrite gtb_iff. tauto.
  - apply gtb_false_iff in E. split; [discriminate | lra].
Qed.

(** Below 48 samples no leak is flagged, whatever the slope. *)
Lemma few_samples_no_leak (self : Patterns.PatternDetector)
    (metrics : list Patterns.MetricPoint) :
  (length metrics < 48)%nat ->
  Patterns.has_memory_leak (Patterns._analyze_memory_pattern self metrics)
  = false.
Proof.
  intros Hlen. unfold Patterns._analyze_memory_pattern.
  destruct metrics as [|m ms]; [reflexivity|].
  cbv zeta. cbn [Patterns.has_memory_leak].
  unfold Patterns._detect_memory_leak.
  replace (length (m :: ms) <? 48)%nat with true
    by (symmetry; apply Nat.ltb_lt; exact Hlen).
  reflexivity.
Qed.

(** The slope of three daily means that rise by 10 a day. *)
Lemma slope_of_three (a : R) :
  ols_slope (day_indexed [a; a + 10; a + 20]) = 10.
Proof.
  unfold ols_slope, day_indexed. cbn [length seq map fst snd nth].
  rewrite !sum_cons, !sum_nil. cbn [length INR]. field.
Qed.

Lemma mean_of_day (c : R) : Py.mean (repeat c 24) = c.
Proof.
  unfold Py.mean, Py.len. rewrite sum_repeat, repeat_length.
  field. apply not_0_INR. discriminate.
Qed.

(** The days of the rising series and its slope: the daily means are 10, 20
    and 30. *)
Lemma rising_days_slope : daily_slope rising_days = 10.
Proof.
  unfold daily_slope.
  replace (days rising_days) with [0%Z; 1%Z; 2%Z] by (vm_compute; reflexivity).
  cbn [map]. unfold daily_mean.
  replace (day_values 0 rising_days) with (repeat 10 24) by reflexivity.
  replace (day_values 1 rising_days) with (repeat 20 24) by reflexivity.
  replace (day_values 2 rising_days) with (repeat 30 24) by reflexivity.
  rewrite !mean_of_day.
  replace 20 with (10 + 10) by lra. replace 30 with (10 + 20) by lra.
  apply slope_of_three.
Qed.

Lemma rising_days_percentages : percentages (Patterns.values rising_days).
Proof.
  unfold percentages, Patterns.values, rising_days. rewrite map_map.
  apply Forall_forall. intros v Hv. apply in_map_iff in Hv.
  destruct Hv as (i & <- & _). cbn [Patterns.value].
  destruct (i <? 24)%nat; [lra|]. destruct (i <? 48)%nat; lra.
Qed.

(** The theorem at the rising series: its slope is 10 and the leak is
    flagged. *)
Lemma memory_leak_iff_slope_witness :
  (48 <= length rising_days)%nat
  /\ (3 <= distinct_days rising_days)%nat
  /\ percentages (Patterns.values rising_days)
  /\ 0.000001 <= Rabs (daily_slope rising_days - 1.0)
  /\ (Patterns.has_memory_leak
        (Patterns._analyze_memory_pattern (Patterns.__init__ None)
           rising_days) = true
      <-> 1.0 < daily_slope rising_days)
  /\ 1.0 < daily_slope rising_days
  /\ Patterns.has_memory_leak
       (Patterns._analyze_memory_pattern (Patterns.__init__ None) rising_days)
     = true.
Proof.
  assert (H1 : (48 <= length rising_days)%nat).
  { unfold rising_days. rewrite length_map, length_seq. lia. }
  assert (H2 : (3 <= distinct_days rising_days)%nat).
  { vm_compute. lia. }
  assert (H3 : percentages (Patterns.values rising_days))
    by apply rising_days_percentages.
  assert (H4 : 0.000001 <= Rabs (daily_slope rising_days - 1.0)).
  { rewrite rising_days_slope. rewrite Rabs_pos_eq; lra. }
  assert (H5 : 1.0 < daily_slope rising_days)
    by (rewrite rising_days_slope; lra).
  split; [exact H1|]. split; [exact H2|]. split; [exact H3|].
  split; [exact H4|].
  split; [exact (memory_leak_iff_slope None rising_days H1 H2 H3 H4)|].
  split; [exact H5|].
  exact (proj2 (memory_leak_iff_slope None rising_days H1 H2 H3 H4) H5).
Defined.

(** C4, as stated, fails below 48 samples: three samples on three days that
    rise by 10 percent a day have slope 10, and no leak is flagged. *)
Lemma three_days_leak_not_flagged :
  (3 <= distinct_days three_days)%nat
  /\ 1.0 < daily_slope three_days
  /\ Patterns.has_memory_leak
       (Patterns._analyze_memory_pattern (Patterns.__init__ None) three_days)
     = false.
Proof.
  split; [vm_compute; lia|]. split; [|reflexivity].
  assert (Hm : map (fun d => daily_mean d three_days) (days three_days)
               = [Py.mean [0]; Py.mean [10]; Py.mean [20]]) by reflexivity.
  unfold daily_slope. rewrite Hm.
  unfold ols_slope, day_indexed. cbn [length seq map fst snd nth].
  rewrite !sum_cons, !sum_nil.
  unfold Py.mean, Py.len. rewrite !sum_cons, !sum_nil.
  cbn [length INR]. lra.
Qed.

(** ** Correlation of two windows *)

Section Correlation.

Import Workload.

Lemma mean_singleton (c : R) : Py.mean [c] = c.
Proof. unfold Py.mean, Py.len. rewrite sum_cons, sum_nil. simpl. field. Qed.

Lemma map_nth_seq_f (f : R -> R) (xs : list R) :
  map (fun i => f (nth i xs 0)) (seq 0 (length xs)) = map f xs.
Proof.
  rewrite <- (map_map (fun i => nth i xs 0) f), map_nth_seq. reflexivity.
Qed.

Lemma sum_zero_members (xs : list R) :
  Forall (fun x => 0 <= x) xs -> Py.sum xs = 0 -> Forall (fun x => x = 0) xs.
Proof.
  intros Hall Hsum. apply Forall_forall. intros x Hx.
  pose proof (sum_ge_member xs x Hall Hx).
  rewrite Forall_forall in Hall. specialize (Hall x Hx). lra.
Qed.

Lemma spread_nonneg (xs : list R) : 0 <= spread xs.
Proof.
  unfold spread. apply sum_nonneg, Forall_forall.
  intros x Hx. apply in_map_iff in Hx. destruct Hx as (y & <- & _).
  apply pow2_ge_0.
Qed.

Lemma spread_varies (xs : list R) : varies xs -> 0 < spread xs.
Proof.
  intros (x & y & Hx & Hy & Hneq).
  destruct (Rle_lt_or_eq_dec _ _ (spread_nonneg xs)) as [Hlt | Heq];
    [exact Hlt | exfalso].
  symmetry in Heq. unfold spread in Heq.
  apply sum_zero_members in Heq.
  - rewrite Forall_forall in Heq.
    assert (Hall : forall z, In z xs -> z = Py.sum xs / Py.len xs).
    { intros z Hz.
      specialize (Heq _ (in_map (fun xi => (xi - Py.sum xs / Py.len xs) ^ 2) _ _ Hz)).
      simpl in Heq. nra. }
    apply Hneq. rewrite (Hall x Hx), (Hall y Hy). reflexivity.
  - apply Forall_forall. intros z Hz. apply in_map_iff in Hz.
    destruct Hz as (u & <- & _). apply pow2_ge_0.
Qed.

Lemma spread_repeat (c : R) (n : nat) : spread (repeat c n) = 0.
Proof.
  unfold spread. destruct n as [|n]; [simpl; apply sum_nil|].
  assert (Hmean : Py.sum (repeat c (S n)) / Py.len (repeat c (S n)) = c).
  { unfold Py.len. rewrite sum_repeat, repeat_length.
    field. apply not_0_INR. discriminate. }
  rewrite Hmean. rewrite map_repeat, sum_repeat. simpl. lra.
Qed.

(** A window that varies correlates perfectly with itself. *)
Lemma correlation_self (xs : list R) :
  varies xs -> _simple_correlation xs xs = 1.
Proof.
  intros Hv. pose proof (spread_varies xs Hv) as Hpos.
  assert (E : (length xs =? 0)%nat = false).
  { apply Nat.eqb_neq. destruct Hv as (x & _ & Hx & _).
    destruct xs; [contradiction | discriminate]. }
  unfold _simple_correlation. cbv zeta. fold (spread xs).
  rewrite Nat.eqb_refl, E. cbn [negb orb].
  pose proof (sqrt_lt_R0 _ Hpos) as Hs.
  replace (Py.eqb (sqrt (spread xs)) 0) with false
    by (symmetry; apply eqb_false_iff; lra).
  cbn [orb].
  rewrite (map_nth_seq_f
             (fun x => (x - Py.sum xs / Py.len xs) * (x - Py.sum xs / Py.len xs))).
  assert (Hnum :
    Py.sum (map (fun x => (x - Py.sum xs / Py.len xs)
                          * (x - Py.sum xs / Py.len xs)) xs) = spread xs).
  { unfold spread. f_equal. apply map_ext. intros a. simpl. ring. }
  rewrite Hnum.
  rewrite sqrt_sqrt by lra. field. lra.
Qed.

(** A flat window correlates with nothing: a zero [denom] gives 0.0. *)
Lemma correlation_flat_left (c : R) (n : nat) (ys : list R) :
  _simple_correlation (repeat c n) ys = 0.0.
Proof.
  unfold _simple_correlation.
  destruct (negb _ || _); [reflexivity|].
  cbv zeta. fold (spread (repeat c n)). rewrite spread_repeat, sqrt_0.
  replace (Py.eqb 0 0) with true by (symmetry; apply eqb_iff; reflexivity).
  reflexivity.
Qed.

Lemma correlation_flat_right (c : R) (n : nat) (xs : list R) :
  _simple_correlation xs (repeat c n) = 0.0.
Proof.
  unfold _simple_correlation.
  destruct (negb _ || _) eqn:E; [reflexivity|].
  apply orb_false_iff in E. destruct E as [E _].
  apply negb_false_iff, Nat.eqb_eq in E.
  cbv zeta.
  assert (Hlen : Py.len xs = Py.len (repeat c n))
    by (unfold Py.len; rewrite E; reflexivity).
  rewrite Hlen. fold (spread (repeat c n)). rewrite spread_repeat, sqrt_0.
  replace (Py.eqb 0 0) with true by (symmetry; apply eqb_iff; reflexivity).
  rewrite orb_true_r. reflexivity.
Qed.

End Correlation.

(** ** Periodicity detection *)

Section Periodicity.

Import Workload.

(** With [min_periods = 2] the loop over the windows runs once: a lag that
    fits twice in the series confirms when its first and second windows
    correlate above 0.7. *)
Lemma period_confirms_second (values : list R) (lag : nat) :
  period_confirms values default_min_periods lag
  = lag_confirms_second_window values lag.
Proof.
  unfold period_confirms, lag_confirms_second_window, default_min_periods.
  destruct (2 * lag <=? length values)%nat eqn:E.
  - apply Nat.leb_le in E.
    replace (length values <? lag * 2)%nat with false
      by (symmetry; apply Nat.ltb_ge; lia).
    cbn [Nat.sub seq correlations].
    replace (1 * lag)%nat with lag by lia.
    replace (2 * lag)%nat with (lag + lag)%nat in * by lia.
    replace (length values <? lag + lag)%nat with false
      by (symmetry; apply Nat.ltb_ge; lia).
    replace (length (firstn lag values) =? length (slice lag (lag + lag) values))%nat
      with true.
    + rewrite mean_singleton. reflexivity.
    + symmetry. apply Nat.eqb_eq. unfold slice.
      rewrite !length_firstn, length_skipn. lia.
  - apply Nat.leb_gt in E.
    replace (length values <? lag * 2)%nat with true
      by (symmetry; apply Nat.ltb_lt; lia).
    reflexivity.
Qed.

Lemma firstn_block (b r : list R) : firstn (length b) (b ++ r) = b.
Proof. induction b as [|x b IH]; simpl; [destruct r | rewrite IH]; reflexivity. Qed.

Lemma skipn_block (b r : list R) : skipn (length b) (b ++ r) = r.
Proof. induction b as [|x b IH]; simpl; [reflexivity | exact IH]. Qed.

(** Two copies of a varying block at the head of a series confirm the lag
    of the block length. *)
Lemma lag_confirms_repeated_block (b rest : list R) :
  varies b ->
  lag_confirms_second_window (b ++ b ++ rest) (length b) = true.
Proof.
  intros Hv. unfold lag_confirms_second_window, slice.
  rewrite firstn_block, skipn_block.
  replace (2 * length b - length b)%nat with (length b) by lia.
  rewrite firstn_block, (correlation_self b Hv).
  apply andb_true_iff. split.
  - apply Nat.leb_le. rewrite !length_app. lia.
  - cmp_true.
Qed.

Lemma firstn_flat (c : R) (k n : nat) :
  firstn k (repeat c n) = repeat c (Nat.min k n).
Proof.
  revert n. induction k as [|k IH]; intros [|n]; simpl; try reflexivity.
  rewrite IH. reflexivity.
Qed.

(** A flat series confirms no lag. *)
Lemma lag_rejects_flat (c : R) (n lag : nat) :
  lag_confirms_second_window (repeat c n) lag = false.
Proof.
  unfold lag_confirms_second_window.
  rewrite firstn_flat, correlation_flat_left.
  replace (Py.gtb 0.0 0.7) with false by (symmetry; cmp_false).
  apply andb_false_r.
Qed.

End Periodicity.

(** What the code computes: for every CPU series, the detection (with its
    default [min_periods = 2]) answers true exactly when, for a lag of 24 or
    168 that fits twice in the series, the correlation the code computes
    between the first lag-length window and the second one, and no later
    window, exceeds 0.7. *)
Lemma detection_compares_second_window (values : list R) :
  Workload._detect_periodic_pattern values Workload.default_min_periods
  = periodic_second_window values.
Proof.
  unfold Workload._detect_periodic_pattern, periodic_second_window.
  cbn [existsb]. rewrite !period_confirms_second.
  destruct (length values <? 48)%nat eqn:E; [|reflexivity].
  apply Nat.ltb_lt in E. unfold lag_confirms_second_window.
  replace (2 * 24 <=? length values)%nat with false
    by (symmetry; apply Nat.leb_gt; lia).
  replace (2 * 168 <=? length values)%nat with false
    by (symmetry; apply Nat.leb_gt; lia).
  reflexivity.
Qed.

Section Pearson.

Lemma combine_with_image (f : R -> R) (x : list R) :
  combine x (map f x) = map (fun a => (a, f a)) x.
Proof. induction x as [|a x IH]; [reflexivity|]. cbn. rewrite IH. reflexivity. Qed.

Lemma sum_map_opp (g : R -> R) (x : list R) :
  Py.sum (map (fun a => - g a) x) = - Py.sum (map g x).
Proof.
  induction x as [|a x IH]; cbn [map].
  - rewrite sum_nil. lra.
  - rewrite !sum_cons, IH. lra.
Qed.

Lemma sum_mirrored (c : R) (x : list R) :
  Py.sum (map (fun a => c - a) x) = INR (length x) * c - Py.sum x.
Proof.
  induction x as [|a x IH]; cbn [map].
  - rewrite sum_nil. cbn. lra.
  - rewrite !sum_cons, IH.
    change (length (a :: x)) with (S (length x)). rewrite S_INR. lra.
Qed.

Lemma squared_deviations_pos (x : list R) :
  varies x ->
  0 < Py.sum (map (fun a => (a - Py.sum x / INR (length x))
                            * (a - Py.sum x / INR (length x))) x).
Proof.
  intros Hv. pose proof (spread_varies x Hv) as Hpos.
  unfold spread, Py.len in Hpos.
  replace (map (fun a => (a - Py.sum x / INR (length x))
                         * (a - Py.sum x / INR (length x))) x)
    with (map (fun xi => (xi - Py.sum x / INR (length x)) ^ 2) x);
    [exact Hpos|].
  apply map_ext. intros a. ring.
Qed.

(** A window that varies has coefficient 1 with itself. *)
Lemma pearson_self (x : list R) : varies x -> pearson x x = 1.
Proof.
  intros Hv. pose proof (squared_deviations_pos x Hv) as Hpos.
  unfold pearson. cbv zeta.
  replace (combine x x) with (map (fun a => (a, a)) x)
    by (clear; induction x as [|a x IH]; [reflexivity | cbn; rewrite <- IH;
        reflexivity]).
  rewrite map_map. cbn [fst snd].
  set (V := Py.sum (map _ x)) in *.
  rewrite sqrt_square by lra. field. lra.
Qed.

(** A window that varies has coefficient -1 with its mirror image. *)
Lemma pearson_mirror (c : R) (x : list R) :
  varies x -> pearson x (map (fun a => c - a) x) = -1.
Proof.
  intros Hv. pose proof (squared_deviations_pos x Hv) as Hpos.
  assert (Hn : 0 < INR (length x)).
  { destruct Hv as (a & _ & Ha & _).
    destruct x; [contradiction|].
    change (length (r :: x)) with (S (length x)). rewrite S_INR.
    pose proof (pos_INR (length x)). lra. }
  set (m := Py.sum x / INR (length x)) in *.
  assert (Hmy : Py.sum (map (fun a => c - a) x)
                / INR (length (map (fun a => c - a) x)) = c - m).
  { rewrite length_map, sum_mirrored. unfold m. field. lra. }
  unfold pearson. cbv zeta. rewrite Hmy. fold m.
  rewrite combine_with_image, !map_map. cbn [fst snd].
  replace (map (fun a => (a - m) * (c - a - (c - m))) x)
    with (map (fun a => - ((a - m) * (a - m))) x)
    by (apply map_ext; intros a; ring).
  replace (map (fun a => (c - a - (c - m)) * (c - a - (c - m))) x)
    with (map (fun a => (a - m) * (a - m)) x)
    by (apply map_ext; intros a; ring).
  rewrite (sum_map_opp (fun a => (a - m) * (a - m))).
  set (V := Py.sum (map _ x)) in *.
  rewrite sqrt_square by lra. field. lra.
Qed.

End Pearson.

(** C2 fails on the code: on two days with a spike in their first hour
    followed by the mirrored day, the coefficients of the first window with
    the two later windows are 1 and -1, their mean 0 is not above 0.7 and no
    lag confirms as the specification has it; the code compares the second
    window only and answers true. *)
Theorem periodicity_ignores_later_windows :
  map (pearson (window two_spike_days_one_mirrored 24 0))
    (later_windows two_spike_days_one_mirrored 24) = [1; -1]
  /\ periodic_every_window two_spike_days_one_mirrored = false
  /\ Workload._detect_periodic_pattern two_spike_days_one_mirrored
       Workload.default_min_periods = true.
Proof.
  assert (Hv : varies spike_day).
  { exists 80, 10. simpl. split; [tauto|]. split; [tauto | lra]. }
  assert (Hcoefficients :
    map (pearson (window two_spike_days_one_mirrored 24 0))
      (later_windows two_spike_days_one_mirrored 24) = [1; -1]).
  { replace (later_windows two_spike_days_one_mirrored 24)
      with [spike_day; mirrored_day] by reflexivity.
    replace (window two_spike_days_one_mirrored 24 0) with spike_day
      by reflexivity.
    cbn [map]. rewrite (pearson_self spike_day Hv).
    unfold mirrored_day. rewrite (pearson_mirror 90 spike_day Hv).
    reflexivity. }
  split; [exact Hcoefficients|]. split.
  - unfold periodic_every_window. cbn [existsb].
    unfold lag_confirms_every_window. rewrite Hcoefficients.
    replace (2 * 168 <=? length two_spike_days_one_mirrored)%nat with false
      by reflexivity.
    replace (Py.mean [1; -1]) with 0
      by (unfold Py.mean, Py.len; rewrite !sum_cons, sum_nil; simpl; lra).
    replace (Py.gtb 0 0.7) with false by (symmetry; cmp_false).
    rewrite !andb_false_r. reflexivity.
  - unfold Workload._detect_periodic_pattern.
    replace (length two_spike_days_one_mirrored <? 48)%nat with false
      by reflexivity.
    cbn [existsb]. rewrite period_confirms_second.
    rewrite (lag_confirms_repeated_block spike_day mirrored_day Hv
             : lag_confirms_second_window two_spike_days_one_mirrored 24 = true).
    reflexivity.
Qed.

(** ** Repeated blocks *)

(** C3, as the code has it: for every 24-point block of percentages (values
    in [0, 100]) two of whose values lie at least 0.000001 apart, and every
    repetition count of at least 3, detection on the repeated block answers
    true.  A block without variance is turned down by the guard of
    [_simple_correlation]; the bounds on the values and on their distance
    keep the sums of squares of the source well inside the range of its
    floats, where rounding leaves the correlation of the block with itself
    within a few units in the last place of 1. *)
Theorem repeated_block_is_periodic (block : list R) (k : nat) :
  length block = 24%nat ->
  percentages block ->
  apart 0.000001 block ->
  (3 <= k)%nat ->
  Workload._detect_periodic_pattern (concat (repeat block k))
    Workload.default_min_periods = true.
Proof.
  intros Hlen _ (x & y & Hx & Hy & Hgap) Hk.
  assert (Hv : varies block) by (exists x, y; repeat split; try assumption; lra).
  destruct k as [|[|k]]; [lia | lia |].
  cbn [repeat concat].
  set (rest := concat (repeat block k)).
  unfold Workload._detect_periodic_pattern.
  replace (length (block ++ block ++ rest) <? 48)%nat with false
    by (symmetry; apply Nat.ltb_ge; rewrite !length_app; lia).
  cbn [existsb]. rewrite period_confirms_second.
  rewrite <- Hlen at 1.
  rewrite (lag_confirms_repeated_block block rest Hv). reflexivity.
Qed.

(** The theorem at three days with a spike in their first hour. *)
Lemma repeated_block_is_periodic_witness :
  length spike_day = 24%nat
  /\ percentages spike_day
  /\ apart 0.000001 spike_day
  /\ (3 <= 3)%nat
  /\ Workload._detect_periodic_pattern (concat (repeat spike_day 3))
       Workload.default_min_periods = true.
Proof.
  assert (H1 : length spike_day = 24%nat) by reflexivity.
  assert (H2 : percentages spike_day).
  { unfold percentages, spike_day. cbn [repeat].
    repeat (apply Forall_cons; [lra|]). apply Forall_nil. }
  assert (H3 : apart 0.000001 spike_day).
  { exists 80, 10. simpl. split; [tauto|]. split; [tauto | lra]. }
  assert (H4 : (3 <= 3)%nat) by lia.
  split; [exact H1|]. split; [exact H2|]. split; [exact H3|].
  split; [exact H4|].
  exact (repeated_block_is_periodic spike_day 3 H1 H2 H3 H4).
Defined.

(** C3, as stated, fails on a flat block: three copies of 24 samples at 50
    percent have no variance, every correlation is 0.0 and detection answers
    false. *)
Lemma flat_block_is_not_periodic :
  length (repeat 50 24) = 24%nat
  /\ (3 <= 3)%nat
  /\ Workload._detect_periodic_pattern (concat (repeat (repeat 50 24) 3))
       Workload.default_min_periods = false.
Proof.
  split; [reflexivity|]. split; [lia|].
  replace (concat (repeat (repeat 50 24) 3)) with (repeat 50 72) by reflexivity.
  unfold Workload._detect_periodic_pattern.
  cbn [existsb]. rewrite !period_confirms_second, !lag_rejects_flat.
  destruct (length (repeat 50 72) <? 48)%nat; reflexivity.
Qed.

(** ** Series of two levels *)

Section TwoLevel.

Variables lo hi : R.
Hypothesis lo_lt_hi : lo < hi.

Lemma insert_low (a b : nat) :
  Py.insert lo (repeat lo a ++ repeat hi b) = repeat lo (S a) ++ repeat hi b.
Proof.
  destruct a as [|a]; [destruct b as [|b]|]; simpl; try reflexivity.
  - replace (Py.leb lo hi) with true by (symmetry; apply leb_iff; lra).
    reflexivity.
  - replace (Py.leb lo lo) with true by (symmetry; apply leb_iff; lra).
    reflexivity.
Qed.

Lemma insert_high (a b : nat) :
  Py.insert hi (repeat lo a ++ repeat hi b) = repeat lo a ++ repeat hi (S b).
Proof.
  induction a as [|a IH]; simpl.
  - destruct b as [|b]; simpl; [reflexivity|].
    replace (Py.leb hi hi) with true by (symmetry; apply leb_iff; lra).
    reflexivity.
  - replace (Py.leb hi lo) with false by (symmetry; apply leb_false_iff; lra).
    rewrite IH. reflexivity.
Qed.

(** Sorting a two-level series puts the low samples first. *)
Lemma sorted_two_level (shape : list bool) :
  Py.sorted (two_level lo hi shape)
  = repeat lo (lows shape) ++ repeat hi (highs shape).
Proof.
  unfold Py.sorted, lows, highs.
  induction shape as [|[|] shape IH]; simpl; [reflexivity| |];
    rewrite IH; [apply insert_high | apply insert_low].
Qed.

Lemma shape_length (shape : list bool) :
  length shape = (lows shape + highs shape)%nat.
Proof.
  unfold lows, highs.
  induction shape as [|[|] shape IH]; simpl; lia.
Qed.

(** A percentile whose two order statistics fall among the low samples is
    the low level; one whose two fall among the high samples is the high
    level. *)
Lemma percentile_two_level_low (shape : list bool) (p : nat) :
  ((length shape - 1) * p / 100 + 1 < lows shape)%nat ->
  Py._percentile (two_level lo hi shape) p = lo.
Proof.
  intros Hlow. unfold Py._percentile.
  destruct (two_level lo hi shape) eqn:E.
  { destruct shape; [simpl in Hlow; unfold lows in Hlow; simpl in Hlow; lia
                    | discriminate]. }
  rewrite <- E. clear E. rewrite sorted_two_level.
  cbv zeta. rewrite length_app, !repeat_length, <- shape_length.
  pose proof (shape_length shape) as Hn.
  set (lower := ((length shape - 1) * p / 100)%nat) in *.
  replace (length shape <=? lower + 1)%nat with false
    by (symmetry; apply Nat.leb_gt; lia).
  rewrite !app_nth1 by (rewrite repeat_length; lia).
  rewrite !nth_repeat_lt by lia. ring.
Qed.

Lemma percentile_two_level_high (shape : list bool) (p : nat) :
  (lows shape <= (length shape - 1) * p / 100)%nat ->
  ((length shape - 1) * p / 100 + 1 < length shape)%nat ->
  Py._percentile (two_level lo hi shape) p = hi.
Proof.
  intros Hlow Hup. unfold Py._percentile.
  destruct (two_level lo hi shape) eqn:E.
  { destruct shape; [simpl in Hup; lia | discriminate]. }
  rewrite <- E. clear E. rewrite sorted_two_level.
  cbv zeta. rewrite length_app, !repeat_length, <- shape_length.
  pose proof (shape_length shape) as Hn.
  set (lower := ((length shape - 1) * p / 100)%nat) in *.
  replace (length shape <=? lower + 1)%nat with false
    by (symmetry; apply Nat.leb_gt; lia).
  rewrite !app_nth2 by (rewrite repeat_length; lia).
  rewrite !repeat_length.
  rewrite !nth_repeat_lt by lia. ring.
Qed.

Lemma sum_two_level (shape : list bool) :
  Py.sum (two_level lo hi shape)
  = INR (lows shape) * lo + INR (highs shape) * hi.
Proof.
  unfold lows, highs.
  induction shape as [|[|] shape IH]; cbn [two_level map filter negb length].
  - rewrite sum_nil. simpl. lra.
  - rewrite sum_cons. fold (two_level lo hi shape). rewrite IH, S_INR. lra.
  - rewrite sum_cons. fold (two_level lo hi shape). rewrite IH, S_INR. lra.
Qed.

End TwoLevel.

(** ** The burst scenario *)

Section BurstScan.

Import Patterns.

Variable thr : R.

Lemma burst_step_enter periods start peak t v :
  thr < v ->
  burst_step thr (periods, false, start, peak) (mkMetricPoint t v)
  = (periods, true, Some t, v).
Proof.
  intros H. unfold burst_step. cbn [value timestamp].
  replace (Py.gtb v thr) with true by (symmetry; apply gtb_iff; exact H).
  reflexivity.
Qed.

Lemma burst_step_stay periods start peak t v :
  thr < v ->
  burst_step thr (periods, true, start, peak) (mkMetricPoint t v)
  = (periods, true, start, Rmax peak v).
Proof.
  intros H. unfold burst_step. cbn [value timestamp].
  replace (Py.gtb v thr) with true by (symmetry; apply gtb_iff; exact H).
  reflexivity.
Qed.

Lemma burst_step_leave periods start peak t v :
  v <= thr ->
  burst_step thr (periods, true, start, peak) (mkMetricPoint t v)
  = (periods ++ [(started start, t, peak)], false, start, 0).
Proof.
  intros H. unfold burst_step. cbn [value timestamp].
  replace (Py.gtb v thr) with false by (symmetry; apply gtb_false_iff; exact H).
  reflexivity.
Qed.

Lemma burst_step_quiet periods start peak t v :
  v <= thr ->
  burst_step thr (periods, false, start, peak) (mkMetricPoint t v)
  = (periods, false, start, peak).
Proof.
  intros H. unfold burst_step. cbn [value timestamp].
  replace (Py.gtb v thr) with false by (symmetry; apply gtb_false_iff; exact H).
  reflexivity.
Qed.

End BurstScan.

Section BurstScenario.

Import Patterns.

(** One run of the scenario, scanned from outside a burst, closes one
    burst of three hours with peak 85. *)
Lemma scan_burst_block (t : Z) periods start :
  fold_left (burst_step 20) (burst_block t) (periods, false, start, 0)
  = (periods ++ [scenario_burst t 0], false, Some (t + 0)%Z, 0).
Proof.
  unfold burst_block. cbn [seq map Nat.ltb Nat.leb fold_left].
  rewrite burst_step_enter by lra.
  do 2 rewrite burst_step_stay by lra.
  rewrite burst_step_leave by lra.
  do 16 rewrite burst_step_quiet by lra.
  rewrite !(Rmax_left 85 85) by lra.
  unfold scenario_burst, started. repeat f_equal; cbn [Z.of_nat]; lia.
Qed.

Lemma scan_burst_blocks (k : nat) :
  forall (t : Z) periods start,
  exists start',
    fold_left (burst_step 20) (burst_blocks k t) (periods, false, start, 0)
    = (periods ++ map (scenario_burst t) (seq 0 k), false, start', 0).
Proof.
  induction k as [|k IH]; intros t periods start; cbn [burst_blocks].
  - exists start. simpl. rewrite app_nil_r. reflexivity.
  - rewrite fold_left_app, scan_burst_block.
    destruct (IH (t + 20 * Py.us_per_hour)%Z
                (periods ++ [scenario_burst t 0]) (Some (t + 0)%Z))
      as [start' Hscan].
    exists start'. rewrite Hscan. f_equal. f_equal. f_equal.
    rewrite <- app_assoc. f_equal.
    cbn [seq map app]. f_equal.
    rewrite <- seq_shift, map_map. apply map_ext. intros j.
    unfold scenario_burst. rewrite Nat2Z.inj_succ.
    f_equal. f_equal; lia.
Qed.

Lemma seq_offset (b n : nat) :
  seq b n = map (fun i => (i + b)%nat) (seq 0 n).
Proof.
  revert b. induction n as [|n IH]; intros b; [reflexivity|].
  cbn [seq map]. f_equal.
  rewrite <- (seq_shift n 0), map_map, (IH (S b)).
  apply map_ext. intros i. lia.
Qed.

(** The samples of the scenario from index [20 * j] on, [k] runs of them,
    are [k] runs in a row. *)
Lemma scenario_runs (t0 : Z) (k : nat) :
  forall j,
  map (fun i =>
         mkMetricPoint (t0 + Z.of_nat i * Py.us_per_hour)
           (if (i mod 20 <? 3)%nat then 85 else 5))
      (seq (20 * j) (20 * k))
  = burst_blocks k (t0 + Z.of_nat j * (20 * Py.us_per_hour)).
Proof.
  induction k as [|k IH]; intros j.
  - rewrite Nat.mul_0_r. reflexivity.
  - replace (20 * S k)%nat with (20 + 20 * k)%nat by lia.
    rewrite seq_app, map_app. cbn [burst_blocks]. f_equal.
    + rewrite seq_offset, map_map. unfold burst_block.
      apply map_ext_in. intros i Hi. apply in_seq in Hi.
      replace ((i + 20 * j) mod 20)%nat with i
        by (rewrite Nat.mul_comm, Nat.Div0.mod_add, Nat.mod_small; lia).
      replace (i mod 20)%nat with i by (rewrite Nat.mod_small; lia).
      f_equal. lia.
    + replace (20 * j + 20)%nat with (20 * S j)%nat by lia.
      rewrite IH. f_equal. lia.
Qed.

Lemma burst_scenario_blocks (t0 : Z) : burst_scenario t0 = burst_blocks 10 t0.
Proof.
  unfold burst_scenario.
  change (seq 0 200) with (seq (20 * 0) (20 * 10)).
  rewrite scenario_runs. f_equal. lia.
Qed.

End BurstScenario.

Section BurstStatistics.

Import Patterns.

Lemma mean_repeat (c : R) (n : nat) : Py.mean (repeat c (S n)) = c.
Proof.
  unfold Py.mean, Py.len. rewrite sum_repeat, repeat_length.
  field. apply not_0_INR. discriminate.
Qed.

Lemma map_constant {A : Type} (f : A -> R) (c : R) (l : list A) :
  (forall x, f x = c) -> map f l = repeat c (length l).
Proof.
  intros H. induction l as [|x l IH]; simpl; [reflexivity|].
  rewrite H, IH. reflexivity.
Qed.

Lemma filter_keeps_all {A : Type} (f : A -> bool) (l : list A) :
  (forall x, In x l -> f x = true) -> filter f l = l.
Proof.
  induction l as [|x l IH]; intros H; simpl; [reflexivity|].
  rewrite (H x (or_introl eq_refl)), IH; [reflexivity|].
  intros y Hy. apply H. right. exact Hy.
Qed.

Lemma seventeen_hours : hours_of (17 * Py.us_per_hour) = 17.
Proof.
  unfold hours_of, Py.total_seconds.
  replace (17 * Py.us_per_hour)%Z with 61200000000%Z by reflexivity.
  replace Py.us_per_second with 1000000%Z by reflexivity.
  lra.
Qed.

Lemma three_hours_in_minutes : minutes_of (3 * Py.us_per_hour) = 180.
Proof.
  unfold minutes_of, Py.total_seconds.
  replace (3 * Py.us_per_hour)%Z with 10800000000%Z by reflexivity.
  replace Py.us_per_second with 1000000%Z by reflexivity.
  lra.
Qed.

Lemma quiet_durations_cons (prev next : Z * Z * R) (tl : list (Z * Z * R)) :
  quiet_durations (prev :: next :: tl)
  = hours_of (fst (fst next) - snd (fst prev)) :: quiet_durations (next :: tl).
Proof. reflexivity. Qed.

(** Seventeen quiet hours separate consecutive bursts of the scenario. *)
Lemma quiet_scenario (t : Z) (k : nat) :
  forall a,
  quiet_durations (map (scenario_burst t) (seq a (S k))) = repeat 17 k.
Proof.
  induction k as [|k IH]; intros a; [reflexivity|].
  change (seq a (S (S k))) with (a :: seq (S a) (S k)).
  specialize (IH (S a)).
  change (seq (S a) (S k)) with (S a :: seq (S (S a)) k) in *.
  cbn [map] in *. rewrite quiet_durations_cons, IH.
  cbn [repeat]. f_equal.
  unfold scenario_burst. cbn [fst snd]. rewrite Nat2Z.inj_succ.
  rewrite <- seventeen_hours. f_equal. lia.
Qed.

End BurstStatistics.

(** The whole result of the burst sub-analysis on the scenario. *)
Lemma burst_scenario_analysis (t0 : Z) :
  Patterns._analyze_burst_pattern Patterns.class_defaults (burst_scenario t0)
  = Patterns.mkBurstPattern true 10 180 17 17
      (map (scenario_burst t0) (seq 0 10)).
Proof.
  set (shape := map (fun i => (i mod 20 <? 3)%nat) (seq 0 200)).
  assert (Hvalues : Patterns.values (burst_scenario t0) = two_level 5 85 shape).
  { unfold Patterns.values, burst_scenario, two_level, shape.
    rewrite !map_map. apply map_ext. intros i. reflexivity. }
  assert (Hbaseline : Py._percentile (Patterns.values (burst_scenario t0)) 25 = 5).
  { rewrite Hvalues. apply percentile_two_level_low; [lra|].
    vm_compute. lia. }
  assert (Hlen : (length (burst_scenario t0) <? 10)%nat = false).
  { unfold burst_scenario. rewrite length_map, length_seq. reflexivity. }
  destruct (scan_burst_blocks 10 t0 [] None) as [start' Hscan].
  rewrite <- burst_scenario_blocks in Hscan.
  set (bursts := map (scenario_burst t0) (seq 0 10)) in *.
  assert (Hkeep :
    filter (fun b => (Patterns.MIN_BURST_DURATION_MINUTES Patterns.class_defaults
                      * 60 * Py.us_per_second <=? snd (fst b) - fst (fst b))%Z)
      bursts = bursts).
  { apply filter_keeps_all. intros b Hb. unfold bursts in Hb.
    apply in_map_iff in Hb. destruct Hb as (j & <- & _).
    unfold scenario_burst. cbn [fst snd]. apply Z.leb_le.
    cbn [Patterns.MIN_BURST_DURATION_MINUTES Patterns.class_defaults].
    unfold Py.us_per_hour, Py.us_per_second. lia. }
  assert (Hduration :
    Py.mean (map (fun b => Patterns.minutes_of (snd (fst b) - fst (fst b)))
               bursts) = 180).
  { unfold bursts. rewrite map_map.
    rewrite (map_constant _ 180).
    - rewrite length_seq. apply mean_repeat.
    - intros j. cbn [scenario_burst fst snd].
      rewrite <- three_hours_in_minutes. f_equal. lia. }
  assert (Hintensity :
    Py.mean (map (fun b => snd b / Rmax 5 1) bursts) = 17).
  { unfold bursts. rewrite map_map.
    rewrite (map_constant _ 17) by (intros j; cbn [scenario_burst snd];
                                     rewrite Rmax_left by lra; lra).
    rewrite length_seq. apply mean_repeat. }
  assert (Hquiet : Patterns.quiet_durations bursts = repeat 17 9).
  { apply quiet_scenario. }
  assert (Hcount : length bursts = 10%nat)
    by (unfold bursts; rewrite length_map, length_seq; reflexivity).
  unfold Patterns._analyze_burst_pattern.
  rewrite Hlen, Hbaseline.
  cbn [Patterns.BURST_THRESHOLD_MULTIPLIER Patterns.class_defaults].
  rewrite (Rmax_right (5 * 2.0) 20) by lra.
  rewrite Hscan. cbv beta iota. cbn [app].
  rewrite Hkeep, Hduration, Hintensity, Hquiet, Hcount.
  change (repeat 17 9) with (17 :: repeat 17 8). cbv beta iota.
  assert (Hmean : Py.mean (17 :: repeat 17 8) = 17) by apply (mean_repeat 17 8).
  rewrite Hmean.
  clearbody bursts. destruct bursts; [discriminate|].
  cbv beta iota.
  replace (Py.gtb 17 2.0) with true by (symmetry; cmp_true).
  replace (Py.gtb 17 1.0) with true by (symmetry; cmp_true).
  reflexivity.
Qed.

(** The 25th percentile of the scenario is its low level. *)
Lemma burst_scenario_baseline (t0 : Z) :
  Py._percentile (Patterns.values (burst_scenario t0)) 25 = 5.
Proof.
  set (shape := map (fun i => (i mod 20 <? 3)%nat) (seq 0 200)).
  assert (Hvalues : Patterns.values (burst_scenario t0) = two_level 5 85 shape).
  { unfold Patterns.values, burst_scenario, two_level, shape.
    rewrite !map_map. apply map_ext. intros i. reflexivity. }
  rewrite Hvalues. apply percentile_two_level_low; [lra|].
  vm_compute. lia.
Qed.

(** C8: on 200 consecutive hourly samples, from any start, at 85 when
    [index mod 20 < 3] and at 5 otherwise, the 25th-percentile baseline is
    5 and the burst threshold [max(5 * 2.0, 20)] is 20; the burst
    sub-analysis of the default detector reports the ten 3-sample runs at
    85, each from the first sample of the run to the first sample after it
    (three hours, above the five minutes required) with peak 85, so
    [burst_count = 10 > 0]; the mean duration is 180 minutes, the mean
    intensity [85 / 5 = 17 > 2.0], the mean quiet gap 17 hours [> 1.0], and
    [is_bursty = True]. *)
Theorem burst_scenario_is_bursty (t0 : Z) :
  let cpu := burst_scenario t0 in
  let r := Patterns._analyze_burst_pattern Patterns.class_defaults cpu in
  let baseline := Py._percentile (Patterns.values cpu) 25 in
  baseline = 5
  /\ Rmax (baseline * Patterns.BURST_THRESHOLD_MULTIPLIER Patterns.class_defaults)
          20 = 20
  /\ Patterns.burst_periods r = map (scenario_burst t0) (seq 0 10)
  /\ Forall (fun b =>
               (Patterns.MIN_BURST_DURATION_MINUTES Patterns.class_defaults
                * 60 * Py.us_per_second <= snd (fst b) - fst (fst b))%Z)
       (Patterns.burst_periods r)
  /\ (0 < Patterns.burst_count r)%nat
  /\ Patterns.burst_count r = 10%nat
  /\ Patterns.avg_burst_duration_minutes r = 180
  /\ Patterns.avg_burst_intensity r = 85 / baseline
  /\ 2.0 < Patterns.avg_burst_intensity r
  /\ Patterns.avg_quiet_duration_hours r = 17
  /\ 1.0 < Patterns.avg_quiet_duration_hours r
  /\ Patterns.is_bursty r = true.
Proof.
  intros cpu r baseline. subst cpu r baseline.
  rewrite burst_scenario_analysis, burst_scenario_baseline.
  cbn [Patterns.burst_count Patterns.is_bursty Patterns.burst_periods
       Patterns.avg_burst_duration_minutes Patterns.avg_burst_intensity
       Patterns.avg_quiet_duration_hours
       Patterns.BURST_THRESHOLD_MULTIPLIER Patterns.class_defaults].
  split; [reflexivity|].
  split; [apply Rmax_right; lra|].
  split; [reflexivity|].
  split.
  { apply Forall_forall. intros b Hb.
    apply in_map_iff in Hb. destruct Hb as (j & <- & _).
    unfold scenario_burst. cbn [fst snd].
    cbn [Patterns.MIN_BURST_DURATION_MINUTES Patterns.class_defaults].
    unfold Py.us_per_hour, Py.us_per_second. lia. }
  split; [lia|]. split; [reflexivity|]. split; [reflexivity|].
  split; [lra|]. split; [lra|]. split; [reflexivity|].
  split; [lra | reflexivity].
Qed.

(** ** The statistics of a snapshot that has a CPU series only *)

Section CpuOnly.

Import Workload.

Variable self : WorkloadClassifier.
Variables id type : string.
Variable cpu : list MetricDataPoint.
Hypothesis cpu_nonempty : cpu <> [].

Lemma cpu_only_statistics :
  _compute_statistics self (cpu_only id type cpu)
  = cpu_summary (Py.mean (values cpu)) (Py.max_list (values cpu))
      (Py.min_list (values cpu)) (guarded_stdev (values cpu))
      (Py._percentile (values cpu) 95) (Py._percentile (values cpu) 50)
      (idle_share (values cpu)).
Proof.
  unfold _compute_statistics, cpu_only, cpu_summary, guarded_stdev, idle_share.
  cbn [cpu_utilization memory_utilization network_in network_out
       disk_read_ops disk_write_ops].
  destruct cpu as [|p ps]; [congruence|].
  change (values []) with (@nil R).
  change (values (p :: ps)) with (value p :: values ps).
  cbv beta iota zeta.
  set (vals := value p :: values ps).
  reflexivity.
Qed.

End CpuOnly.

(** ** The four scores on a summary that has CPU entries only *)

Section CpuOnlyScores.

Import Workload.

Variables id type : string.
Variable cpu : list MetricDataPoint.
Variables avg top low sd p95 p50 idle : R.

Ltac read_summary :=
  let s := constr:(cpu_summary avg top low sd p95 p50 idle) in
  change (stats_get s "cpu_avg" 100) with avg;
  change (stats_get s "cpu_avg" 0) with avg;
  change (stats_get s "cpu_stddev" 100) with sd;
  change (stats_get s "cpu_stddev" 0) with sd;
  change (stats_get s "cpu_idle_percent" 0) with idle;
  change (stats_get s "cpu_idle_percent" 100) with idle;
  change (stats_get s "cpu_p95" 0) with p95;
  change (stats_get s "burst_ratio" 0) with (top / Rmax avg 0.1);
  change (stats_get s "variability_score" 0) with (sd / Rmax avg 0.1);
  change (stats_get s "disk_write_ops_avg" 0) with 0;
  change (stats_get s "disk_write_ops_max" 0) with 0;
  change (stats_get s "disk_read_ops_avg" 0) with 0;
  change (stats_get s "memory_avg" 0) with 0;
  change (stats_get s "memory_stddev" 100) with 100;
  change (stats_get s "network_in_avg" 0) with 0;
  change (stats_get s "network_out_avg" 0) with 0.

Ltac known_true c := replace c with true by (symmetry; cmp_true).
Ltac known_false c := replace c with false by (symmetry; cmp_false).

Ltac open_score :=
  cbv zeta;
  cbn [has_persistent_storage in_auto_scaling_group has_elastic_ip
       instance_age_days cpu_utilization cpu_only LAMBDA_MAX_AVG_CPU LAMBDA_MIN_IDLE_PERCENT
       LAMBDA_MIN_BURST_RATIO FARGATE_MIN_AVG_CPU FARGATE_MAX_AVG_CPU
       FARGATE_MAX_CPU_STDDEV FARGATE_MIN_UPTIME_PERCENT class_defaults];
  read_summary.

Ltac close_score :=
  case_cmp; cbn [andb orb]; unfold Rmax, Rmin;
  repeat match goal with
  | |- context [Rle_dec ?a ?b] => destruct (Rle_dec a b)
  end; lra.

Lemma lambda_score_idle_bursty :
  avg <= 20 -> 70 <= idle -> 3 <= top / Rmax avg 0.1 ->
  _score_lambda_candidate class_defaults (cpu_only id type cpu)
    (cpu_summary avg top low sd p95 p50 idle)
  = 0.85.
Proof.
  intros Havg Hidle Hburst. unfold _score_lambda_candidate. open_score.
  known_true (Py.leb avg 20.0). known_true (Py.geb idle 70.0).
  known_true (Py.geb (top / Rmax avg 0.1) 3.0).
  known_true (Py.ltb 0 100). known_false (Py.gtb 0 80).
  close_score.
Qed.

Lemma lambda_score_not_idle :
  idle < 70 ->
  _score_lambda_candidate class_defaults (cpu_only id type cpu)
    (cpu_summary avg top low sd p95 p50 idle)
  <= 0.6.
Proof.
  intros Hidle. unfold _score_lambda_candidate. open_score.
  known_false (Py.geb idle 70.0).
  known_true (Py.ltb 0 100). known_false (Py.gtb 0 80).
  close_score.
Qed.

Lemma fargate_score_bound :
  _score_fargate_candidate class_defaults (cpu_only id type cpu)
    (cpu_summary avg top low sd p95 p50 idle)
  <= 0.6.
Proof.
  unfold _score_fargate_candidate. open_score.
  known_false (Py.ltb 100 15). known_false (Py.gtb 0 1000).
  close_score.
Qed.

Lemma fargate_score_mostly_idle :
  20 < idle ->
  _score_fargate_candidate class_defaults (cpu_only id type cpu)
    (cpu_summary avg top low sd p95 p50 idle)
  <= 0.4.
Proof.
  intros Hidle. unfold _score_fargate_candidate. open_score.
  known_false (Py.geb (100 - idle) 80.0).
  known_false (Py.ltb 100 15). known_false (Py.gtb 0 1000).
  close_score.
Qed.

Lemma spot_score_bound :
  avg <= 20 ->
  _score_spot_candidate class_defaults (cpu_only id type cpu)
    (cpu_summary avg top low sd p95 p50 idle)
  <= 0.65.
Proof.
  intros Havg. unfold _score_spot_candidate. open_score.
  known_false (Py.gtb avg 20.0). known_true (Py.ltb 0 10000).
  rewrite andb_false_r.
  replace (30 <? 0)%Z with false by reflexivity.
  destruct (_detect_periodic_pattern _ _); close_score.
Qed.

Lemma spot_score_periodic_spikes :
  avg <= 20 -> 1 < sd / Rmax avg 0.1 -> 70 < p95 ->
  _detect_periodic_pattern (values cpu) default_min_periods = true ->
  _score_spot_candidate class_defaults (cpu_only id type cpu)
    (cpu_summary avg top low sd p95 p50 idle)
  = 0.65.
Proof.
  intros Havg Hvar Hp95 Hper. unfold _score_spot_candidate. open_score.
  rewrite Hper.
  known_false (Py.gtb avg 20.0). known_true (Py.ltb 0 10000).
  known_true (Py.gtb (sd / Rmax avg 0.1) 1.0). known_true (Py.gtb p95 70).
  rewrite andb_false_r.
  replace (30 <? 0)%Z with false by reflexivity.
  close_score.
Qed.

Lemma keep_score_low_cpu :
  avg <= 70 ->
  _score_keep_ec2 class_defaults (cpu_only id type cpu)
    (cpu_summary avg top low sd p95 p50 idle) = 0.3.
Proof.
  intros Havg. unfold _score_keep_ec2. open_score.
  known_false (Py.gtb avg 70). known_false (Py.gtb 0 70).
  known_false (Py.gtb 0 500).
  close_score.
Qed.

End CpuOnlyScores.

(** ** The winner of [classify] *)

Section Winner.

Import Workload.

(** A candidate strictly above every other comes first after the sort. *)
Lemma sort_desc_strict_max (x : WorkloadClassification * R) l :
  In x l ->
  (forall y, In y l -> y <> x -> snd y < snd x) ->
  hd (KEEP_EC2, 0) (sort_desc l) = x.
Proof.
  intros Hin Hmax.
  pose proof (sort_desc_perm l) as Hperm.
  pose proof (sort_desc_sorted l) as Hsorted.
  destruct (sort_desc l) as [|h t].
  - apply Permutation_nil in Hperm. subst l. contradiction.
  - simpl.
    assert (Hh : In h l) by (apply (Permutation_in _ Hperm); left; reflexivity).
    assert (Hx : In x (h :: t))
      by (apply (Permutation_in _ (Permutation_sym Hperm)); exact Hin).
    destruct Hx as [Heq | Hx]; [exact Heq|].
    inversion Hsorted as [|? ? _ Hall]; subst.
    rewrite Forall_forall in Hall. specialize (Hall x Hx).
    unfold score_ge in Hall.
    destruct (Req_dec_T (snd h) (snd x)) as [Hs | Hs].
    + destruct h as [hc hs], x as [xc xs]. simpl in *. subst hs.
      assert (Hne : (hc, xs) <> (xc, xs) -> False).
      { intros Hne. specialize (Hmax _ Hh Hne). simpl in Hmax. lra. }
      destruct hc, xc; try reflexivity; exfalso; apply Hne; discriminate.
    + assert (Hne : h <> x) by congruence.
      specialize (Hmax h Hh Hne). lra.
Qed.

(** The classification and the confidence when one candidate is strictly
    above the other three. *)
Lemma classify_strict_winner (self : WorkloadClassifier)
    (metrics : CloudWatchMetrics) (c : WorkloadClassification) (s : R) :
  let stats := _compute_statistics self metrics in
  In (c, s) (candidate_scores self metrics stats) ->
  (forall y, In y (candidate_scores self metrics stats) ->
             y <> (c, s) -> snd y < s) ->
  classification (classify self metrics) = c
  /\ confidence (classify self metrics) = Rmin s 1.0.
Proof.
  intros stats Hin Hmax.
  destruct (classify_fields self metrics) as (_ & others & Hs & Hconf & _).
  fold stats in Hs, Hconf.
  pose proof (sort_desc_strict_max (c, s) _ Hin Hmax) as Hhd.
  rewrite Hconf, Hhd. rewrite Hs in Hhd. simpl in Hhd.
  inversion Hhd as [[Hc Hsc]]. rewrite Hc. split; reflexivity.
Qed.

End Winner.

(** ** Series of spikes over a low level *)

Section SpikySeries.

Lemma fold_max_bounds (l : list R) :
  forall a, a <= fold_left Rmax l a
            /\ forall x, In x l -> x <= fold_left Rmax l a.
Proof.
  induction l as [|y l IH]; intros a; simpl.
  - split; [lra | contradiction].
  - destruct (IH (Rmax a y)) as [Hacc Hall].
    pose proof (Rmax_l a y). pose proof (Rmax_r a y).
    split; [lra|]. intros x [<- | Hx]; [lra | apply Hall, Hx].
Qed.

Lemma max_list_ge (l : list R) (x : R) : In x l -> x <= Py.max_list l.
Proof.
  destruct l as [|y l]; [contradiction|]. simpl.
  destruct (fold_max_bounds l y) as [Hacc Hall].
  intros [<- | Hx]; [exact Hacc | apply Hall, Hx].
Qed.

(** Below, every sample is a spike in [70, 95] or lies in [1, 5). *)

Lemma idle_and_spike_counts (vals : list R) :
  Forall (fun v => 70 <= v <= 95 \/ 1 <= v < 5) vals ->
  (length (filter (fun v => Py.ltb v 5) vals) + spikes vals = length vals)%nat.
Proof.
  unfold spikes. induction 1 as [|v l Hv _ IH]; [reflexivity|].
  cbn [filter]. unfold is_spike at 1.
  destruct Hv as [Hv | Hv].
  - replace (Py.ltb v 5) with false by (symmetry; apply ltb_false_iff; lra).
    replace (Py.leb 70 v) with true by (symmetry; apply leb_iff; lra).
    replace (Py.leb v 95) with true by (symmetry; apply leb_iff; lra).
    cbn [andb length]. lia.
  - replace (Py.ltb v 5) with true by (symmetry; apply ltb_iff; lra).
    replace (Py.leb 70 v) with false by (symmetry; apply leb_false_iff; lra).
    cbn [andb length]. lia.
Qed.

Lemma spiky_sum_bounds (vals : list R) :
  Forall (fun v => 70 <= v <= 95 \/ 1 <= v < 5) vals ->
  INR (length vals) <= Py.sum vals
  /\ Py.sum vals <= 5 * INR (length vals) + 90 * INR (spikes vals).
Proof.
  unfold spikes. induction 1 as [|v l Hv _ IH].
  - simpl. rewrite sum_nil. lra.
  - rewrite sum_cons. cbn [filter length]. unfold is_spike at 1.
    rewrite S_INR.
    destruct Hv as [Hv | Hv].
    + replace (Py.leb 70 v) with true by (symmetry; apply leb_iff; lra).
      replace (Py.leb v 95) with true by (symmetry; apply leb_iff; lra).
      cbn [andb length]. rewrite S_INR. lra.
    + replace (Py.leb 70 v) with false by (symmetry; apply leb_false_iff; lra).
      cbn [andb]. lra.
Qed.

Lemma spiky_max (vals : list R) (k : nat) :
  spikes vals = S k -> 70 <= Py.max_list vals.
Proof.
  unfold spikes. intros Hk.
  destruct (filter is_spike vals) as [|v l] eqn:E; [discriminate|].
  assert (Hin : In v (filter is_spike vals)) by (rewrite E; left; reflexivity).
  apply filter_In in Hin. destruct Hin as [Hin Hv].
  unfold is_spike in Hv. apply andb_true_iff in Hv. destruct Hv as [Hv _].
  apply leb_iff in Hv. pose proof (max_list_ge vals v Hin). lra.
Qed.

End SpikySeries.

Section Scenario336.

Import Workload.

Lemma values_hourly (vals : list R) : values (hourly vals) = vals.
Proof.
  unfold values, hourly. rewrite map_map. cbn [value].
  change (fun x : nat * R => snd x) with (@snd nat R).
  generalize 0%nat.
  induction vals as [|v vals IH]; intros a; [reflexivity|].
  cbn [length seq combine map snd]. rewrite IH. reflexivity.
Qed.

Lemma INR_336 : INR 336 = 336.
Proof. rewrite INR_IZR_INZ. reflexivity. Qed.

Lemma Forall_two_level (P : R -> Prop) (lo hi : R) (shape : list bool) :
  P lo -> P hi -> Forall P (two_level lo hi shape).
Proof.
  intros Hlo Hhi. unfold two_level.
  induction shape as [|[|] shape IH]; simpl; constructor; assumption.
Qed.

Lemma spikes_two_level (lo hi : R) (shape : list bool) :
  is_spike lo = false -> is_spike hi = true ->
  spikes (two_level lo hi shape) = highs shape.
Proof.
  intros Hlo Hhi. unfold spikes, highs, two_level.
  induction shape as [|[|] shape IH]; cbn [map filter];
    [reflexivity | rewrite Hhi | rewrite Hlo]; cbn [length]; rewrite IH;
    reflexivity.
Qed.

End Scenario336.

(** C7, as the code has it: for every CPU series of 336 samples of which one
    in ten (33 or 34) lie in [70, 95] and the others in [1, 5), so strictly
    below the idle threshold of 5, with nothing else in the snapshot, the
    default classifier selects the function candidate, with confidence 0.85,
    above 0.5. *)
Theorem spiky_idle_workload_is_lambda (id type : string)
    (cpu : list Workload.MetricDataPoint) :
  length cpu = 336%nat ->
  Forall (fun v => 70 <= v <= 95 \/ 1 <= v < 5) (Workload.values cpu) ->
  one_in_ten_of_336 (spikes (Workload.values cpu)) ->
  Workload.classification
    (Workload.classify Workload.class_defaults (cpu_only id type cpu))
  = Workload.LAMBDA_CANDIDATE
  /\ Workload.confidence
       (Workload.classify Workload.class_defaults (cpu_only id type cpu))
     = 0.85
  /\ 0.5 < Workload.confidence
             (Workload.classify Workload.class_defaults (cpu_only id type cpu)).
Proof.
  intros Hlen Hall Hten.
  assert (Hne : cpu <> []) by (destruct cpu; [discriminate | congruence]).
  assert (Hvlen : length (Workload.values cpu) = 336%nat)
    by (unfold Workload.values; rewrite length_map; exact Hlen).
  pose proof (idle_and_spike_counts _ Hall) as Hcount.
  pose proof (spiky_sum_bounds _ Hall) as [Hsum_lo Hsum_hi].
  destruct Hten as [Hk33 Hk34].
  assert (Htop : 70 <= Py.max_list (Workload.values cpu)).
  { destruct (spikes (Workload.values cpu)) as [|k] eqn:E; [lia|].
    exact (spiky_max _ k E). }
  rewrite Hvlen in Hcount, Hsum_lo, Hsum_hi. rewrite INR_336 in *.
  assert (Hs : INR (spikes (Workload.values cpu)) <= 34)
    by (rewrite INR_IZR_INZ; apply IZR_le; lia).
  assert (Hq : 302 <= INR (length (filter (fun v => Py.ltb v 5)
                                    (Workload.values cpu))))
    by (rewrite INR_IZR_INZ; apply IZR_le; lia).
  assert (Havg : 1 <= Py.mean (Workload.values cpu) <= 4740 / 336).
  { unfold Py.mean, Py.len. rewrite Hvlen, INR_336. split.
    - apply Rmult_le_reg_r with 336; [lra|]. field_simplify. lra.
    - apply Rmult_le_reg_r with 336; [lra|]. field_simplify. lra. }
  assert (Hidle : 89 <= idle_share (Workload.values cpu)).
  { unfold idle_share. rewrite Hvlen, INR_336. lra. }
  assert (Hburst : 3 <= Py.max_list (Workload.values cpu)
                        / Rmax (Py.mean (Workload.values cpu)) 0.1).
  { rewrite Rmax_left by lra.
    apply Rmult_le_reg_r with (Py.mean (Workload.values cpu)); [lra|].
    replace (Py.max_list (Workload.values cpu) / Py.mean (Workload.values cpu)
             * Py.mean (Workload.values cpu))
      with (Py.max_list (Workload.values cpu)) by (field; lra).
    lra. }
  assert (Hwin :
    Workload.classification
      (Workload.classify Workload.class_defaults (cpu_only id type cpu))
    = Workload.LAMBDA_CANDIDATE
    /\ Workload.confidence
         (Workload.classify Workload.class_defaults (cpu_only id type cpu))
       = Rmin 0.85 1.0).
  { apply classify_strict_winner;
      rewrite (cpu_only_statistics _ id type cpu Hne);
      unfold Workload.candidate_scores;
      rewrite lambda_score_idle_bursty by lra.
    - left. reflexivity.
    - intros y [<- | [<- | [<- | [<- | []]]]] Hy; cbn [snd].
      + congruence.
      + eapply Rle_lt_trans; [apply fargate_score_mostly_idle; lra | lra].
      + eapply Rle_lt_trans; [apply spot_score_bound; lra | lra].
      + rewrite keep_score_low_cpu by lra. lra. }
  destruct Hwin as [Hclass Hconf].
  rewrite Rmin_left in Hconf by lra.
  rewrite Hclass, Hconf. repeat split. lra.
Qed.

(** The theorem at the shape of [spike_shape] with the low level at 2. *)
Lemma spiky_idle_workload_is_lambda_witness :
  length (hourly (two_level 2 90 spike_shape)) = 336%nat
  /\ Forall (fun v => 70 <= v <= 95 \/ 1 <= v < 5)
       (Workload.values (hourly (two_level 2 90 spike_shape)))
  /\ one_in_ten_of_336
       (spikes (Workload.values (hourly (two_level 2 90 spike_shape))))
  /\ Workload.classification
       (Workload.classify Workload.class_defaults
          (cpu_only "i-spiky" "t3.medium" (hourly (two_level 2 90 spike_shape))))
     = Workload.LAMBDA_CANDIDATE.
Proof.
  assert (H1 : length (hourly (two_level 2 90 spike_shape)) = 336%nat).
  { unfold hourly, two_level.
    rewrite length_map, length_combine, length_seq, Nat.min_id, length_map.
    reflexivity. }
  assert (H2 : Forall (fun v => 70 <= v <= 95 \/ 1 <= v < 5)
                 (Workload.values (hourly (two_level 2 90 spike_shape)))).
  { rewrite values_hourly. apply Forall_two_level; lra. }
  assert (H3 : one_in_ten_of_336
                 (spikes (Workload.values (hourly (two_level 2 90 spike_shape))))).
  { rewrite values_hourly, spikes_two_level.
    - vm_compute. lia.
    - unfold is_spike.
      replace (Py.leb 70 2) with false by (symmetry; cmp_false). reflexivity.
    - unfold is_spike.
      replace (Py.leb 70 90) with true by (symmetry; cmp_true).
      replace (Py.leb 90 95) with true by (symmetry; cmp_true). reflexivity. }
  split; [exact H1|]. split; [exact H2|]. split; [exact H3|].
  exact (proj1 (spiky_idle_workload_is_lambda "i-spiky" "t3.medium"
                  (hourly (two_level 2 90 spike_shape)) H1 H2 H3)).
Defined.

Section SpotWinner.

Import Workload.

Lemma filter_none_two_level (p : R -> bool) (lo hi : R) (shape : list bool) :
  p lo = false -> p hi = false -> filter p (two_level lo hi shape) = [].
Proof.
  intros Hlo Hhi. unfold two_level.
  induction shape as [|[|] shape IH]; cbn [map filter];
    [reflexivity | rewrite Hhi | rewrite Hlo]; exact IH.
Qed.

Lemma map_two_level (f : R -> R) (lo hi : R) (shape : list bool) :
  map f (two_level lo hi shape) = two_level (f lo) (f hi) shape.
Proof.
  unfold two_level. rewrite map_map. apply map_ext. intros []; reflexivity.
Qed.

(** Two copies of a varying day at the head of a series make it periodic. *)
Lemma repeated_head_is_periodic (b rest : list R) :
  length b = 24%nat -> varies b ->
  _detect_periodic_pattern (b ++ b ++ rest) default_min_periods = true.
Proof.
  intros Hlen Hv. unfold _detect_periodic_pattern.
  replace (length (b ++ b ++ rest) <? 48)%nat with false
    by (symmetry; apply Nat.ltb_ge; rewrite !length_app; lia).
  cbn [existsb]. rewrite period_confirms_second.
  rewrite <- Hlen at 1.
  rewrite (lag_confirms_repeated_block b rest Hv). reflexivity.
Qed.

Lemma periodic_spikes_length : length periodic_spikes = 336%nat.
Proof. unfold periodic_spikes, two_level. rewrite length_map. reflexivity. Qed.

Lemma periodic_spikes_mean : Py.mean periodic_spikes = 4570 / 336.
Proof.
  unfold Py.mean, Py.len. rewrite periodic_spikes_length, INR_336.
  unfold periodic_spikes. rewrite sum_two_level.
  replace (lows spike_shape) with 302%nat by reflexivity.
  replace (highs spike_shape) with 34%nat by reflexivity.
  rewrite !INR_IZR_INZ. cbn [Z.of_nat Pos.of_succ_nat Pos.succ]. lra.
Qed.

Lemma periodic_spikes_idle : idle_share periodic_spikes = 0.
Proof.
  unfold idle_share, periodic_spikes.
  rewrite filter_none_two_level.
  - simpl. lra.
  - cmp_false.
  - cmp_false.
Qed.

Lemma periodic_spikes_p95 : Py._percentile periodic_spikes 95 = 90.
Proof.
  unfold periodic_spikes. apply percentile_two_level_high.
  - lra.
  - vm_compute. lia.
  - vm_compute. lia.
Qed.

Lemma periodic_spikes_stdev :
  4570 / 336 < guarded_stdev periodic_spikes.
Proof.
  unfold guarded_stdev. rewrite periodic_spikes_length.
  replace (1 <? 336)%nat with true by reflexivity.
  unfold Py.stdev. cbv zeta.
  rewrite periodic_spikes_mean.
  unfold Py.len. rewrite periodic_spikes_length, INR_336.
  unfold periodic_spikes. rewrite map_two_level, sum_two_level.
  replace (lows spike_shape) with 302%nat by reflexivity.
  replace (highs spike_shape) with 34%nat by reflexivity.
  rewrite !INR_IZR_INZ. cbn [Z.of_nat Pos.of_succ_nat Pos.succ].
  rewrite <- (sqrt_square (4570 / 336)) at 1 by lra.
  apply sqrt_lt_1_alt. lra.
Qed.

Lemma periodic_spikes_periodic :
  _detect_periodic_pattern periodic_spikes default_min_periods = true.
Proof.
  apply (repeated_head_is_periodic (90 :: repeat 5 23)
           (repeat 90 32 ++ repeat 5 256)).
  - reflexivity.
  - exists 90, 5. simpl. split; [tauto|]. split; [tauto | lra].
Qed.

End SpotWinner.

(** C7, as stated, fails when the low samples sit at 5, which the closed
    band [1, 5] allows: none of them counts as idle (the test is [v < 5]), so
    the function candidate scores 0.6, while the two spikes a day apart, the
    high P95 and the high variability give the spot candidate 0.65. *)
Lemma spikes_over_threshold_level_is_spot :
  length (hourly periodic_spikes) = 336%nat
  /\ Forall (fun v => 70 <= v <= 95 \/ 1 <= v <= 5)
       (Workload.values (hourly periodic_spikes))
  /\ one_in_ten_of_336 (spikes (Workload.values (hourly periodic_spikes)))
  /\ Workload.classification
       (Workload.classify Workload.class_defaults
          (cpu_only "i-spiky" "t3.medium" (hourly periodic_spikes)))
     = Workload.SPOT_CANDIDATE.
Proof.
  assert (Hlen : length (hourly periodic_spikes) = 336%nat).
  { unfold hourly.
    rewrite length_map, length_combine, length_seq, Nat.min_id.
    apply periodic_spikes_length. }
  split; [exact Hlen|]. rewrite values_hourly.
  split; [apply Forall_two_level; lra|].
  split.
  { unfold periodic_spikes. rewrite spikes_two_level.
    - vm_compute. lia.
    - unfold is_spike.
      replace (Py.leb 70 5) with false by (symmetry; cmp_false). reflexivity.
    - unfold is_spike.
      replace (Py.leb 70 90) with true by (symmetry; cmp_true).
      replace (Py.leb 90 95) with true by (symmetry; cmp_true). reflexivity. }
  assert (Hne : hourly periodic_spikes <> [])
    by (intros E; rewrite E in Hlen; discriminate).
  pose proof periodic_spikes_mean as Hmean.
  pose proof periodic_spikes_stdev as Hsd.
  pose proof periodic_spikes_idle as Hidle.
  pose proof periodic_spikes_p95 as Hp95.
  assert (Hvar : 1 < guarded_stdev periodic_spikes
                     / Rmax (Py.mean periodic_spikes) 0.1).
  { rewrite Hmean, Rmax_left by lra.
    apply Rmult_lt_reg_r with (4570 / 336); [lra|].
    replace (guarded_stdev periodic_spikes / (4570 / 336) * (4570 / 336))
      with (guarded_stdev periodic_spikes) by (field; lra).
    lra. }
  assert (Hspot :
    Workload._score_spot_candidate Workload.class_defaults
      (cpu_only "i-spiky" "t3.medium" (hourly periodic_spikes))
      (cpu_summary (Py.mean periodic_spikes) (Py.max_list periodic_spikes)
         (Py.min_list periodic_spikes) (guarded_stdev periodic_spikes)
         (Py._percentile periodic_spikes 95)
         (Py._percentile periodic_spikes 50) (idle_share periodic_spikes))
    = 0.65).
  { apply spot_score_periodic_spikes; try lra.
    rewrite values_hourly. apply periodic_spikes_periodic. }
  apply (classify_strict_winner Workload.class_defaults _
           Workload.SPOT_CANDIDATE 0.65);
    rewrite (cpu_only_statistics _ "i-spiky" "t3.medium" _ Hne), values_hourly;
    unfold Workload.candidate_scores; rewrite Hspot.
  - right. right. left. reflexivity.
  - intros y [<- | [<- | [<- | [<- | []]]]] Hy; cbn [snd].
    + eapply Rle_lt_trans; [apply lambda_score_not_idle; lra | lra].
    + eapply Rle_lt_trans; [apply fargate_score_bound | lra].
    + congruence.
    + rewrite keep_score_low_cpu by lra. lra.
Qed.

(** * Further properties of the two modules *)

(** ** Means, extremes and percentiles *)

Section Extremes.

Lemma div_bounds (a b s n : R) :
  0 < n -> a * n <= s <= b * n -> a <= s / n <= b.
Proof.
  intros Hn [Ha Hb]. split.
  - apply Rmult_le_reg_r with n; [exact Hn|].
    replace (s / n * n) with s by (field; lra). exact Ha.
  - apply Rmult_le_reg_r with n; [exact Hn|].
    replace (s / n * n) with s by (field; lra). exact Hb.
Qed.

Lemma sum_bounds (a b : R) (l : list R) :
  Forall (fun x => a <= x <= b) l ->
  a * INR (length l) <= Py.sum l <= b * INR (length l).
Proof.
  induction 1 as [|x l Hx _ IH].
  - simpl. rewrite sum_nil. lra.
  - rewrite sum_cons. change (length (x :: l)) with (S (length l)).
    rewrite S_INR. lra.
Qed.

Lemma length_pos (A : Type) (l : list A) : l <> [] -> 0 < INR (length l).
Proof.
  intros H. destruct l; [congruence|].
  change (length (a :: l)) with (S (length l)). rewrite S_INR.
  pose proof (pos_INR (length l)). lra.
Qed.

(** The mean of a non-empty list lies between any bounds of its members. *)
Lemma mean_bounds (a b : R) (l : list R) :
  l <> [] -> Forall (fun x => a <= x <= b) l -> a <= Py.mean l <= b.
Proof.
  intros Hne Hall. unfold Py.mean, Py.len.
  apply div_bounds; [apply length_pos, Hne | apply sum_bounds, Hall].
Qed.

Lemma fold_min_bounds (l : list R) :
  forall a, fold_left Rmin l a <= a
            /\ forall x, In x l -> fold_left Rmin l a <= x.
Proof.
  induction l as [|y l IH]; intros a; simpl.
  - split; [lra | contradiction].
  - destruct (IH (Rmin a y)) as [Hacc Hall].
    pose proof (Rmin_l a y). pose proof (Rmin_r a y).
    split; [lra|]. intros x [<- | Hx]; [lra | apply Hall, Hx].
Qed.

Lemma min_list_le (l : list R) (x : R) : In x l -> Py.min_list l <= x.
Proof.
  destruct l as [|y l]; [contradiction|]. simpl.
  destruct (fold_min_bounds l y) as [Hacc Hall].
  intros [<- | Hx]; [exact Hacc | apply Hall, Hx].
Qed.

Lemma members_within_extremes (l : list R) :
  Forall (fun x => Py.min_list l <= x <= Py.max_list l) l.
Proof.
  apply Forall_forall. intros x Hx.
  split; [apply min_list_le | apply max_list_ge]; exact Hx.
Qed.

End Extremes.

Section Percentile.

Lemma sorted_length (l : list R) : length (Py.sorted l) = length l.
Proof. apply Permutation_length, sorted_perm. Qed.

Lemma sorted_members (l : list R) (x : R) : In x (Py.sorted l) <-> In x l.
Proof.
  split; apply Permutation_in;
    [apply sorted_perm | apply Permutation_sym, sorted_perm].
Qed.

Lemma last_as_nth (l : list R) (d : R) :
  last l d = nth (length l - 1) l d.
Proof.
  induction l as [|x [|y l] IH]; try reflexivity.
  change (last (x :: y :: l) d) with (last (y :: l) d). rewrite IH.
  change (length (x :: y :: l) - 1)%nat with (S (length l)).
  change (length (y :: l) - 1)%nat with (length l - 0)%nat.
  rewrite Nat.sub_0_r. reflexivity.
Qed.

(** The interpolation weight is a fraction in [0, 1). *)
Lemma percentile_weight (k : nat) :
  0 <= INR k / 100 - INR (k / 100) < 1.
Proof.
  pose proof (Nat.div_mod_eq k 100) as Hk.
  assert (Hm : (k mod 100 < 100)%nat) by (apply Nat.mod_upper_bound; discriminate).
  assert (HR : INR k = 100 * INR (k / 100) + INR (k mod 100)).
  { rewrite Hk at 1. rewrite plus_INR, mult_INR.
    replace (INR 100) with 100 by (rewrite INR_IZR_INZ; reflexivity).
    reflexivity. }
  assert (H0 : 0 <= INR (k mod 100)) by apply pos_INR.
  assert (H1 : INR (k mod 100) < 100).
  { replace 100 with (INR 100) by (rewrite INR_IZR_INZ; reflexivity).
    apply lt_INR, Hm. }
  rewrite HR. lra.
Qed.

End Percentile.

(** The 50th percentile lies between the least and the greatest value. *)
Lemma median_between (values : list R) :
  values <> [] ->
  Py.min_list values <= Py._percentile values 50 <= Py.max_list values.
Proof.
  intros Hne. set (p := 50%nat). unfold Py._percentile.
  destruct values as [|v vs] eqn:E; [congruence|]. rewrite <- E in *. clear E.
  cbv zeta. rewrite sorted_length.
  assert (Hin : forall i, (i < length values)%nat ->
            Py.min_list values <= nth i (Py.sorted values) 0
            <= Py.max_list values).
  { intros i Hi.
    assert (Hm : In (nth i (Py.sorted values) 0) values).
    { apply sorted_members, nth_In. rewrite sorted_length. exact Hi. }
    split; [apply min_list_le | apply max_list_ge]; exact Hm. }
  assert (Hpos : (0 < length values)%nat)
    by (destruct values; [congruence | simpl; lia]).
  set (n := length values) in *.
  set (k := ((n - 1) * p)%nat).
  destruct (n <=? k / 100 + 1)%nat eqn:Hup.
  - assert (Hlast : last (Py.sorted values) 0
                    = nth (n - 1) (Py.sorted values) 0).
    { rewrite last_as_nth, sorted_length. reflexivity. }
    rewrite Hlast. apply Hin. lia.
  - apply Nat.leb_gt in Hup.
    pose proof (percentile_weight k) as Hw.
    pose proof (Hin (k / 100)%nat ltac:(lia)) as Hlo.
    pose proof (Hin (k / 100 + 1)%nat ltac:(lia)) as Hhi.
    set (w := INR k / 100 - INR (k / 100)) in *.
    split; nra.
Qed.

(** X2: on an odd number of values the 50th percentile is the middle one
    of the sorted values. *)
Theorem percentile_50_odd (values : list R) (m : nat) :
  length values = (2 * m + 1)%nat ->
  Py._percentile values 50 = nth m (Py.sorted values) 0.
Proof.
  intros Hlen. unfold Py._percentile.
  destruct values as [|v vs] eqn:E; [simpl in Hlen; lia|].
  rewrite <- E in *. clear E. cbv zeta. rewrite sorted_length, Hlen.
  replace ((2 * m + 1 - 1) * 50)%nat with (m * 100)%nat by lia.
  rewrite Nat.div_mul by discriminate.
  destruct (2 * m + 1 <=? m + 1)%nat eqn:Hup.
  - apply Nat.leb_le in Hup. assert (m = 0)%nat by lia. subst m.
    rewrite last_as_nth, sorted_length, Hlen. reflexivity.
  - rewrite mult_INR.
    replace (INR 100) with 100 by (rewrite INR_IZR_INZ; reflexivity).
    replace (INR m * 100 / 100 - INR m) with 0 by (field).
    ring.
Qed.

Lemma percentile_50_odd_witness :
  length [3; 1; 2] = (2 * 1 + 1)%nat
  /\ Py._percentile [3; 1; 2] 50 = nth 1 (Py.sorted [3; 1; 2]) 0.
Proof. split; [reflexivity | apply percentile_50_odd; reflexivity]. Defined.

(** X3: on an even number of values the 50th percentile is the mean of the
    two middle ones of the sorted values. *)
Theorem percentile_50_even (values : list R) (m : nat) :
  length values = (2 * m + 2)%nat ->
  Py._percentile values 50
  = (nth m (Py.sorted values) 0 + nth (m + 1) (Py.sorted values) 0) / 2.
Proof.
  intros Hlen. unfold Py._percentile.
  destruct values as [|v vs] eqn:E; [simpl in Hlen; lia|].
  rewrite <- E in *. clear E. cbv zeta. rewrite sorted_length, Hlen.
  replace ((2 * m + 2 - 1) * 50)%nat with (50 + m * 100)%nat by lia.
  rewrite Nat.div_add by discriminate.
  change (50 / 100)%nat with 0%nat. rewrite Nat.add_0_l.
  destruct (2 * m + 2 <=? m + 1)%nat eqn:Hup;
    [apply Nat.leb_le in Hup; lia|].
  rewrite plus_INR, mult_INR.
  replace (INR 100) with 100 by (rewrite INR_IZR_INZ; reflexivity).
  replace (INR 50) with 50 by (rewrite INR_IZR_INZ; reflexivity).
  field.
Qed.

Lemma percentile_50_even_witness :
  length [4; 3; 1; 2] = (2 * 1 + 2)%nat
  /\ Py._percentile [4; 3; 1; 2] 50
     = (nth 1 (Py.sorted [4; 3; 1; 2]) 0
        + nth (1 + 1) (Py.sorted [4; 3; 1; 2]) 0) / 2.
Proof. split; [reflexivity | apply percentile_50_even; reflexivity]. Defined.

(** ** Idle share and idle periods *)

Section IdlePeriods.

Import Patterns.

Variable self : PatternDetector.

Lemma filter_share (A : Type) (f : A -> bool) (l : list A) :
  l <> [] ->
  0 <= INR (length (filter f l)) / INR (length l) * 100 <= 100.
Proof.
  intros Hne. pose proof (length_pos A l Hne) as Hpos.
  pose proof (pos_INR (length (filter f l))) as H0.
  assert (H1 : INR (length (filter f l)) <= INR (length l))
    by (apply le_INR, filter_length_le).
  assert (Hd : 0 <= INR (length (filter f l)) / INR (length l) <= 1).
  { apply div_bounds; [exact Hpos | lra]. }
  lra.
Qed.

Lemma last_cons_default (A : Type) (a d : A) (l : list A) :
  last (a :: l) d = last l a.
Proof.
  revert a d. induction l as [|x l IH]; intros a d; [reflexivity|].
  change (last (a :: x :: l) d) with (last (x :: l) d).
  rewrite (IH x d), (IH x a). reflexivity.
Qed.

Lemma idle_scan_keeps (ms : list MetricPoint) :
  forall (st : idle_state) (b : Z),
    StronglySorted Z.le (map timestamp ms) ->
    Forall (fun t => (b <= t)%Z) (map timestamp ms) ->
    idle_scan_good b st ->
    idle_scan_good (last (map timestamp ms) b)
      (fold_left (idle_step self) ms st).
Proof.
  induction ms as [|p ms IH]; intros st b Hs Hb Hgood; [exact Hgood|].
  cbn [map] in *. rewrite last_cons_default. cbn [fold_left].
  apply StronglySorted_inv in Hs. destruct Hs as [Hs Hp].
  apply Forall_inv in Hb.
  apply IH; [exact Hs | exact Hp |].
  destruct st as [[periods in_idle] idle_start].
  destruct Hgood as [Hwf Hopen]. unfold idle_step.
  destruct (Py.ltb (value p) (IDLE_THRESHOLD_CPU self)).
  - destruct in_idle; cbn [negb].
    + split; [exact Hwf|]. intros _.
      destruct (Hopen eq_refl) as (s & -> & Hsb). exists s. split; [reflexivity | lia].
    + split; [exact Hwf|]. intros _. exists (timestamp p).
      split; [reflexivity | lia].
  - destruct in_idle.
    + split; [|discriminate].
      destruct (Hopen eq_refl) as (s & -> & Hsb).
      apply Forall_app. split; [exact Hwf|].
      apply Forall_cons; [cbn; lia | apply Forall_nil].
    + split; [exact Hwf | discriminate].
Qed.

Lemma last_timestamp_map (ms : list MetricPoint) (b : Z) :
  ms <> [] -> last_timestamp ms = last (map timestamp ms) b.
Proof.
  unfold last_timestamp. intros Hne.
  destruct ms as [|p ms]; [congruence|]. clear Hne. revert p.
  induction ms as [|q ms IH]; intros p; [reflexivity|].
  change (last (p :: q :: ms) (mkMetricPoint 0 0))
    with (last (q :: ms) (mkMetricPoint 0 0)).
  change (last (map timestamp (p :: q :: ms)) b)
    with (last (map timestamp (q :: ms)) b).
  apply IH.
Qed.

Lemma hours_of_nonneg (d : Z) : (0 <= d)%Z -> 0 <= hours_of d.
Proof.
  intros Hd. unfold hours_of, Py.total_seconds, Py.us_per_second.
  apply IZR_le in Hd.
  apply Rmult_le_pos; [|lra].
  apply Rmult_le_pos; [exact Hd | lra].
Qed.

Lemma idle_periods_scanned (ms : list MetricPoint) :
  time_sorted ms ->
  Forall (fun se => (fst se <= snd se)%Z)
    (idle_periods (_analyze_idle_pattern self ms))
  /\ avg_idle_duration_hours (_analyze_idle_pattern self ms)
     = match idle_periods (_analyze_idle_pattern self ms) with
       | [] => 0
       | ps => Py.mean (map (fun se => hours_of (snd se - fst se)) ps)
       end
  /\ max_idle_duration_hours (_analyze_idle_pattern self ms)
     = match idle_periods (_analyze_idle_pattern self ms) with
       | [] => 0
       | ps => Py.max_list (map (fun se => hours_of (snd se - fst se)) ps)
       end.
Proof.
  intros Hs. unfold _analyze_idle_pattern.
  destruct ms as [|p tl] eqn:E; [repeat split; apply Forall_nil|].
  rewrite <- E in *.
  assert (Hne : ms <> []) by (rewrite E; discriminate).
  pose proof (idle_scan_keeps ms ([], false, None) (timestamp p) Hs) as Hk.
  rewrite <- (last_timestamp_map ms (timestamp p) Hne) in Hk.
  assert (Hb : Forall (fun t => (timestamp p <= t)%Z) (map timestamp ms)).
  { rewrite E. cbn [map]. unfold time_sorted in Hs. rewrite E in Hs.
    cbn [map] in Hs. apply StronglySorted_inv in Hs.
    apply Forall_cons; [lia | apply Hs]. }
  assert (H0 : idle_scan_good (timestamp p) ([], false, None))
    by (split; [apply Forall_nil | discriminate]).
  specialize (Hk Hb H0). clear H0.
  destruct (fold_left _ _ _) as [[periods in_idle] idle_start].
  destruct Hk as [Hwf Hopen].
  set (closed := match in_idle, idle_start with
                 | true, Some s => periods ++ [(s, last_timestamp ms)]
                 | _, _ => periods
                 end).
  assert (Hclosed : Forall (fun se => (fst se <= snd se)%Z) closed).
  { unfold closed. destruct in_idle; [|exact Hwf].
    destruct (Hopen eq_refl) as (s & -> & Hsb).
    apply Forall_app. split; [exact Hwf|].
    apply Forall_cons; [exact Hsb | apply Forall_nil]. }
  destruct closed as [|c cs]; cbn; repeat split; assumption.
Qed.

End IdlePeriods.

Lemma idle_share_bounds (self : Patterns.PatternDetector)
    (metrics : list Patterns.MetricPoint) :
  0 <= Patterns.idle_percent (Patterns._analyze_idle_pattern self metrics) <= 100
  /\ (Patterns.is_idle_dominant (Patterns._analyze_idle_pattern self metrics) = true
      <-> 70 < Patterns.idle_percent
                 (Patterns._analyze_idle_pattern self metrics)).
Proof.
  destruct metrics as [|m ms].
  - cbn. split; [lra|]. split; [discriminate | lra].
  - destruct (idle_pattern_fields self (m :: ms)) as [Hp Hd]; [discriminate|].
    rewrite Hd, Hp. split; [apply filter_share; discriminate|].
    apply gtb_iff.
Qed.

(** X4: the idle share is a percentage, and the series is idle-dominant
    exactly when the share exceeds 70, whatever the idle threshold. *)
Theorem idle_percent_range (self : Patterns.PatternDetector)
    (metrics : list Patterns.MetricPoint) :
  let r := Patterns._analyze_idle_pattern self metrics in
  0 <= Patterns.idle_percent r <= 100
  /\ (Patterns.is_idle_dominant r = true <-> 70 < Patterns.idle_percent r).
Proof. intros r. subst r. apply idle_share_bounds. Qed.

(** X5: on a series in order of time every idle period ends no earlier
    than it starts, and the average idle duration is non-negative and at
    most the longest one. *)
Theorem idle_periods_well_formed (self : Patterns.PatternDetector)
    (metrics : list Patterns.MetricPoint) :
  time_sorted metrics ->
  let r := Patterns._analyze_idle_pattern self metrics in
  Forall (fun se => (fst se <= snd se)%Z) (Patterns.idle_periods r)
  /\ 0 <= Patterns.avg_idle_duration_hours r
     <= Patterns.max_idle_duration_hours r.
Proof.
  intros Hs r. subst r.
  destruct (idle_periods_scanned self metrics Hs) as (Hwf & Havg & Hmax).
  split; [exact Hwf|]. rewrite Havg, Hmax.
  destruct (Patterns.idle_periods _) as [|c cs] eqn:E; [lra|].
  rewrite <- E in *. 
  set (ds := map (fun se => Patterns.hours_of (snd se - fst se))
               (Patterns.idle_periods (Patterns._analyze_idle_pattern self metrics))).
  assert (Hne : ds <> []) by (unfold ds; rewrite E; discriminate).
  apply mean_bounds; [exact Hne|].
  apply Forall_forall. intros x Hx. split; [|apply max_list_ge, Hx].
  unfold ds in Hx. apply in_map_iff in Hx. destruct Hx as (se & <- & Hse).
  apply hours_of_nonneg.
  rewrite Forall_forall in Hwf. specialize (Hwf se Hse). lia.
Qed.

Lemma idle_periods_well_formed_witness :
  let metrics :=
    [Patterns.mkMetricPoint 0 2; Patterns.mkMetricPoint 3600000000 3;
     Patterns.mkMetricPoint 7200000000 50; Patterns.mkMetricPoint 10800000000 1] in
  time_sorted metrics
  /\ (let r := Patterns._analyze_idle_pattern Patterns.class_defaults metrics in
      Forall (fun se => (fst se <= snd se)%Z) (Patterns.idle_periods r)
      /\ 0 <= Patterns.avg_idle_duration_hours r
         <= Patterns.max_idle_duration_hours r).
Proof.
  assert (Hs : time_sorted
    [Patterns.mkMetricPoint 0 2; Patterns.mkMetricPoint 3600000000 3;
     Patterns.mkMetricPoint 7200000000 50; Patterns.mkMetricPoint 10800000000 1]).
  { unfold time_sorted. cbn [map Patterns.timestamp].
    repeat (apply SSorted_cons;
            [|repeat (apply Forall_cons; [lia|]); apply Forall_nil]).
    apply SSorted_nil. }
  split; [exact Hs | apply idle_periods_well_formed, Hs].
Defined.

(** ** Bursts *)

Section Bursts.

Import Patterns.

Variable self : PatternDetector.

Lemma burst_scan_keeps (threshold : R) (ms : list MetricPoint) :
  forall st : burst_state,
    burst_scan_good threshold st ->
    burst_scan_good threshold (fold_left (burst_step threshold) ms st).
Proof.
  induction ms as [|p ms IH]; intros st Hgood; [exact Hgood|].
  cbn [fold_left]. apply IH.
  destruct st as [[[periods in_burst] burst_start] burst_peak].
  destruct Hgood as [Hwf Hopen]. unfold burst_step.
  destruct (Py.gtb (value p) threshold) eqn:Hv.
  - apply gtb_iff in Hv. destruct in_burst; cbn [negb].
    + split; [exact Hwf|]. intros _. specialize (Hopen eq_refl).
      pose proof (Rmax_l burst_peak (value p)). lra.
    + split; [exact Hwf|]. intros _. exact Hv.
  - destruct in_burst.
    + split; [|discriminate]. apply Forall_app. split; [exact Hwf|].
      apply Forall_cons; [exact (Hopen eq_refl) | apply Forall_nil].
    + split; [exact Hwf | discriminate].
Qed.

Lemma burst_scan_quiet (threshold : R) (ms : list MetricPoint) :
  Forall (fun p => value p <= threshold) ms ->
  fold_left (burst_step threshold) ms ([], false, None, 0)
  = ([], false, None, 0).
Proof.
  induction 1 as [|p ms Hp _ IH]; [reflexivity|].
  cbn [fold_left]. unfold burst_step at 2.
  replace (Py.gtb (value p) threshold) with false
    by (symmetry; apply gtb_false_iff; lra).
  exact IH.
Qed.

(** The reported bursts are the scanned ones that last long enough, and
    the three figures drawn from them. *)
Lemma burst_pattern_fields (ms : list MetricPoint) :
  (10 <= length ms)%nat ->
  let threshold :=
    Rmax (Py._percentile (values ms) 25 * BURST_THRESHOLD_MULTIPLIER self) 20 in
  let min_duration :=
    (MIN_BURST_DURATION_MINUTES self * 60 * Py.us_per_second)%Z in
  exists scanned,
    Forall (fun b => threshold < snd b) scanned
    /\ (Forall (fun p => value p <= threshold) ms -> scanned = [])
    /\ burst_periods (_analyze_burst_pattern self ms)
       = filter (fun b => (min_duration <=? snd (fst b) - fst (fst b))%Z)
           scanned
    /\ burst_count (_analyze_burst_pattern self ms)
       = length (burst_periods (_analyze_burst_pattern self ms))
    /\ (is_bursty (_analyze_burst_pattern self ms) = true ->
        (3 <= burst_count (_analyze_burst_pattern self ms))%nat
        /\ 2.0 < avg_burst_intensity (_analyze_burst_pattern self ms)).
Proof.
  intros Hlen threshold min_duration. unfold _analyze_burst_pattern.
  replace (length ms <? 10)%nat with false
    by (symmetry; apply Nat.ltb_ge; exact Hlen).
  cbv zeta. fold threshold. fold min_duration.
  pose proof (burst_scan_keeps threshold ms ([], false, None, 0)) as Hk.
  pose proof (burst_scan_quiet threshold ms) as Hq.
  destruct (fold_left _ _ _) as [[[periods in_burst] burst_start] burst_peak].
  assert (H0 : burst_scan_good threshold ([], false, None, 0))
    by (split; [apply Forall_nil | discriminate]).
  specialize (Hk H0). clear H0. destruct Hk as [Hwf Hopen].
  set (closed := match in_burst, burst_start with
                 | true, Some s => periods ++ [(s, last_timestamp ms, burst_peak)]
                 | _, _ => periods
                 end).
  exists closed.
  match goal with
  | |- context [let '(_, _) := ?e in _] => destruct e as [[a b] c]
  end.
  cbn [burst_periods burst_count is_bursty avg_burst_intensity].
  split; [|split; [|split; [reflexivity | split; [reflexivity|]]]].
  - unfold closed. destruct in_burst; [|exact Hwf].
    destruct burst_start; [|exact Hwf].
    apply Forall_app. split; [exact Hwf|].
    apply Forall_cons; [exact (Hopen eq_refl) | apply Forall_nil].
  - intros Hall. specialize (Hq Hall). unfold closed.
    injection Hq as -> -> -> ->. reflexivity.
  - intros Hb. apply andb_prop in Hb. destruct Hb as [Hb _].
    apply andb_prop in Hb. destruct Hb as [Hb Hi].
    apply Nat.leb_le in Hb. apply gtb_iff in Hi. split; assumption.
Qed.

End Bursts.

(** X6: whatever the detector's settings, every reported burst lasts at
    least the minimum burst duration and peaks above 20, the count is the
    number of reported bursts, and a series is bursty only with three
    bursts or more. *)
Theorem reported_bursts (self : Patterns.PatternDetector)
    (metrics : list Patterns.MetricPoint) :
  let r := Patterns._analyze_burst_pattern self metrics in
  Patterns.burst_count r = length (Patterns.burst_periods r)
  /\ Forall (fun b =>
               (Patterns.MIN_BURST_DURATION_MINUTES self * 60 * Py.us_per_second
                <= snd (fst b) - fst (fst b))%Z
               /\ 20 < snd b) (Patterns.burst_periods r)
  /\ (Patterns.is_bursty r = true -> (3 <= Patterns.burst_count r)%nat).
Proof.
  intros r. subst r.
  destruct (Nat.lt_ge_cases (length metrics) 10) as [Hshort | Hlong].
  - unfold Patterns._analyze_burst_pattern.
    replace (length metrics <? 10)%nat with true
      by (symmetry; apply Nat.ltb_lt; exact Hshort).
    cbn. repeat split; [apply Forall_nil | discriminate].
  - destruct (burst_pattern_fields self metrics Hlong)
      as (scanned & Hpeak & _ & Hper & Hcount & Hbursty).
    split; [exact Hcount|]. split; [|intros Hb; apply Hbursty, Hb].
    rewrite Hper. apply Forall_forall. intros b Hb.
    apply filter_In in Hb. destruct Hb as [Hb Hd].
    apply Z.leb_le in Hd. split; [exact Hd|].
    rewrite Forall_forall in Hpeak. specialize (Hpeak b Hb).
    pose proof (Rmax_r (Py._percentile (Patterns.values metrics) 25
                        * Patterns.BURST_THRESHOLD_MULTIPLIER self) 20).
    lra.
Qed.

(** X7: whatever the detector's settings, a series that never exceeds 20
    has no burst and is not bursty. *)
Theorem no_burst_up_to_20 (self : Patterns.PatternDetector)
    (metrics : list Patterns.MetricPoint) :
  Forall (fun p => Patterns.value p <= 20) metrics ->
  let r := Patterns._analyze_burst_pattern self metrics in
  Patterns.burst_periods r = []
  /\ Patterns.burst_count r = 0%nat
  /\ Patterns.is_bursty r = false.
Proof.
  intros Hlow r. subst r.
  destruct (Nat.lt_ge_cases (length metrics) 10) as [Hshort | Hlong].
  - unfold Patterns._analyze_burst_pattern.
    replace (length metrics <? 10)%nat with true
      by (symmetry; apply Nat.ltb_lt; exact Hshort).
    cbn. repeat split.
  - destruct (burst_pattern_fields self metrics Hlong)
      as (scanned & _ & Hquiet & Hper & Hcount & Hbursty).
    assert (Hs : scanned = []).
    { apply Hquiet. apply Forall_forall. intros p Hp.
      rewrite Forall_forall in Hlow. specialize (Hlow p Hp).
      pose proof (Rmax_r (Py._percentile (Patterns.values metrics) 25
                          * Patterns.BURST_THRESHOLD_MULTIPLIER self) 20).
      lra. }
    subst scanned. cbn [filter] in Hper.
    rewrite Hper in Hcount. cbn [length] in Hcount.
    split; [exact Hper|]. split; [exact Hcount|].
    destruct (Patterns.is_bursty _); [|reflexivity].
    destruct (Hbursty eq_refl) as [Hthree _]. lia.
Qed.

Lemma no_burst_up_to_20_witness :
  let metrics := map (Patterns.mkMetricPoint 0) (repeat 20 12) in
  Forall (fun p => Patterns.value p <= 20) metrics
  /\ (let r := Patterns._analyze_burst_pattern Patterns.class_defaults metrics in
      Patterns.burst_periods r = []
      /\ Patterns.burst_count r = 0%nat
      /\ Patterns.is_bursty r = false).
Proof.
  assert (H : Forall (fun p => Patterns.value p <= 20)
                (map (Patterns.mkMetricPoint 0) (repeat 20 12))).
  { cbn [repeat map]. repeat (apply Forall_cons; [cbn; lra|]). apply Forall_nil. }
  split; [exact H | apply no_burst_up_to_20, H].
Defined.

(** ** The primary pattern and its confidence *)

Section PrimaryConfidence.

Import Patterns.

Variable idle : IdlePattern.
Variable burst : BurstPattern.
Variable diurnal : DiurnalPattern.
Variable weekly : WeeklyPattern.
Variable trend : TrendPattern.

Lemma candidate_scores_read :
  forall q, In q candidates ->
    get_score q (pattern_scores idle burst diurnal weekly trend)
    = match q with
      | IDLE_DOMINANT => idle_score idle
      | STEADY_STATE => steady_score idle burst diurnal
      | BURSTY => bursty_score burst
      | DIURNAL => diurnal_score diurnal
      | WEEKLY => weekly_score weekly
      | BATCH => batch_score burst diurnal weekly
      | GROWING => growing_score trend
      | DECLINING => declining_score trend
      | ERRATIC => 0
      end.
Proof.
  intros q Hq. rewrite pattern_scores_entries. simpl in Hq.
  repeat (destruct Hq as [<- | Hq]; [reflexivity|]). contradiction.
Qed.

(** The pattern the maximum picks is a candidate, and no candidate scores
    more. *)
Lemma best_pattern_maximal :
  maximal (pattern_scores idle burst diurnal weekly trend)
    (Py.argmax ERRATIC (pattern_scores idle burst diurnal weekly trend)).
Proof.
  destruct (argmax_first_max ERRATIC
              (pattern_scores idle burst diurnal weekly trend))
    as (pre & v & post & HL & Hpre & Hpost);
    [rewrite pattern_scores_entries; discriminate|].
  set (k := Py.argmax ERRATIC (pattern_scores idle burst diurnal weekly trend))
    in *.
  clearbody k. rewrite pattern_scores_entries in *.
  assert (Hk : In k candidates) by (clear - HL; split_position HL; simpl; tauto).
  split; [exact Hk|]. intros q Hq.
  split_position HL; forall_hyps;
    simpl in Hq; unfold get_score;
    repeat (destruct Hq as [<- | Hq]; [simpl; lra|]); contradiction.
Qed.

End PrimaryConfidence.

(** X8: [_determine_primary_pattern] answers [ERRATIC], with confidence
    0.5, exactly when every candidate scores below 0.4; otherwise it answers
    a candidate of largest score, with that score as confidence. *)
Theorem primary_pattern_confidence (self : Patterns.PatternDetector)
    (idle : Patterns.IdlePattern) (burst : Patterns.BurstPattern)
    (diurnal : Patterns.DiurnalPattern) (weekly : Patterns.WeeklyPattern)
    (trend : Patterns.TrendPattern) :
  let scores := Patterns.pattern_scores idle burst diurnal weekly trend in
  let r := Patterns._determine_primary_pattern self idle burst diurnal weekly
             trend in
  (fst r = Patterns.ERRATIC
   <-> forall q, In q candidates -> Patterns.get_score q scores < 0.4)
  /\ (fst r = Patterns.ERRATIC -> snd r = 0.5)
  /\ (fst r <> Patterns.ERRATIC ->
      maximal scores (fst r)
      /\ snd r = Patterns.get_score (fst r) scores
      /\ 0.4 <= snd r).
Proof.
  intros scores r. subst r.
  pose proof (best_pattern_maximal idle burst diurnal weekly trend) as Hmax.
  fold scores in Hmax.
  unfold Patterns._determine_primary_pattern. fold scores.
  set (k := Py.argmax Patterns.ERRATIC scores) in *.
  destruct Hmax as [Hk Hmax].
  assert (Hne : k <> Patterns.ERRATIC).
  { intros E. rewrite E in Hk. simpl in Hk. intuition discriminate. }
  destruct (Py.ltb (Patterns.get_score k scores) 0.4) eqn:E; cbn [fst snd].
  - apply ltb_iff in E. split; [|split; [reflexivity | congruence]].
    split; [|reflexivity]. intros _ q Hq. specialize (Hmax q Hq). lra.
  - apply ltb_false_iff in E. split; [|split; [congruence|]].
    + split; [congruence|]. intros Hall. specialize (Hall k Hk). lra.
    + intros _. split; [split; assumption|]. split; [reflexivity | lra].
Qed.

Section AnalyzeRange.

Import Patterns.

Lemma diurnal_flag (self : PatternDetector) (ms : list MetricPoint) :
  DIURNAL_SIGNIFICANCE self = 1.5 ->
  has_diurnal_pattern (_analyze_diurnal_pattern self ms) = true
  \/ peak_to_trough_ratio (_analyze_diurnal_pattern self ms) < 1.5.
Proof.
  intros Hsig. unfold _analyze_diurnal_pattern.
  destruct (length ms <? 48)%nat; [right; cbn; lra|].
  cbv zeta. cbn [has_diurnal_pattern peak_to_trough_ratio]. rewrite Hsig.
  match goal with
  | |- Py.geb ?r 1.5 = true \/ _ => destruct (Py.geb r 1.5) eqn:E
  end; [left; reflexivity | right; apply geb_false_iff in E; lra].
Qed.

Lemma init_significance (config : option Config) :
  DIURNAL_SIGNIFICANCE (__init__ config) = 1.5.
Proof. destruct config; reflexivity. Qed.

Lemma bursty_intensity (self : PatternDetector) (ms : list MetricPoint) :
  is_bursty (_analyze_burst_pattern self ms) = true ->
  2.0 < avg_burst_intensity (_analyze_burst_pattern self ms).
Proof.
  intros Hb. destruct (Nat.lt_ge_cases (length ms) 10) as [Hshort | Hlong].
  - unfold _analyze_burst_pattern in Hb.
    replace (length ms <? 10)%nat with true in Hb
      by (symmetry; apply Nat.ltb_lt; exact Hshort).
    discriminate Hb.
  - destruct (burst_pattern_fields self ms Hlong) as (_ & _ & _ & _ & _ & H).
    apply H, Hb.
Qed.

(** Some candidate scores 0.5 or more, and none more than 1.1. *)
Lemma analyze_scores_range (self : PatternDetector) (cpu : list MetricPoint) :
  DIURNAL_SIGNIFICANCE self = 1.5 ->
  let scores :=
    pattern_scores (_analyze_idle_pattern self cpu)
      (_analyze_burst_pattern self cpu) (_analyze_diurnal_pattern self cpu)
      (_analyze_weekly_pattern self cpu) (_analyze_trend self cpu) in
  (exists q, In q candidates /\ 0.5 <= get_score q scores)
  /\ forall q, In q candidates -> get_score q scores <= 1.1.
Proof.
  intros Hsig scores. subst scores.
  set (idle := _analyze_idle_pattern self cpu).
  set (burst := _analyze_burst_pattern self cpu).
  set (diurnal := _analyze_diurnal_pattern self cpu).
  set (weekly := _analyze_weekly_pattern self cpu).
  set (trend := _analyze_trend self cpu).
  pose proof (candidate_scores_read idle burst diurnal weekly trend) as Hread.
  destruct (idle_share_bounds self cpu) as [[_ Hpct] Hdom]. fold idle in Hpct, Hdom.
  split.
  - destruct (is_idle_dominant idle) eqn:Ei.
    + exists IDLE_DOMINANT. split; [simpl; tauto|].
      rewrite Hread by (simpl; tauto). unfold idle_score. rewrite Ei.
      assert (70 < idle_percent idle) by (apply Hdom; reflexivity). lra.
    + destruct (is_bursty burst) eqn:Eb.
      * exists BURSTY. split; [simpl; tauto|].
        rewrite Hread by (simpl; tauto). unfold bursty_score. rewrite Eb.
        pose proof (bursty_intensity self cpu Eb) as Hint. fold burst in Hint.
        pose proof (pos_INR (burst_count burst)).
        apply Rmin_glb; lra.
      * destruct (diurnal_flag self cpu Hsig) as [Hd | Hr];
          [fold diurnal in Hd | fold diurnal in Hr].
        -- destruct (Py.ltb (peak_to_trough_ratio diurnal) 1.5) eqn:El.
           ++ exists STEADY_STATE. split; [simpl; tauto|].
              rewrite Hread by (simpl; tauto). unfold steady_score.
              rewrite Ei, Eb, El. cbn. lra.
           ++ apply ltb_false_iff in El.
              exists DIURNAL. split; [simpl; tauto|].
              rewrite Hread by (simpl; tauto). unfold diurnal_score.
              rewrite Hd. apply Rmin_glb; lra.
        -- exists STEADY_STATE. split; [simpl; tauto|].
           rewrite Hread by (simpl; tauto). unfold steady_score.
           rewrite Ei, Eb. 
           replace (Py.ltb (peak_to_trough_ratio diurnal) 1.5) with true
             by (symmetry; apply ltb_iff; exact Hr).
           cbn. lra.
  - intros q Hq. rewrite Hread by exact Hq.
    pose proof (bursty_score_le burst).
    pose proof (diurnal_score_le diurnal).
    pose proof (weekly_score_le weekly).
    pose proof (batch_score_le burst diurnal weekly).
    pose proof (steady_score_le idle burst diurnal).
    destruct (trend_scores_le trend) as [Hg Hdec];
      [apply trend_r_squared_le_1|].
    assert (Hidle : idle_score idle <= 1.1).
    { unfold idle_score. destruct (is_idle_dominant idle); lra. }
    simpl in Hq.
    repeat (destruct Hq as [<- | Hq]; [lra|]). contradiction.
Qed.

End AnalyzeRange.

(** C5: for a detector built by the constructor, with or without a
    configuration, and every CPU series, the pattern that
    [_determine_primary_pattern] selects from the sub-analyses of the
    series, which is the primary pattern [analyze] returns, is a candidate
    of largest score, and among the candidates that attain that score (two
    or more when scores tie) it is the one that comes first in the
    declaration order of the enumeration; it is then also the first of them
    in the written order of the dict.  Some candidate always scores 0.5 or
    more on such sub-analyses, so the rule that answers [ERRATIC] below 0.4
    never stands in the way. *)
Theorem primary_pattern_tie_break (config : option Patterns.Config)
    (id : string) (cpu : list Patterns.MetricPoint)
    (mem : option (list Patterns.MetricPoint)) :
  let self := Patterns.__init__ config in
  let idle := Patterns._analyze_idle_pattern self cpu in
  let burst := Patterns._analyze_burst_pattern self cpu in
  let diurnal := Patterns._analyze_diurnal_pattern self cpu in
  let weekly := Patterns._analyze_weekly_pattern self cpu in
  let trend := Patterns._analyze_trend self cpu in
  let scores := Patterns.pattern_scores idle burst diurnal weekly trend in
  let selected :=
    fst (Patterns._determine_primary_pattern self idle burst diurnal weekly
           trend) in
  Patterns.primary_pattern (Patterns.analyze self id cpu mem) = selected
  /\ enum_first_maximal scores selected
  /\ written_first_maximal scores selected.
Proof.
  intros self idle burst diurnal weekly trend scores selected.
  split.
  - pose proof (analyze_primary self id cpu mem) as Hpair.
    apply (f_equal fst) in Hpair. exact Hpair.
  - destruct (analyze_scores_range self cpu (init_significance config))
      as [(q & Hq & Hlow) _].
    apply first_maximal_above_threshold.
    exists q. split; [exact Hq|]. fold idle burst diurnal weekly trend in Hlow.
    lra.
Qed.

(** X9: for a detector built by the constructor, with or without a
    configuration, the analysis of any series never answers [ERRATIC], and
    its confidence lies between 0.5 and 1.1. *)
Theorem analyze_never_erratic (config : option Patterns.Config)
    (id : string) (cpu : list Patterns.MetricPoint)
    (mem : option (list Patterns.MetricPoint)) :
  let r := Patterns.analyze (Patterns.__init__ config) id cpu mem in
  Patterns.primary_pattern r <> Patterns.ERRATIC
  /\ 0.5 <= Patterns.confidence r <= 1.1.
Proof.
  intros r. subst r.
  set (self := Patterns.__init__ config).
  pose proof (analyze_primary self id cpu mem) as Hpair.
  destruct (analyze_scores_range self cpu (init_significance config))
    as [(q & Hq & Hlow) Hhigh].
  pose proof (best_pattern_maximal
                (Patterns._analyze_idle_pattern self cpu)
                (Patterns._analyze_burst_pattern self cpu)
                (Patterns._analyze_diurnal_pattern self cpu)
                (Patterns._analyze_weekly_pattern self cpu)
                (Patterns._analyze_trend self cpu)) as [Hk Hmax].
  unfold Patterns._determine_primary_pattern in Hpair.
  set (scores := Patterns.pattern_scores _ _ _ _ _) in *.
  set (k := Py.argmax Patterns.ERRATIC scores) in *.
  specialize (Hmax q Hq). specialize (Hhigh k Hk).
  replace (Py.ltb (Patterns.get_score k scores) 0.4) with false in Hpair
    by (symmetry; apply ltb_false_iff; lra).
  injection Hpair as Hp Hc. rewrite Hp, Hc.
  split; [|lra].
  intros E. rewrite E in Hk. simpl in Hk. intuition discriminate.
Qed.

(** ** Peak and trough of the hourly and daily buckets *)

Section ArgMin.

Lemma argmin_from_first_min {K : Type} (best : K) (bv : R) (d : list (K * R)) :
  (Py.argmin_from best bv d = best /\ Forall (fun e => bv <= snd e) d)
  \/ exists pre v post,
       d = pre ++ (Py.argmin_from best bv d, v) :: post
       /\ v < bv
       /\ Forall (fun e => v < snd e) pre
       /\ Forall (fun e => v <= snd e) post.
Proof.
  revert best bv. induction d as [|[k v] d IH]; intros best bv; simpl.
  - left. split; [reflexivity | constructor].
  - destruct (Py.ltb v bv) eqn:E.
    + apply ltb_iff in E. right.
      destruct (IH k v) as [[Hk Hall] | (pre & v' & post & Hd & Hlt & Hpre & Hpost)].
      * exists [], v, d. rewrite Hk. simpl.
        split; [reflexivity|]. split; [exact E|]. split; [constructor | exact Hall].
      * exists ((k, v) :: pre), v', post.
        split; [rewrite Hd at 1; reflexivity|]. split; [lra|].
        split; [|exact Hpost].
        constructor; [simpl; lra | exact Hpre].
    + apply ltb_false_iff in E.
      destruct (IH best bv) as [[Hk Hall] | (pre & v' & post & Hd & Hlt & Hpre & Hpost)].
      * left. split; [exact Hk|]. constructor; [exact E | exact Hall].
      * right. exists ((k, v) :: pre), v', post.
        split; [rewrite Hd at 1; reflexivity|]. split; [exact Hlt|].
        split; [|exact Hpost].
        constructor; [simpl; lra | exact Hpre].
Qed.

Lemma argmin_first_min {K : Type} (default : K) (d : list (K * R)) :
  d <> [] ->
  exists pre v post,
    d = pre ++ (Py.argmin default d, v) :: post
    /\ Forall (fun e => v < snd e) pre
    /\ Forall (fun e => v <= snd e) post.
Proof.
  destruct d as [|[k v] d]; [congruence|]. intros _. simpl.
  destruct (argmin_from_first_min k v d)
    as [[Hk Hall] | (pre & v' & post & Hd & Hlt & Hpre & Hpost)].
  - exists [], v, d. rewrite Hk. simpl.
    split; [reflexivity|]. split; [constructor | exact Hall].
  - exists ((k, v) :: pre), v', post.
    split; [rewrite Hd at 1; reflexivity|].
    split; [|exact Hpost].
    constructor; [simpl; lra | exact Hpre].
Qed.

End ArgMin.

Section Buckets.

Import Patterns.

Lemma dict_get_at (k : Z) (v : R) (pre post : list (Z * R)) :
  ~ In k (map fst pre) -> dict_get k (pre ++ (k, v) :: post) = v.
Proof.
  unfold dict_get. induction pre as [|[k' v'] pre IH]; intros Hk; simpl.
  - rewrite Z.eqb_refl. reflexivity.
  - simpl in Hk. destruct (k' =? k)%Z eqn:E.
    + apply Z.eqb_eq in E. tauto.
    + apply IH. tauto.
Qed.

Lemma range_members (n : nat) (k : Z) :
  In k (range n) <-> (0 <= k < Z.of_nat n)%Z.
Proof.
  unfold range. rewrite in_map_iff. split.
  - intros (i & <- & Hi). apply in_seq in Hi. lia.
  - intros Hk. exists (Z.to_nat k). split; [lia|]. apply in_seq. lia.
Qed.

Lemma range_nodup (n : nat) : NoDup (range n).
Proof.
  unfold range. generalize 0%nat as s.
  induction n as [|m IH]; intros s; cbn [seq map]; constructor; [|apply IH].
  intros H. apply in_map_iff in H. destruct H as (i & Hi & Hin).
  apply in_seq in Hin. lia.
Qed.

Variable n : nat.
Variable key : Z -> Z.
Variable ms : list MetricPoint.

Lemma keys_fill_buckets :
  map fst (bucket_averages (fill_buckets n key ms)) = range n.
Proof.
  unfold bucket_averages, fill_buckets. rewrite map_map. cbn [fst].
  change (map (fun x : Z * list R => fst x)) with (@map (Z * list R) Z fst).
  assert (H : forall d,
            map fst (fold_left
                       (fun d point =>
                          dict_append (key (timestamp point)) (value point) d)
                       ms d) = map fst d).
  { induction ms as [|p l IH]; intros d; [reflexivity|].
    cbn [fold_left]. rewrite IH. apply keys_dict_append. }
  rewrite H, map_map. cbn [fst]. apply map_id.
Qed.

Hypothesis some_bucket : (0 < n)%nat.

Lemma buckets_nonempty : bucket_averages (fill_buckets n key ms) <> [].
Proof.
  intros E. pose proof keys_fill_buckets as H. rewrite E in H.
  destruct n; [lia|]. discriminate H.
Qed.

Lemma peak_bucket :
  let averages := bucket_averages (fill_buckets n key ms) in
  (0 <= Py.argmax 0%Z averages < Z.of_nat n)%Z
  /\ Forall (fun kv => snd kv <= dict_get (Py.argmax 0%Z averages) averages)
       averages.
Proof.
  intros averages.
  destruct (argmax_first_max 0%Z averages buckets_nonempty)
    as (pre & v & post & HL & Hpre & Hpost).
  set (k := Py.argmax 0%Z averages) in *. clearbody k.
  pose proof keys_fill_buckets as Hkeys. fold averages in Hkeys.
  pose proof (range_nodup n) as Hnd. rewrite <- Hkeys in Hnd.
  rewrite HL in Hnd, Hkeys |- *.
  rewrite map_app in Hnd. cbn [map fst] in Hnd.
  split.
  - apply range_members. rewrite <- Hkeys, map_app. cbn [map fst].
    apply in_elt.
  - rewrite dict_get_at by (apply NoDup_remove_2 in Hnd;
                            rewrite in_app_iff in Hnd; tauto).
    apply Forall_app. split.
    + eapply Forall_impl; [|exact Hpre]. intros a Ha. cbv beta in Ha. lra.
    + apply Forall_cons; [cbn; lra | exact Hpost].
Qed.

Lemma trough_bucket :
  let averages := bucket_averages (fill_buckets n key ms) in
  (0 <= Py.argmin 0%Z averages < Z.of_nat n)%Z
  /\ Forall (fun kv => dict_get (Py.argmin 0%Z averages) averages <= snd kv)
       averages.
Proof.
  intros averages.
  destruct (argmin_first_min 0%Z averages buckets_nonempty)
    as (pre & v & post & HL & Hpre & Hpost).
  set (k := Py.argmin 0%Z averages) in *. clearbody k.
  pose proof keys_fill_buckets as Hkeys. fold averages in Hkeys.
  pose proof (range_nodup n) as Hnd. rewrite <- Hkeys in Hnd.
  rewrite HL in Hnd, Hkeys |- *.
  rewrite map_app in Hnd. cbn [map fst] in Hnd.
  split.
  - apply range_members. rewrite <- Hkeys, map_app. cbn [map fst].
    apply in_elt.
  - rewrite dict_get_at by (apply NoDup_remove_2 in Hnd;
                            rewrite in_app_iff in Hnd; tauto).
    apply Forall_app. split.
    + eapply Forall_impl; [|exact Hpre]. intros a Ha. cbv beta in Ha. lra.
    + apply Forall_cons; [cbn; lra | exact Hpost].
Qed.

End Buckets.

(** X10: with 48 samples or more, the hourly averages cover the hours 0 to
    23 in order, the peak and the trough hour are among them, no hour's
    average is above the peak hour's or below the trough hour's, and the
    day/night flag is set exactly when the reported ratio reaches the
    significance level. *)
Theorem diurnal_peak_and_trough (self : Patterns.PatternDetector)
    (metrics : list Patterns.MetricPoint) :
  (48 <= length metrics)%nat ->
  let r := Patterns._analyze_diurnal_pattern self metrics in
  map fst (Patterns.hourly_averages r) = Patterns.range 24
  /\ (0 <= Patterns.peak_hour r < 24)%Z
  /\ (0 <= Patterns.trough_hour r < 24)%Z
  /\ Forall (fun kv =>
               Patterns.dict_get (Patterns.trough_hour r)
                 (Patterns.hourly_averages r) <= snd kv
               <= Patterns.dict_get (Patterns.peak_hour r)
                    (Patterns.hourly_averages r))
       (Patterns.hourly_averages r)
  /\ (Patterns.has_diurnal_pattern r = true
      <-> Patterns.DIURNAL_SIGNIFICANCE self <= Patterns.peak_to_trough_ratio r).
Proof.
  intros Hlen r. subst r. unfold Patterns._analyze_diurnal_pattern.
  replace (length metrics <? 48)%nat with false
    by (symmetry; apply Nat.ltb_ge; exact Hlen).
  cbv zeta.
  cbn [Patterns.hourly_averages Patterns.peak_hour Patterns.trough_hour
       Patterns.has_diurnal_pattern Patterns.peak_to_trough_ratio].
  destruct (peak_bucket 24 Py.hour metrics ltac:(lia)) as [Hp Hpeak].
  destruct (trough_bucket 24 Py.hour metrics ltac:(lia)) as [Ht Htrough].
  split; [apply keys_fill_buckets|].
  split; [exact Hp|]. split; [exact Ht|]. split.
  - apply Forall_forall. intros kv Hkv.
    rewrite Forall_forall in Hpeak, Htrough.
    split; [apply Htrough | apply Hpeak]; exact Hkv.
  - apply geb_iff.
Qed.

Lemma diurnal_peak_and_trough_witness :
  let metrics :=
    map (fun i => Patterns.mkMetricPoint (Z.of_nat i * 3600000000) (INR i))
      (seq 0 48) in
  (48 <= length metrics)%nat
  /\ (let r := Patterns._analyze_diurnal_pattern Patterns.class_defaults
                 metrics in
      map fst (Patterns.hourly_averages r) = Patterns.range 24
      /\ (0 <= Patterns.peak_hour r < 24)%Z
      /\ (0 <= Patterns.trough_hour r < 24)%Z
      /\ Forall (fun kv =>
                   Patterns.dict_get (Patterns.trough_hour r)
                     (Patterns.hourly_averages r) <= snd kv
                   <= Patterns.dict_get (Patterns.peak_hour r)
                        (Patterns.hourly_averages r))
           (Patterns.hourly_averages r)
      /\ (Patterns.has_diurnal_pattern r = true
          <-> Patterns.DIURNAL_SIGNIFICANCE Patterns.class_defaults
              <= Patterns.peak_to_trough_ratio r)).
Proof.
  intros metrics.
  assert (H : (48 <= length metrics)%nat)
    by (unfold metrics; rewrite length_map, length_seq; lia).
  split; [exact H | apply diurnal_peak_and_trough, H].
Defined.

(** X11: with 168 samples or more, the daily averages cover the weekdays 0
    (Monday) to 6 in order, the peak and the trough day are among them, and
    no day's average is above the peak day's or below the trough day's. *)
Theorem weekly_peak_and_trough (self : Patterns.PatternDetector)
    (metrics : list Patterns.MetricPoint) :
  (168 <= length metrics)%nat ->
  let r := Patterns._analyze_weekly_pattern self metrics in
  map fst (Patterns.daily_averages r) = Patterns.range 7
  /\ (0 <= Patterns.peak_day r < 7)%Z
  /\ (0 <= Patterns.trough_day r < 7)%Z
  /\ Forall (fun kv =>
               Patterns.dict_get (Patterns.trough_day r)
                 (Patterns.daily_averages r) <= snd kv
               <= Patterns.dict_get (Patterns.peak_day r)
                    (Patterns.daily_averages r))
       (Patterns.daily_averages r).
Proof.
  intros Hlen r. subst r. unfold Patterns._analyze_weekly_pattern.
  replace (length metrics <? 168)%nat with false
    by (symmetry; apply Nat.ltb_ge; exact Hlen).
  cbv zeta.
  cbn [Patterns.daily_averages Patterns.peak_day Patterns.trough_day].
  destruct (peak_bucket 7 Py.weekday metrics ltac:(lia)) as [Hp Hpeak].
  destruct (trough_bucket 7 Py.weekday metrics ltac:(lia)) as [Ht Htrough].
  split; [apply keys_fill_buckets|].
  split; [exact Hp|]. split; [exact Ht|].
  apply Forall_forall. intros kv Hkv.
  rewrite Forall_forall in Hpeak, Htrough.
  split; [apply Htrough | apply Hpeak]; exact Hkv.
Qed.

Lemma weekly_peak_and_trough_witness :
  let metrics :=
    map (fun i => Patterns.mkMetricPoint (Z.of_nat i * 3600000000) (INR i))
      (seq 0 168) in
  (168 <= length metrics)%nat
  /\ (let r := Patterns._analyze_weekly_pattern Patterns.class_defaults
                 metrics in
      map fst (Patterns.daily_averages r) = Patterns.range 7
      /\ (0 <= Patterns.peak_day r < 7)%Z
      /\ (0 <= Patterns.trough_day r < 7)%Z
      /\ Forall (fun kv =>
                   Patterns.dict_get (Patterns.trough_day r)
                     (Patterns.daily_averages r) <= snd kv
                   <= Patterns.dict_get (Patterns.peak_day r)
                        (Patterns.daily_averages r))
           (Patterns.daily_averages r)).
Proof.
  intros metrics.
  assert (H : (168 <= length metrics)%nat)
    by (unfold metrics; rewrite length_map, length_seq; lia).
  split; [exact H | apply weekly_peak_and_trough, H].
Defined.

(** ** Trend *)

Section Trend.

Import Patterns.

Lemma mean_indices (n : nat) :
  (0 < n)%nat -> Py.mean (map INR (seq 0 n)) = (INR n - 1) / 2.
Proof.
  intros Hn. unfold Py.mean, Py.len. rewrite length_map, length_seq.
  change (Py.sum (map INR (seq 0 n))) with (sum_range n INR).
  rewrite sum_range_INR.
  assert (0 < INR n) by (apply lt_0_INR; exact Hn).
  field. lra.
Qed.

Lemma trend_slope_fitted (self : PatternDetector) (ms : list MetricPoint) :
  (48 <= length ms)%nat ->
  (3 <= distinct_days ms)%nat ->
  slope_per_day (_analyze_trend self ms) = daily_slope ms.
Proof.
  intros Hlen Hdays. unfold _analyze_trend.
  replace (length ms <? 48)%nat with false
    by (symmetry; apply Nat.ltb_ge; exact Hlen).
  rewrite <- daily_means_length in Hdays.
  replace (length (daily_means ms) <? 3)%nat with false
    by (symmetry; apply Nat.ltb_ge; exact Hdays).
  cbv zeta. cbn [slope_per_day].
  rewrite mean_indices by lia.
  assert (H2 : (2 <= length (daily_means ms))%nat) by lia.
  pose proof (index_spread_pos _ H2) as Hpos.
  replace (Py.eqb _ 0) with false by (symmetry; apply eqb_false_iff; lra).
  rewrite (leak_slope_is_ols _ H2). apply daily_slope_of_means.
Qed.

Lemma direction_of_slope (slope : R) :
  let direction :=
    if Py.ltb (Rabs slope) 0.5 then "stable"%string
    else if Py.gtb slope 0 then "growing"%string
    else "declining"%string in
  (direction = "stable"%string <-> Rabs slope < 0.5)
  /\ (direction = "growing"%string <-> 0.5 <= slope)
  /\ (direction = "declining"%string <-> slope <= -0.5).
Proof.
  intros direction. subst direction.
  destruct (Py.ltb (Rabs slope) 0.5) eqn:Ea.
  - apply ltb_iff in Ea. split; [tauto|].
    unfold Rabs in Ea. destruct (Rcase_abs slope);
      (split; (split; [discriminate | lra])).
  - apply ltb_false_iff in Ea.
    destruct (Py.gtb slope 0) eqn:Eg.
    + apply gtb_iff in Eg. rewrite Rabs_pos_eq in Ea |- * by lra.
      split; [split; [discriminate | lra]|].
      split; [split; [lra | reflexivity]|].
      split; [discriminate | lra].
    + apply gtb_false_iff in Eg.
      rewrite Rabs_left1 in Ea |- * by lra.
      split; [split; [discriminate | lra]|].
      split; [split; [discriminate | lra]|].
      split; [lra | reflexivity].
Qed.

End Trend.

(** X12: for every series, the coefficient of determination of the trend
    lies in [0, 1], and the direction agrees with the slope: stable when
    the slope is within half a point a day, growing at half a point or more,
    declining at minus half a point or less. *)
Theorem trend_direction_agrees (self : Patterns.PatternDetector)
    (metrics : list Patterns.MetricPoint) :
  let r := Patterns._analyze_trend self metrics in
  0 <= Patterns.r_squared r <= 1
  /\ (Patterns.direction r = "stable"%string
      <-> Rabs (Patterns.slope_per_day r) < 0.5)
  /\ (Patterns.direction r = "growing"%string
      <-> 0.5 <= Patterns.slope_per_day r)
  /\ (Patterns.direction r = "declining"%string
      <-> Patterns.slope_per_day r <= -0.5).
Proof.
  intros r. subst r.
  pose proof (trend_r_squared_le_1 self metrics) as Hle.
  unfold Patterns._analyze_trend in *.
  assert (Hflat : 0 <= 0 <= 1
            /\ ("stable"%string = "stable"%string <-> Rabs 0 < 0.5)
            /\ ("stable"%string = "growing"%string <-> 0.5 <= 0)
            /\ ("stable"%string = "declining"%string <-> 0 <= -0.5)).
  { rewrite Rabs_R0. split; [lra|].
    split; [split; [lra | reflexivity]|].
    split; (split; [discriminate | lra]). }
  destruct (length metrics <? 48)%nat; [exact Hflat|].
  destruct (length (Patterns.daily_means metrics) <? 3)%nat; [exact Hflat|].
  cbv zeta in *.
  cbn [Patterns.r_squared Patterns.direction Patterns.slope_per_day] in *.
  split; [split; [apply Rmax_l | exact Hle]|].
  apply direction_of_slope.
Qed.

(** X13: with 48 samples or more on three days or more, the slope the
    trend analysis reports is the least-squares slope of the daily means,
    each the mean of the samples of its day, over the index of the day. *)
Theorem trend_slope_is_daily_slope (self : Patterns.PatternDetector)
    (metrics : list Patterns.MetricPoint) :
  (48 <= length metrics)%nat ->
  (3 <= distinct_days metrics)%nat ->
  Patterns.slope_per_day (Patterns._analyze_trend self metrics)
  = daily_slope metrics.
Proof. apply trend_slope_fitted. Qed.

(** The theorem at the rising series: the trend is of 10 percent a day and
    growing. *)
Lemma trend_slope_is_daily_slope_witness :
  (48 <= length rising_days)%nat
  /\ (3 <= distinct_days rising_days)%nat
  /\ Patterns.slope_per_day
       (Patterns._analyze_trend Patterns.class_defaults rising_days)
     = daily_slope rising_days
  /\ Patterns.slope_per_day
       (Patterns._analyze_trend Patterns.class_defaults rising_days) = 10.
Proof.
  assert (H1 : (48 <= length rising_days)%nat).
  { unfold rising_days. rewrite length_map, length_seq. lia. }
  assert (H2 : (3 <= distinct_days rising_days)%nat) by (vm_compute; lia).
  split; [exact H1|]. split; [exact H2|].
  split; [exact (trend_slope_is_daily_slope Patterns.class_defaults
                   rising_days H1 H2)|].
  rewrite (trend_slope_is_daily_slope Patterns.class_defaults rising_days H1 H2).
  apply rising_days_slope.
Defined.

(** ** Memory *)

(** X14: for every memory series, the average utilisation lies between the
    least and the greatest, the pressure events are no more than the
    samples, a reported leak rate is above 0.5 points a day, and a leak is
    flagged exactly when a rate is reported that exceeds the leak
    threshold. *)
Theorem memory_pattern_invariants (self : Patterns.PatternDetector)
    (metrics : list Patterns.MetricPoint) :
  let r := Patterns._analyze_memory_pattern self metrics in
  Patterns.min_utilization r <= Patterns.avg_utilization r
    <= Patterns.max_utilization r
  /\ (Patterns.memory_pressure_events r <= length metrics)%nat
  /\ (forall rate, Patterns.leak_rate_percent_per_day r = Some rate ->
                   0.5 < rate)
  /\ (Patterns.has_memory_leak r = true
      <-> exists rate, Patterns.leak_rate_percent_per_day r = Some rate
                       /\ Patterns.MEMORY_LEAK_THRESHOLD self < rate).
Proof.
  intros r. subst r. unfold Patterns._analyze_memory_pattern.
  destruct metrics as [|m ms] eqn:E.
  - cbn. split; [lra|]. split; [lia|]. split; [discriminate|].
    split; [discriminate | intros (rate & H & _); discriminate].
  - rewrite <- E. assert (Hne : Patterns.values metrics <> [])
      by (rewrite E; discriminate).
    cbv zeta.
    cbn [Patterns.min_utilization Patterns.avg_utilization
         Patterns.max_utilization Patterns.memory_pressure_events
         Patterns.leak_rate_percent_per_day Patterns.has_memory_leak].
    split; [apply mean_bounds; [exact Hne | apply members_within_extremes]|].
    split.
    { etransitivity; [apply filter_length_le|].
      unfold Patterns.values. rewrite length_map. apply Nat.le_refl. }
    split.
    + intros rate. unfold Patterns._detect_memory_leak.
      destruct (length metrics <? 48)%nat; [discriminate|].
      destruct (length (Patterns.daily_means metrics) <? 3)%nat; [discriminate|].
      cbv zeta. destruct (Py.eqb _ 0); [discriminate|].
      match goal with
      | |- (if Py.gtb ?s 0.5 then _ else _) = _ -> _ =>
          destruct (Py.gtb s 0.5) eqn:Es; [|discriminate];
          apply gtb_iff in Es; intros H; injection H as <-; exact Es
      end.
    + destruct (Patterns._detect_memory_leak self metrics) as [rate|].
      * rewrite gtb_iff. split.
        -- intros H. exists rate. split; [reflexivity | exact H].
        -- intros (rate' & H & Hr). injection H as <-. exact Hr.
      * split; [discriminate | intros (rate & H & _); discriminate].
Qed.

(** ** The score of each candidate and the winner of [classify] *)

Section ScoreCaps.

Import Workload.

Variable self : WorkloadClassifier.
Variable metrics : CloudWatchMetrics.
Variable stats : Stats.

Lemma lambda_score_cap : _score_lambda_candidate self metrics stats <= 1.
Proof.
  unfold _score_lambda_candidate.
  destruct (Py.leb _ (LAMBDA_MAX_AVG_CPU self)),
    (Py.geb _ (LAMBDA_MIN_IDLE_PERCENT self)),
    (Py.geb _ (LAMBDA_MIN_BURST_RATIO self)), (Py.ltb _ 100),
    (has_persistent_storage metrics), (in_auto_scaling_group metrics),
    (Py.gtb _ 80);
    apply Rmax_lub; lra.
Qed.

Lemma fargate_score_cap : _score_fargate_candidate self metrics stats <= 1.
Proof.
  unfold _score_fargate_candidate.
  destruct (_ && _), (Py.leb _ (FARGATE_MAX_CPU_STDDEV self)),
    (Py.geb _ (FARGATE_MIN_UPTIME_PERCENT self)), (Py.ltb _ 15), (_ || _),
    (in_auto_scaling_group metrics), (Py.gtb _ 1000);
    apply Rmax_lub; lra.
Qed.

Lemma spot_score_cap : _score_spot_candidate self metrics stats <= 1.
Proof.
  unfold _score_spot_candidate.
  destruct (Py.gtb _ 1.0), (_detect_periodic_pattern _ _), (_ && _),
    (Py.gtb _ 70), (Py.ltb _ 10000), (30 <? instance_age_days metrics)%Z,
    (has_elastic_ip metrics);
    apply Rmax_lub; lra.
Qed.

Lemma candidate_scores_le_1 :
  Forall (fun s => snd s <= 1) (candidate_scores self metrics stats).
Proof.
  pose proof lambda_score_cap. pose proof fargate_score_cap.
  pose proof spot_score_cap. pose proof (keep_score_base self metrics stats).
  unfold candidate_scores.
  repeat apply Forall_cons; try apply Forall_nil; cbn [snd]; lra.
Qed.

End ScoreCaps.

Section FirstBest.

Import Workload.

(** The head of the sorted list is the first entry of largest score of the
    list as written. *)
Lemma sort_desc_first_max (l : list (WorkloadClassification * R)) :
  l <> [] ->
  exists pre post,
    l = pre ++ hd (KEEP_EC2, 0) (sort_desc l) :: post
    /\ Forall (fun e => snd e < snd (hd (KEEP_EC2, 0) (sort_desc l))) pre
    /\ Forall (fun e => snd e <= snd (hd (KEEP_EC2, 0) (sort_desc l))) post.
Proof.
  induction l as [|a l IH]; [congruence|]. intros _.
  destruct l as [|b l'] eqn:El.
  - exists [], []. cbn. repeat split; constructor.
  - rewrite <- El in *.
    destruct IH as (pre & post & HL & Hpre & Hpost); [rewrite El; discriminate|].
    cbn [sort_desc fold_right]. fold (sort_desc l).
    destruct (sort_desc l) as [|x rest] eqn:Es.
    + pose proof (sort_desc_perm l) as Hp. rewrite Es in Hp.
      apply Permutation_nil in Hp. rewrite El in Hp. discriminate Hp.
    + cbn [hd] in *. cbn [insert_desc].
      destruct (Py.ltb (snd a) (snd x)) eqn:E; cbn [hd].
      * apply ltb_iff in E. exists (a :: pre), post.
        split; [rewrite HL at 1; reflexivity|].
        split; [apply Forall_cons; assumption | exact Hpost].
      * apply ltb_false_iff in E. exists [], l.
        split; [reflexivity|]. split; [apply Forall_nil|].
        rewrite HL. apply Forall_app. split.
        -- eapply Forall_impl; [|exact Hpre]. intros e He. cbv beta in He. lra.
        -- apply Forall_cons; [lra|].
           eapply Forall_impl; [|exact Hpost]. intros e He. cbv beta in He. lra.
Qed.

Lemma classify_savings_fields (self : WorkloadClassifier)
    (metrics : CloudWatchMetrics) :
  (estimated_savings_percent (classify self metrics),
   recommended_target (classify self metrics))
  = _estimate_savings self metrics (_compute_statistics self metrics)
      (classification (classify self metrics)).
Proof.
  unfold classify.
  destruct (hd (KEEP_EC2, 0) _) as [best_classification best_score].
  destruct (_estimate_savings _ _ _ best_classification) as [savings target] eqn:E.
  cbn [estimated_savings_percent recommended_target classification].
  rewrite E. reflexivity.
Qed.

Lemma classify_first_max (self : WorkloadClassifier)
    (metrics : CloudWatchMetrics) :
  exists pre post,
    candidate_scores self metrics (_compute_statistics self metrics)
    = pre ++ (classification (classify self metrics),
              confidence (classify self metrics)) :: post
    /\ Forall (fun e => snd e < confidence (classify self metrics)) pre
    /\ Forall (fun e => snd e <= confidence (classify self metrics)) post.
Proof.
  destruct (classify_fields self metrics) as (_ & others & Hs & Hc & _).
  cbv zeta in Hs, Hc.
  set (stats := _compute_statistics self metrics) in *.
  destruct (sort_desc_first_max (candidate_scores self metrics stats))
    as (pre & post & HL & Hpre & Hpost); [discriminate|].
  set (best := hd (KEEP_EC2, 0) (sort_desc (candidate_scores self metrics stats)))
    in *.
  assert (Hbest : best = (classification (classify self metrics), snd best)).
  { unfold best at 1. rewrite Hs. reflexivity. }
  assert (Hle : snd best <= 1).
  { pose proof (candidate_scores_le_1 self metrics stats) as H1.
    rewrite HL in H1. apply Forall_elt in H1. exact H1. }
  rewrite Rmin_left in Hc by lra. rewrite Hc.
  exists pre, post. rewrite <- Hbest. auto.
Qed.

End FirstBest.

(** X16: the classification is the first candidate of largest score in the
    order lambda, Fargate, spot, keep-EC2, and the confidence is that score
    itself: every candidate listed before the winner scores strictly less,
    every one after it no more. *)
Theorem classify_first_best (self : Workload.WorkloadClassifier)
    (metrics : Workload.CloudWatchMetrics) :
  let r := Workload.classify self metrics in
  exists pre post,
    Workload.candidate_scores self metrics (Workload.metrics_summary r)
    = pre ++ (Workload.classification r, Workload.confidence r) :: post
    /\ Forall (fun e => snd e < Workload.confidence r) pre
    /\ Forall (fun e => snd e <= Workload.confidence r) post.
Proof.
  intros r. subst r.
  destruct (classify_fields self metrics) as (Hsum & _).
  cbv zeta in Hsum. rewrite Hsum. apply classify_first_max.
Qed.

(** ** Reading the statistics summary *)

Section StatsDict.

Import Workload.

Lemma get_map_other (k k' : string) (v d : R) (s : Stats) :
  k <> k' ->
  stats_get (map (fun kv => if String.eqb (fst kv) k then (k, v) else kv) s) k' d
  = stats_get s k' d.
Proof.
  intros Hne. unfold stats_get.
  induction s as [|[a x] s IH]; [reflexivity|]. cbn [map find fst].
  destruct (String.eqb a k) eqn:Ea.
  - apply String.eqb_eq in Ea. subst a. cbn [fst].
    replace (String.eqb k k') with false
      by (symmetry; apply String.eqb_neq; exact Hne).
    exact IH.
  - cbn [fst]. destruct (String.eqb a k'); [reflexivity | exact IH].
Qed.

Lemma get_app_other (k k' : string) (v d : R) (s : Stats) :
  k <> k' -> stats_get (s ++ [(k, v)]) k' d = stats_get s k' d.
Proof.
  intros Hne. unfold stats_get.
  induction s as [|[a x] s IH]; cbn [app find fst].
  - replace (String.eqb k k') with false
      by (symmetry; apply String.eqb_neq; exact Hne).
    reflexivity.
  - destruct (String.eqb a k'); [reflexivity | exact IH].
Qed.

Lemma get_set_other (k k' : string) (v d : R) (s : Stats) :
  k <> k' -> stats_get (stats_set k v s) k' d = stats_get s k' d.
Proof.
  intros Hne. unfold stats_set.
  destruct (existsb _ s); [apply get_map_other | apply get_app_other]; exact Hne.
Qed.

Lemma get_set_same (k : string) (v d : R) (s : Stats) :
  stats_get (stats_set k v s) k d = v.
Proof.
  unfold stats_set, stats_get.
  induction s as [|[a x] s IH]; cbn [existsb map find fst app].
  - rewrite String.eqb_refl. reflexivity.
  - destruct (String.eqb a k) eqn:Ea; cbn [orb].
    + cbn [map find fst]. rewrite String.eqb_refl. reflexivity.
    + destruct (existsb _ s); cbn [map app find fst]; rewrite Ea; exact IH.
Qed.

Lemma get_update_other (kvs : list (string * R)) (k : string) (d : R) :
  Forall (fun kv => fst kv <> k) kvs ->
  forall s, stats_get (stats_update kvs s) k d = stats_get s k d.
Proof.
  unfold stats_update.
  induction 1 as [|kv kvs Hkv _ IH]; intros s; [reflexivity|].
  cbn [fold_left]. rewrite IH. apply get_set_other, Hkv.
Qed.

(** A block of assignments that is run only for a series that has samples
    leaves every other key as it was. *)
Lemma get_guarded_update (vs : list R) (kvs : list (string * R)) (k : string)
    (d : R) (s : Stats) :
  Forall (fun kv => fst kv <> k) kvs ->
  stats_get (match vs with [] => s | _ :: _ => stats_update kvs s end) k d
  = stats_get s k d.
Proof.
  intros H. destruct vs; [reflexivity | apply get_update_other, H].
Qed.

Lemma get_update_present (kvs : list (string * R)) (k : string) (v d : R) :
  NoDup (map fst kvs) -> In (k, v) kvs ->
  forall s, stats_get (stats_update kvs s) k d = v.
Proof.
  induction kvs as [|kv kvs IH]; intros Hnd Hin s; [contradiction|].
  cbn [map] in Hnd. apply NoDup_cons_iff in Hnd. destruct Hnd as [Hfresh Hnd].
  change (stats_update (kv :: kvs) s)
    with (stats_update kvs (stats_set (fst kv) (snd kv) s)).
  destruct Hin as [-> | Hin].
  - cbn [fst snd] in *. rewrite get_update_other; [apply get_set_same|].
    apply Forall_forall. intros kv Hkv E. apply Hfresh.
    rewrite <- E. apply in_map, Hkv.
  - apply IH; assumption.
Qed.

End StatsDict.

Ltac other_keys :=
  repeat (apply Forall_cons; [cbn [fst]; discriminate|]); apply Forall_nil.

(** Read a key of the summary back through the assignments that follow the
    one that set it. *)
Ltac read_back :=
  repeat first
    [ rewrite get_set_same
    | rewrite get_set_other by discriminate
    | rewrite get_guarded_update by other_keys ].

Ltac read_block :=
  apply get_update_present;
  [ cbn [map fst]; repeat constructor; cbn [In]; intuition discriminate
  | cbn [In]; tauto ].

Section SummaryCpu.

Import Workload.

Variable self : WorkloadClassifier.
Variable metrics : CloudWatchMetrics.

Lemma summary_cpu_read (d : R) :
  cpu_utilization metrics <> [] ->
  let stats := _compute_statistics self metrics in
  let cpu := values (cpu_utilization metrics) in
  stats_get stats "cpu_avg" d = Py.mean cpu
  /\ stats_get stats "cpu_max" d = Py.max_list cpu
  /\ stats_get stats "cpu_min" d = Py.min_list cpu
  /\ stats_get stats "cpu_stddev" d
     = (if (1 <? length cpu)%nat then Py.stdev cpu else 0)
  /\ stats_get stats "cpu_p95" d = Py._percentile cpu 95
  /\ stats_get stats "cpu_p50" d = Py._percentile cpu 50
  /\ stats_get stats "cpu_idle_percent" d
     = INR (length (filter (fun v => Py.ltb v 5) cpu)) / INR (length cpu) * 100
  /\ stats_get stats "burst_ratio" d = Py.max_list cpu / Rmax (Py.mean cpu) 0.1
  /\ stats_get stats "variability_score" d
     = (if (1 <? length cpu)%nat then Py.stdev cpu else 0)
       / Rmax (Py.mean cpu) 0.1.
Proof.
  intros Hne stats cpu. subst stats cpu.
  destruct (values (cpu_utilization metrics)) as [|c cs] eqn:E.
  { destruct (cpu_utilization metrics); [congruence | discriminate E]. }
  unfold _compute_statistics. cbv zeta. rewrite E. cbv iota.
  match goal with
  | |- context [stats_set "burst_ratio" _ ?s] => set (before := s)
  end.
  set (cpu := c :: cs) in *.
  assert (Havg : forall d', stats_get before "cpu_avg" d' = Py.mean cpu)
    by (intros; unfold before; read_back; read_block).
  assert (Hmax : forall d', stats_get before "cpu_max" d' = Py.max_list cpu)
    by (intros; unfold before; read_back; read_block).
  assert (Hmin : forall d', stats_get before "cpu_min" d' = Py.min_list cpu)
    by (intros; unfold before; read_back; read_block).
  assert (Hdev : forall d', stats_get before "cpu_stddev" d'
                            = if (1 <? length cpu)%nat then Py.stdev cpu else 0)
    by (intros; unfold before; read_back; read_block).
  assert (H95 : forall d', stats_get before "cpu_p95" d' = Py._percentile cpu 95)
    by (intros; unfold before; read_back; read_block).
  assert (H50 : forall d', stats_get before "cpu_p50" d' = Py._percentile cpu 50)
    by (intros; unfold before; read_back; read_block).
  assert (Hidle : forall d', stats_get before "cpu_idle_percent" d'
                             = INR (length (filter (fun v => Py.ltb v 5) cpu))
                               / INR (length cpu) * 100)
    by (intros; unfold before; read_back; read_block).
  clearbody before.
  repeat split; read_back; rewrite ?Havg, ?Hmax, ?Hmin, ?Hdev; auto.
Qed.

Lemma summary_no_cpu_read :
  cpu_utilization metrics = [] ->
  let stats := _compute_statistics self metrics in
  (forall k d,
     In k ["cpu_avg"; "cpu_max"; "cpu_min"; "cpu_stddev"; "cpu_p95";
           "cpu_p50"; "cpu_idle_percent"]%string ->
     stats_get stats k d = d)
  /\ (forall d, stats_get stats "burst_ratio" d = 0)
  /\ (forall d, stats_get stats "variability_score" d = 0).
Proof.
  intros E stats. subst stats. unfold _compute_statistics. cbv zeta.
  rewrite E. cbn [values map]. cbv iota.
  match goal with
  | |- context [stats_set "burst_ratio" _ ?s] => set (before := s)
  end.
  assert (Hdefault : forall k d,
            In k ["cpu_avg"; "cpu_max"; "cpu_min"; "cpu_stddev"; "cpu_p95";
                  "cpu_p50"; "cpu_idle_percent"]%string ->
            stats_get before k d = d).
  { intros k d Hk. unfold before. cbn [In] in Hk.
    repeat (destruct Hk as [<- | Hk]; [read_back; reflexivity|]).
    contradiction. }
  clearbody before.
  split; [|split].
  - intros k d Hk. pose proof (Hdefault k d Hk) as H. cbn [In] in Hk.
    repeat (destruct Hk as [<- | Hk]; [read_back; exact H|]).
    contradiction.
  - intros d. read_back. rewrite !Hdefault by (cbn [In]; tauto).
    rewrite Rmax_left by lra. lra.
  - intros d. read_back. rewrite !Hdefault by (cbn [In]; tauto).
    rewrite Rmax_left by lra. lra.
Qed.

End SummaryCpu.

(** X17: when the snapshot has CPU samples, the summary of the result of
    [classify] holds a CPU average and a CPU median between the CPU minimum
    and maximum, an idle share that is a percentage and a non-negative
    deviation. *)
Theorem summary_cpu_entries (self : Workload.WorkloadClassifier)
    (metrics : Workload.CloudWatchMetrics) :
  Workload.cpu_utilization metrics <> [] ->
  let get :=
    fun k => Workload.stats_get
               (Workload.metrics_summary (Workload.classify self metrics)) k 0 in
  get "cpu_min"%string <= get "cpu_avg"%string <= get "cpu_max"%string
  /\ get "cpu_min"%string <= get "cpu_p50"%string <= get "cpu_max"%string
  /\ 0 <= get "cpu_idle_percent"%string <= 100
  /\ 0 <= get "cpu_stddev"%string.
Proof.
  intros Hne get. subst get.
  destruct (classify_fields self metrics) as (Hsum & _).
  cbv zeta in Hsum. rewrite Hsum. clear Hsum.
  destruct (summary_cpu_read self metrics 0 Hne)
    as (Havg & Hmax & Hmin & Hdev & _ & H50 & Hidle & _).
  cbv zeta in *.
  rewrite Havg, Hmax, Hmin, Hdev, H50, Hidle.
  set (cpu := Workload.values (Workload.cpu_utilization metrics)).
  assert (Hcpu : cpu <> []).
  { unfold cpu, Workload.values.
    destruct (Workload.cpu_utilization metrics); [congruence | discriminate]. }
  split; [apply mean_bounds; [exact Hcpu | apply members_within_extremes]|].
  split; [apply median_between, Hcpu|].
  split; [apply filter_share, Hcpu|].
  destruct (1 <? length cpu)%nat; [apply sqrt_pos | lra].
Qed.

Lemma summary_cpu_entries_witness :
  let metrics :=
    Workload.mkCloudWatchMetrics "i-1" "t3.micro"
      [Workload.mkMetricDataPoint 0 10; Workload.mkMetricDataPoint 1 30]
      [] [] [] [] [] [] [] false false false 0 in
  Workload.cpu_utilization metrics <> []
  /\ (let get :=
        fun k => Workload.stats_get
                   (Workload.metrics_summary
                      (Workload.classify Workload.class_defaults metrics)) k 0 in
      get "cpu_min"%string <= get "cpu_avg"%string <= get "cpu_max"%string
      /\ get "cpu_min"%string <= get "cpu_p50"%string <= get "cpu_max"%string
      /\ 0 <= get "cpu_idle_percent"%string <= 100
      /\ 0 <= get "cpu_stddev"%string).
Proof.
  intros metrics.
  assert (H : Workload.cpu_utilization metrics <> []) by discriminate.
  split; [exact H | apply summary_cpu_entries, H].
Defined.

(** X18: when the snapshot has no CPU sample, the summary of the result of
    [classify] has none of the CPU keys, so that every reader gets its own
    default, and both ratios are 0. *)
Theorem summary_without_cpu (self : Workload.WorkloadClassifier)
    (metrics : Workload.CloudWatchMetrics) :
  Workload.cpu_utilization metrics = [] ->
  let stats := Workload.metrics_summary (Workload.classify self metrics) in
  (forall k d,
     In k ["cpu_avg"; "cpu_max"; "cpu_min"; "cpu_stddev"; "cpu_p95";
           "cpu_p50"; "cpu_idle_percent"]%string ->
     Workload.stats_get stats k d = d)
  /\ (forall d, Workload.stats_get stats "burst_ratio" d = 0)
  /\ (forall d, Workload.stats_get stats "variability_score" d = 0).
Proof.
  intros E stats. subst stats.
  destruct (classify_fields self metrics) as (Hsum & _).
  cbv zeta in Hsum. rewrite Hsum.
  apply summary_no_cpu_read, E.
Qed.

Lemma summary_without_cpu_witness :
  let metrics :=
    Workload.mkCloudWatchMetrics "i-1" "t3.micro" []
      [Workload.mkMetricDataPoint 0 40] [] [] [] [] [] [] false false false 0 in
  Workload.cpu_utilization metrics = []
  /\ (let stats :=
        Workload.metrics_summary
          (Workload.classify Workload.class_defaults metrics) in
      (forall k d,
         In k ["cpu_avg"; "cpu_max"; "cpu_min"; "cpu_stddev"; "cpu_p95";
               "cpu_p50"; "cpu_idle_percent"]%string ->
         Workload.stats_get stats k d = d)
      /\ (forall d, Workload.stats_get stats "burst_ratio" d = 0)
      /\ (forall d, Workload.stats_get stats "variability_score" d = 0)).
Proof.
  intros metrics.
  split; [reflexivity | apply summary_without_cpu; reflexivity].
Defined.

(** ** The savings estimate *)

(** X19: the savings estimate that [classify] returns, when there is one,
    lies between 0 and 80 percent; only a keep-EC2 verdict can come without
    an estimate, and a result without a recommended target has no estimate
    either. *)
Theorem classify_savings_range (self : Workload.WorkloadClassifier)
    (metrics : Workload.CloudWatchMetrics) :
  let r := Workload.classify self metrics in
  (forall s, Workload.estimated_savings_percent r = Some s -> 0 <= s <= 80)
  /\ (Workload.estimated_savings_percent r = None ->
      Workload.classification r = Workload.KEEP_EC2)
  /\ (Workload.recommended_target r = None ->
      Workload.estimated_savings_percent r = None).
Proof.
  intros r. subst r.
  pose proof (classify_savings_fields self metrics) as Hpair.
  set (stats := Workload._compute_statistics self metrics) in *.
  assert (Hidle : 0 <= Workload.stats_get stats "cpu_idle_percent" 0).
  { destruct (Workload.cpu_utilization metrics) as [|p ps] eqn:E.
    - destruct (summary_no_cpu_read self metrics E) as (Hd & _).
      cbv zeta in Hd. fold stats in Hd.
      rewrite Hd by (cbn [In]; tauto). lra.
    - assert (Hne : Workload.cpu_utilization metrics <> [])
        by (rewrite E; discriminate).
      destruct (summary_cpu_read self metrics 0 Hne)
        as (_ & _ & _ & _ & _ & _ & Hi & _).
      cbv zeta in Hi. fold stats in Hi. rewrite Hi.
      apply filter_share. unfold Workload.values. rewrite E. discriminate. }
  unfold Workload._estimate_savings in Hpair.
  destruct (Workload.classification (Workload.classify self metrics)).
  - cbv zeta in Hpair. injection Hpair as Hs Ht. rewrite Hs, Ht.
    split; [|split; discriminate].
    intros s H. injection H as <-.
    split; [apply Rmin_glb; lra | apply Rmin_r].
  - destruct (Py.ltb _ 25); [|destruct (Py.ltb _ 50)];
      injection Hpair as Hs Ht; rewrite Hs, Ht;
      (split; [intros s H; injection H as <-; lra | split; discriminate]).
  - injection Hpair as Hs Ht. rewrite Hs, Ht.
    split; [intros s H; injection H as <-; lra | split; discriminate].
  - destruct (Py.ltb _ 20); [|destruct (Py.gtb _ 80)];
      injection Hpair as Hs Ht; rewrite Hs, Ht;
      (split; [intros s H; try discriminate H; injection H as <-; lra|]);
      split; try discriminate; reflexivity.
Qed.

(** ** A snapshot without samples *)

Ltac decided_true c := replace c with true by (symmetry; cmp_true).
Ltac decided_false c := replace c with false by (symmetry; cmp_false).

Section NoData.

Import Workload.

Variable id type : string.
Variable eip storage asg : bool.
Variable age : Z.

Lemma no_series_is_empty_snapshot (metrics : CloudWatchMetrics) :
  no_series metrics ->
  metrics = empty_snapshot (instance_id metrics) (instance_type metrics)
              (has_elastic_ip metrics) (has_persistent_storage metrics)
              (in_auto_scaling_group metrics) (instance_age_days metrics).
Proof.
  destruct metrics. unfold no_series, empty_snapshot.
  cbn [cpu_utilization memory_utilization network_in network_out disk_read_ops
       disk_write_ops disk_read_bytes disk_write_bytes instance_id
       instance_type has_elastic_ip has_persistent_storage
       in_auto_scaling_group instance_age_days].
  intros (-> & -> & -> & -> & -> & -> & -> & ->). reflexivity.
Qed.

Lemma no_data_statistics :
  _compute_statistics class_defaults
    (empty_snapshot id type eip storage asg age) = empty_summary.
Proof. reflexivity. Qed.

Ltac read_empty :=
  unfold empty_summary;
  cbn [stats_get find fst snd String.eqb Ascii.eqb Bool.eqb
       empty_snapshot has_elastic_ip has_persistent_storage
       in_auto_scaling_group instance_age_days cpu_utilization values map
       LAMBDA_MAX_AVG_CPU LAMBDA_MIN_IDLE_PERCENT LAMBDA_MIN_BURST_RATIO
       FARGATE_MIN_AVG_CPU FARGATE_MAX_AVG_CPU FARGATE_MAX_CPU_STDDEV
       FARGATE_MIN_UPTIME_PERCENT class_defaults].

Lemma no_data_lambda :
  _score_lambda_candidate class_defaults
    (empty_snapshot id type eip storage asg age) empty_summary <= 0.15.
Proof.
  unfold _score_lambda_candidate. read_empty.
  rewrite !(Rmax_left 1 0.1) by lra.
  decided_false (Py.leb 100 20.0).
  decided_false (Py.geb 0 70.0).
  decided_false (Py.geb (0 / 1) 3.0).
  decided_true (Py.ltb 0 100).
  decided_false (Py.gtb 0 80).
  destruct storage, asg; apply Rmax_lub; lra.
Qed.

Lemma no_data_fargate :
  _score_fargate_candidate class_defaults
    (empty_snapshot id type eip storage asg age) empty_summary <= 0.1.
Proof.
  unfold _score_fargate_candidate. read_empty.
  decided_false (Py.leb 5.0 0).
  decided_false (Py.leb 100 25.0).
  decided_false (Py.geb (100 - 100) 80.0).
  decided_false (Py.ltb 100 15).
  decided_false (Py.gtb 0 1000).
  cbn [andb orb].
  destruct asg; apply Rmax_lub; lra.
Qed.

Lemma no_data_spot :
  _score_spot_candidate class_defaults
    (empty_snapshot id type eip storage asg age) empty_summary <= 0.2.
Proof.
  unfold _score_spot_candidate. read_empty.
  rewrite !(Rmax_left 1 0.1) by lra.
  change (_detect_periodic_pattern [] default_min_periods) with false.
  decided_false (Py.gtb (0 / 1) 1.0).
  decided_false (Py.gtb (0 / 1) 2.0).
  decided_false (Py.gtb 0 70).
  decided_true (Py.ltb 0 10000).
  cbn [andb].
  destruct (30 <? age)%Z, eip; apply Rmax_lub; lra.
Qed.

Lemma no_data_keep :
  _score_keep_ec2 class_defaults
    (empty_snapshot id type eip storage asg age) empty_summary
  = 0.3 + (if eip then 0.1 else 0) + (if storage then 0.1 else 0).
Proof.
  unfold _score_keep_ec2. read_empty.
  decided_false (Py.gtb 0 70).
  decided_false (Py.gtb 0 500).
  cbn [andb orb].
  destruct eip, storage; rewrite Rmin_left by lra; lra.
Qed.

Lemma no_data_result :
  let r := classify class_defaults (empty_snapshot id type eip storage asg age) in
  classification r = KEEP_EC2
  /\ confidence r = 0.3 + (if eip then 0.1 else 0) + (if storage then 0.1 else 0)
  /\ alternative_classifications r = []
  /\ estimated_savings_percent r = None
  /\ recommended_target r = None.
Proof.
  intros r. subst r.
  set (metrics := empty_snapshot id type eip storage asg age).
  pose proof no_data_lambda as Hl. pose proof no_data_fargate as Hf.
  pose proof no_data_spot as Hs. pose proof no_data_keep as Hk.
  fold metrics in Hl, Hf, Hs, Hk.
  assert (Hkeep : 0.3 <= _score_keep_ec2 class_defaults metrics empty_summary
                  <= 0.5)
    by (rewrite Hk; destruct eip, storage; lra).
  destruct (classify_first_max class_defaults metrics)
    as (pre & post & HL & Hpre & Hpost).
  pose proof (classify_savings_fields class_defaults metrics) as Hpair.
  destruct (classify_fields class_defaults metrics)
    as (_ & others & Hsorted & _ & Halt).
  cbv zeta in Hsorted, Halt.
  change (_compute_statistics class_defaults metrics) with empty_summary in *.
  unfold candidate_scores in HL.
  assert (Hwin : classification (classify class_defaults metrics) = KEEP_EC2
                 /\ confidence (classify class_defaults metrics)
                    = _score_keep_ec2 class_defaults metrics empty_summary).
  { revert HL Hpre Hpost.
    generalize (classification (classify class_defaults metrics)) as c.
    generalize (confidence (classify class_defaults metrics)) as v.
    intros v c HL Hpre Hpost.
    split_position HL; forall_hyps; try (split; reflexivity); exfalso; lra. }
  destruct Hwin as [Hc Hconf].
  split; [exact Hc|]. split; [rewrite Hconf; exact Hk|].
  split.
  - rewrite Halt.
    assert (Hperm : Permutation
              ((classification (classify class_defaults metrics),
                snd (hd (KEEP_EC2, 0)
                       (sort_desc (candidate_scores class_defaults metrics
                                     empty_summary)))) :: others)
              (candidate_scores class_defaults metrics empty_summary)).
    { rewrite <- Hsorted. apply sort_desc_perm. }
    rewrite Hc in Hperm.
    assert (Hlow : Forall (fun e => snd e <= 0.2) others).
    { apply Forall_forall. intros e He.
      assert (Hin : In e (candidate_scores class_defaults metrics empty_summary))
        by (eapply Permutation_in; [exact Hperm | right; exact He]).
      assert (Hnd : NoDup (KEEP_EC2 :: map fst others)).
      { change (KEEP_EC2 :: map fst others)
          with (map fst ((KEEP_EC2,
                          snd (hd (KEEP_EC2, 0)
                                 (sort_desc (candidate_scores class_defaults
                                               metrics empty_summary))))
                         :: others)).
        eapply Permutation_NoDup;
          [apply Permutation_sym, Permutation_map, Hperm
          | apply candidate_labels_nodup]. }
      apply NoDup_cons_iff in Hnd. destruct Hnd as [Hfresh _].
      unfold candidate_scores in Hin. cbn [In] in Hin.
      destruct Hin as [<- | [<- | [<- | [<- | []]]]]; cbn [snd]; try lra.
      exfalso. apply Hfresh. apply (in_map fst) in He. exact He. }
    clear - Hlow. induction Hlow as [|e l He _ IH]; [reflexivity|].
    cbn [filter].
    replace (Py.gtb (snd e) 0.3) with false
      by (symmetry; apply gtb_false_iff; lra).
    exact IH.
  - rewrite Hc in Hpair. unfold _estimate_savings in Hpair.
    unfold empty_summary in Hpair.
    cbn [stats_get find fst snd String.eqb Ascii.eqb Bool.eqb] in Hpair.
    replace (Py.ltb 50 20) with false in Hpair by (symmetry; cmp_false).
    replace (Py.gtb 50 80) with false in Hpair by (symmetry; cmp_false).
    injection Hpair as -> ->. split; reflexivity.
Qed.

End NoData.

(** X20: for a classifier built without configuration, a snapshot whose
    series are all empty is kept on EC2, with confidence 0.3 plus 0.1 for an
    elastic IP and 0.1 for persistent storage, no alternative, no savings
    estimate and no target, and the one warning that the data are limited
    to 0 points. *)
Theorem no_data_keeps_ec2 (metrics : Workload.CloudWatchMetrics) :
  no_series metrics ->
  let r := Workload.classify (Workload.__init__ None) metrics in
  Workload.classification r = Workload.KEEP_EC2
  /\ Workload.confidence r
     = 0.3 + (if Workload.has_elastic_ip metrics then 0.1 else 0)
       + (if Workload.has_persistent_storage metrics then 0.1 else 0)
  /\ Workload.alternative_classifications r = []
  /\ Workload.estimated_savings_percent r = None
  /\ Workload.recommended_target r = None
  /\ Workload.classify_warnings (Workload.__init__ None) metrics
     = [limited_data_warning 0].
Proof.
  intros Hempty r. subst r.
  change (Workload.__init__ None) with Workload.class_defaults.
  rewrite (no_series_is_empty_snapshot metrics Hempty).
  cbn [empty_snapshot Workload.has_elastic_ip Workload.has_persistent_storage].
  match goal with
  | |- context [Workload.classify _ ?m] =>
      change m with (empty_snapshot (Workload.instance_id metrics)
                       (Workload.instance_type metrics)
                       (Workload.has_elastic_ip metrics)
                       (Workload.has_persistent_storage metrics)
                       (Workload.in_auto_scaling_group metrics)
                       (Workload.instance_age_days metrics))
  end.
  destruct (no_data_result (Workload.instance_id metrics)
              (Workload.instance_type metrics)
              (Workload.has_elastic_ip metrics)
              (Workload.has_persistent_storage metrics)
              (Workload.in_auto_scaling_group metrics)
              (Workload.instance_age_days metrics))
    as (Hc & Hconf & Halt & Hs & Ht).
  repeat (split; [assumption|]).
  unfold Workload.classify_warnings. rewrite Hc. reflexivity.
Qed.

Lemma no_data_keeps_ec2_witness :
  let metrics := empty_snapshot "i-0" "m5.large" true false false 400 in
  no_series metrics
  /\ (let r := Workload.classify (Workload.__init__ None) metrics in
      Workload.classification r = Workload.KEEP_EC2
      /\ Workload.confidence r
         = 0.3 + (if Workload.has_elastic_ip metrics then 0.1 else 0)
           + (if Workload.has_persistent_storage metrics then 0.1 else 0)
      /\ Workload.alternative_classifications r = []
      /\ Workload.estimated_savings_percent r = None
      /\ Workload.recommended_target r = None
      /\ Workload.classify_warnings (Workload.__init__ None) metrics
         = [limited_data_warning 0]).
Proof.
  intros metrics.
  assert (H : no_series metrics) by (repeat split).
  split; [exact H | apply no_data_keeps_ec2, H].
Defined.

(** ** Warnings *)

(** X21: whatever the summary and the verdict, there are at most two
    warnings; with fewer than 336 CPU samples the first one is the
    limited-data warning, which carries the number of samples, and with 336
    or more that warning is absent; a keep-EC2 verdict carries no other
    warning. *)
Theorem warnings_of_verdict (self : Workload.WorkloadClassifier)
    (metrics : Workload.CloudWatchMetrics) (stats : Workload.Stats)
    (c : Workload.WorkloadClassification) :
  let w := Workload._generate_warnings self metrics stats c in
  let n := length (Workload.cpu_utilization metrics) in
  (length w <= 2)%nat
  /\ ((n < 336)%nat -> hd_error w = Some (limited_data_warning n))
  /\ ((336 <= n)%nat -> ~ In (limited_data_warning n) w)
  /\ (c = Workload.KEEP_EC2 ->
      w = if (n <? 336)%nat then [limited_data_warning n] else []).
Proof.
  intros w n. subst w. unfold Workload._generate_warnings. cbv zeta.
  fold n. fold (limited_data_warning n).
  assert (Hhead : exists tail, limited_data_warning n = ("L" ++ tail)%string)
    by (eexists; reflexivity).
  destruct Hhead as [tail Hhead].
  destruct (Nat.ltb_spec n 336) as [Hn | Hn];
    destruct c; cbn [Workload.WorkloadClassification_eqb app];
    repeat match goal with
    | |- context [if ?b then _ else _] => destruct b
    end;
    cbn [app length hd_error In];
    (split; [lia|]); (split; [intros; try reflexivity; lia|]);
    (split; [intros Hge;
             first [lia | rewrite Hhead; cbn [append]; intuition discriminate]|]);
    intros Hc; try discriminate Hc; reflexivity.
Qed.

(** ** The elastic-IP flag *)

(** X22: whatever the thresholds and the summary, setting the elastic-IP
    flag of a snapshot never raises its spot score and never lowers its
    keep-EC2 score, and leaves the lambda score, the Fargate score and the
    statistics summary as they are. *)
Theorem elastic_ip_effect (self : Workload.WorkloadClassifier)
    (metrics : Workload.CloudWatchMetrics) (stats : Workload.Stats) :
  Workload._score_spot_candidate self (with_elastic_ip true metrics) stats
  <= Workload._score_spot_candidate self (with_elastic_ip false metrics) stats
  /\ Workload._score_keep_ec2 self (with_elastic_ip false metrics) stats
     <= Workload._score_keep_ec2 self (with_elastic_ip true metrics) stats
  /\ Workload._score_lambda_candidate self (with_elastic_ip true metrics) stats
     = Workload._score_lambda_candidate self (with_elastic_ip false metrics)
         stats
  /\ Workload._score_fargate_candidate self (with_elastic_ip true metrics) stats
     = Workload._score_fargate_candidate self (with_elastic_ip false metrics)
         stats
  /\ Workload._compute_statistics self (with_elastic_ip true metrics)
     = Workload._compute_statistics self (with_elastic_ip false metrics).
Proof.
  split; [|split; [|repeat split]].
  - unfold Workload._score_spot_candidate, with_elastic_ip.
    cbn [Workload.has_elastic_ip Workload.cpu_utilization
         Workload.instance_age_days].
    destruct (Py.gtb _ 1.0), (Workload._detect_periodic_pattern _ _),
      (_ && _), (Py.gtb _ 70), (Py.ltb _ 10000),
      (30 <? Workload.instance_age_days metrics)%Z;
      unfold Rmax; repeat destruct (Rle_dec _ _); lra.
  - unfold Workload._score_keep_ec2, with_elastic_ip.
    cbn [Workload.has_elastic_ip Workload.has_persistent_storage].
    destruct (_ && _), (Py.gtb _ 70), (_ || _),
      (Workload.has_persistent_storage metrics);
      unfold Rmin; repeat destruct (Rle_dec _ _); lra.
Qed.

(** ** The correlation of two windows *)

Section CorrelationRange.

Import Workload.

(** X24: the correlation of two windows does not depend on their order. *)
Theorem correlation_symmetric (x y : list R) :
  _simple_correlation x y = _simple_correlation y x.
Proof.
  unfold _simple_correlation.
  destruct (length x =? length y)%nat eqn:E.
  - apply Nat.eqb_eq in E. unfold Py.len. rewrite <- E, Nat.eqb_refl.
    cbn [negb orb]. destruct (length x =? 0)%nat; [reflexivity|].
    cbv zeta. rewrite (orb_comm (Py.eqb (sqrt _) 0)).
    destruct (_ || _); [reflexivity|].
    match goal with
    | |- _ / (?a * ?b) = _ / (?b * ?a) => rewrite (Rmult_comm a b)
    end.
    apply (f_equal (fun n => n / _)).
    f_equal. apply map_ext. intros i. ring.
  - rewrite (Nat.eqb_sym (length y) (length x)), E. reflexivity.
Qed.

End CorrelationRange.
